(** * HHMI Brothers storefront: catalog, order pipeline and chat log

    A shallow embedding of the storefront scripts
    ([script.js], [HHMIBrothers/products.js], [ai-assistant.js]) together
    with the properties of the catalogue / order-derivation pipeline.

    JavaScript strings are sequences of UTF-16 code units; they are modelled
    as [list N].  Numbers that the scripts handle are integers (prices,
    quantities, totals); they are modelled as [Z], which agrees with the
    IEEE doubles of the engine as long as magnitudes stay below 2^53. *)

From Stdlib Require Import ZArith NArith List Ascii String Bool Lia.
From Stdlib Require Import Permutation Sorted.
From Stdlib Require Import DecimalString DecimalFacts DecimalPos.
From stdpp Require Import sorting gmap.
Import ListNotations.

Local Open Scope N_scope.

(** ** Strings as code-unit sequences *)

Abbreviation jsstring := (list N).

(** An ASCII literal as a JavaScript string. *)
Definition js (s : string) : jsstring :=
  List.map N_of_ascii (list_ascii_of_string s).

Definition nl : jsstring := [10].

(** [WhiteSpace] and [LineTerminator] of ECMAScript: the code units removed
    by [String.prototype.trim], skipped by [parseInt], and matched by the
    regular-expression class [\s]. *)
Definition isWhiteSpace (c : N) : bool :=
  ((9 <=? c) && (c <=? 13)) || (c =? 32) || (c =? 0xA0) || (c =? 0x1680)
  || ((0x2000 <=? c) && (c <=? 0x200A)) || (c =? 0x2028) || (c =? 0x2029)
  || (c =? 0x202F) || (c =? 0x205F) || (c =? 0x3000) || (c =? 0xFEFF).

Fixpoint trimStart (s : jsstring) : jsstring :=
  match s with
  | c :: r => if isWhiteSpace c then trimStart r else s
  | [] => []
  end.

Definition trimEnd (s : jsstring) : jsstring := rev (trimStart (rev s)).

Definition trim (s : jsstring) : jsstring := trimEnd (trimStart s).

(** [String.prototype.toLowerCase] is the engine's: the Unicode case
    conversion of the whole string, which can change its length (U+0130
    becomes two code units) and reaches every script (the Kelvin sign U+212A
    becomes [k]).  The scripts are modelled over any such conversion. *)
Class CaseMapping := toLowerCase : jsstring -> jsstring.

(** The conversion restricted to Basic Latin and Latin-1: A-Z and
    U+00C0..U+00DE without the multiplication sign move up by 32.  On
    strings of code units below U+0100 this is what the engine computes; it
    is used to run the scripts on such strings. *)
Definition toLowerUnit (c : N) : N :=
  if ((65 <=? c) && (c <=? 90))
     || ((0xC0 <=? c) && (c <=? 0xDE) && negb (c =? 0xD7))
  then c + 32 else c.

Definition latin1 : CaseMapping := List.map toLowerUnit.

Fixpoint startsWith (p s : jsstring) : bool :=
  match p, s with
  | [], _ => true
  | a :: p', b :: s' => (a =? b) && startsWith p' s'
  | _ :: _, [] => false
  end.

(** [s.includes(t)]: [t] occurs in [s] at some position. *)
Fixpoint includes (s t : jsstring) : bool :=
  startsWith t s ||
  match s with
  | [] => false
  | _ :: s' => includes s' t
  end.

(** ** Numbers *)

(** [String(n)] for an integer [n] that a double holds exactly: its decimal
    digits.  (From 10^21 on the engine prints an exponent; the integers of
    the statements below stay under 2^53.) *)
Definition numberToString (z : Z) : jsstring :=
  js (NilZero.string_of_int (Z.to_int z)).

(** Value of a code unit as a digit (0-9, a-z, A-Z). *)
Definition digitValue (c : N) : option Z :=
  if (48 <=? c) && (c <=? 57) then Some (Z.of_N (c - 48))
  else if (97 <=? c) && (c <=? 122) then Some (Z.of_N (c - 87))
  else if (65 <=? c) && (c <=? 90) then Some (Z.of_N (c - 55))
  else None.

Definition radixDigit (R : Z) (c : N) : option Z :=
  match digitValue c with
  | Some d => if (d <? R)%Z then Some d else None
  | None => None
  end.

(** Value of the longest prefix of radix-[R] digits. *)
Fixpoint parseDigits (R : Z) (acc : Z) (s : jsstring) : Z :=
  match s with
  | c :: r =>
      match radixDigit R c with
      | Some d => parseDigits R (acc * R + d)%Z r
      | None => acc
      end
  | [] => acc
  end.

Definition parseUnsigned (R : Z) (s : jsstring) : option Z :=
  match s with
  | c :: _ =>
      match radixDigit R c with
      | Some _ => Some (parseDigits R 0%Z s)
      | None => None
      end
  | [] => None
  end.

(** The input continues with [x] or [X]. *)
Definition hexMarkAhead (s : jsstring) : bool :=
  match s with
  | c :: _ => (c =? 120) || (c =? 88)
  | [] => false
  end.

(** [parseInt(input)] with no radix argument; [None] is [NaN].  After
    leading white space and an optional sign, a prefix [0x] or [0X] selects
    radix 16, anything else radix 10. *)
Definition parseInt (input : jsstring) : option Z :=
  let str := trimStart input in
  let '(sign, S1) :=
    match str with
    | c :: r =>
        if c =? 45 then ((-1)%Z, r)
        else if c =? 43 then (1%Z, r)
        else (1%Z, str)
    | [] => (1%Z, str)
    end in
  let '(R, S2) :=
    match S1 with
    | c :: r =>
        if (c =? 48) && hexMarkAhead r then (16%Z, tl r) else (10%Z, S1)
    | [] => (10%Z, S1)
    end in
  option_map (Z.mul sign) (parseUnsigned R S2).

(** [x || 1] for a number [x]: [NaN] and zero are falsy. *)
Definition orOne (x : option Z) : Z :=
  match x with
  | Some n => if (n =? 0)%Z then 1%Z else n
  | None => 1%Z
  end.

(** ** [encodeURIComponent] *)

Definition isAlnum (c : N) : bool :=
  ((48 <=? c) && (c <=? 57)) || ((65 <=? c) && (c <=? 90))
  || ((97 <=? c) && (c <=? 122)).

(** Code units that [encodeURIComponent] copies: letters, digits and
    [- _ . ! ~ * ' ( )]. *)
Definition uriUnreserved (c : N) : bool :=
  isAlnum c || (c =? 45) || (c =? 95) || (c =? 46) || (c =? 33)
  || (c =? 126) || (c =? 42) || (c =? 39) || (c =? 40) || (c =? 41).

Definition isHighSurrogate (c : N) : bool := (0xD800 <=? c) && (c <=? 0xDBFF).
Definition isLowSurrogate (c : N) : bool := (0xDC00 <=? c) && (c <=? 0xDFFF).

Definition utf8 (cp : N) : list N :=
  if cp <? 0x80 then [cp]
  else if cp <? 0x800 then [0xC0 + cp / 64; 0x80 + cp mod 64]
  else if cp <? 0x10000 then
    [0xE0 + cp / 4096; 0x80 + (cp / 64) mod 64; 0x80 + cp mod 64]
  else
    [0xF0 + cp / 262144; 0x80 + (cp / 4096) mod 64;
     0x80 + (cp / 64) mod 64; 0x80 + cp mod 64].

Definition hexDigit (d : N) : N := if d <? 10 then 48 + d else 55 + d.

Definition percentByte (b : N) : jsstring :=
  [37; hexDigit (b / 16); hexDigit (b mod 16)].

Definition percentEncode (cp : N) : jsstring :=
  List.concat (List.map percentByte (utf8 cp)).

(** [None] is the [URIError] raised on an unpaired surrogate. *)
Fixpoint encodeURIComponent (s : jsstring) : option jsstring :=
  match s with
  | [] => Some []
  | c :: rest =>
      if uriUnreserved c then option_map (cons c) (encodeURIComponent rest)
      else if isLowSurrogate c then None
      else if isHighSurrogate c then
        match rest with
        | d :: rest' =>
            if isLowSurrogate d then
              option_map
                (app (percentEncode
                        ((c - 0xD800) * 0x400 + (d - 0xDC00) + 0x10000)))
                (encodeURIComponent rest')
            else None
        | [] => None
        end
      else option_map (app (percentEncode c)) (encodeURIComponent rest)
  end.

(** ** Locale-dependent operations of the host *)

(** [Number.prototype.toLocaleString()] with no arguments formats in the
    default locale of the browser; the scripts do not fix it. *)
Class NumberFormat := numberToLocaleString : Z -> jsstring.

(** [String.prototype.localeCompare]: negative, zero or positive. *)
Class Collator := localeCompare : jsstring -> jsstring -> Z.

(** Digits in groups of three, separated by commas, least significant
    digit first. *)
Fixpoint group3 (rdigits : jsstring) : jsstring :=
  match rdigits with
  | a :: b :: c :: ((_ :: _) as r) => a :: b :: c :: 44 :: group3 r
  | _ => rdigits
  end.

(** Integer formatting of the [en-US] locale (also [en-GB], [en-PK],
    [ur-PK]): grouped thousands. *)
Definition enUS : NumberFormat :=
  fun z =>
    (if (z <? 0)%Z then [45] else [])
      ++ rev (group3 (rev (numberToString (Z.abs z)))).

(** Integer formatting of a locale that does not group four-digit numbers
    ([es-ES], [pl-PL]): for magnitudes below 10000 the plain digits. *)
Definition ungrouped : NumberFormat := numberToString.

(** ** Anchored regular expressions *)

Inductive regex : Type :=
| Never
| Empty
| Class (p : N -> bool)
| Seq (r1 r2 : regex)
| Alt (r1 r2 : regex)
| Star (r : regex).

(** [r+] *)
Definition Plus (r : regex) : regex := Seq r (Star r).

Fixpoint nullable (r : regex) : bool :=
  match r with
  | Never => false
  | Empty => true
  | Class _ => false
  | Seq r1 r2 => nullable r1 && nullable r2
  | Alt r1 r2 => nullable r1 || nullable r2
  | Star _ => true
  end.

Fixpoint deriv (c : N) (r : regex) : regex :=
  match r with
  | Never => Never
  | Empty => Never
  | Class p => if p c then Empty else Never
  | Seq r1 r2 =>
      if nullable r1 then Alt (Seq (deriv c r1) r2) (deriv c r2)
      else Seq (deriv c r1) r2
  | Alt r1 r2 => Alt (deriv c r1) (deriv c r2)
  | Star r1 => Seq (deriv c r1) (Star r1)
  end.

(** [/^r$/.test(s)] *)
Fixpoint regexTest (r : regex) (s : jsstring) : bool :=
  match s with
  | [] => nullable r
  | c :: s' => regexTest (deriv c r) s'
  end.

(** The language of a regular expression. *)
Inductive matches : regex -> jsstring -> Prop :=
| MEmpty : matches Empty []
| MClass p c : p c = true -> matches (Class p) [c]
| MSeq r1 r2 s1 s2 :
    matches r1 s1 -> matches r2 s2 -> matches (Seq r1 r2) (s1 ++ s2)
| MAltL r1 r2 s : matches r1 s -> matches (Alt r1 r2) s
| MAltR r1 r2 s : matches r2 s -> matches (Alt r1 r2) s
| MStarNil r : matches (Star r) []
| MStarCons r s1 s2 :
    matches r s1 -> matches (Star r) s2 -> matches (Star r) (s1 ++ s2).

(** ** Products ([HHMIBrothers/products.js]) *)

Module Product.
Record t : Type := make {
  id : Z;
  name : jsstring;
  price : Z;
  image : jsstring;
  description : jsstring;
  category : jsstring
}.
End Product.

Module Catalog.
Import Product.

(** The [products] array of the shop. *)
Definition products : list Product.t :=
  [ make 1 (js "Men's Winter Parka Jacket") 5499
      (js "assets/images/products/jacket1.jpeg")
      (js "Warm and stylish winter parka with hood and multiple pockets")
      (js "winter");
    make 2 (js "Women's Faux Leather Jacket") 4299
      (js "assets/images/products/jacket2.jpeg")
      (js "Elegant faux leather jacket perfect for casual and formal occasions")
      (js "leather");
    make 3 (js "Men's Denim Jacket") 3299
      (js "assets/images/products/jacket3.jpeg")
      (js "Classic denim jacket with a modern fit and comfortable feel")
      (js "denim");
    make 4 (js "Women's Puffer Jacket") 4799
      (js "assets/images/products/jacket4.jpeg")
      (js "Lightweight yet warm puffer jacket with water-resistant finish")
      (js "winter");
    make 5 (js "Men's Bomber Jacket") 3999
      (js "assets/images/products/jacket5.jpeg")
      (js "Classic bomber jacket with ribbed cuffs and comfortable fit")
      (js "casual");
    make 6 (js "Women's Trench Coat") 5999
      (js "assets/images/products/jacket3.jpeg")
      (js "Elegant trench coat perfect for formal occasions and rainy days")
      (js "formal");
    make 7 (js "Men's Hooded Jacket") 3799
      (js "assets/images/products/jacket1.jpeg")
      (js "Comfortable hooded jacket for everyday wear")
      (js "casual");
    make 8 (js "Women's Windbreaker") 3499
      (js "assets/images/products/jacket.jpeg")
      (js "Lightweight windbreaker perfect for windy days")
      (js "casual") ].
End Catalog.

(** ** [Array.prototype.sort] with a comparator *)

(** The result of [sort] is the stable rearrangement in which [a] precedes
    [b] whenever [cmp a b < 0]; insertion from the right computes it. *)
Fixpoint insertBy {A : Type} (cmp : A -> A -> Z) (x : A) (l : list A) : list A :=
  match l with
  | [] => [x]
  | y :: r => if (0 <? cmp x y)%Z then y :: insertBy cmp x r else x :: l
  end.

Definition sortBy {A : Type} (cmp : A -> A -> Z) (l : list A) : list A :=
  fold_right (insertBy cmp) [] l.

(** ** Order data and the page state ([script.js]) *)

Module Order.
(** The object built by [getOrderData]. *)
Record t : Type := make {
  product : jsstring;
  price : Z;
  quantity : Z;
  total : Z;
  name : jsstring;
  phone : jsstring;
  email : jsstring;
  address : jsstring;
  size : jsstring;
  instructions : jsstring;
  time : jsstring
}.
End Order.

(** Values of the controls of the order form. *)
Record Form : Type := mkForm {
  customer_name : jsstring;
  customer_phone : jsstring;
  customer_email : jsstring;
  customer_address : jsstring;
  product_size : jsstring;
  special_instructions : jsstring
}.

(** Text of the four lines of the order summary. *)
Record Summary : Type := mkSummary {
  summaryProduct : jsstring;
  summaryPrice : jsstring;
  summaryQuantity : jsstring;
  summaryTotal : jsstring
}.

(** What the page does to the outside: dialogs, console diagnostics of
    level [warn] and [error], opened windows, navigation.  The [console.log]
    traces of the scripts are not recorded. *)
Inductive Effect : Type :=
| Alert (message : jsstring)
| ConsoleWarn (message : jsstring)
| ConsoleError (message : jsstring) (arg : Z)
| WindowOpen (url target : jsstring)
| LocationHref (url : jsstring)
| EmailCopyInstructions (emailContent email subject gmailLink : jsstring).

Inductive Exception : Type := TypeError | URIError.

(** The globals of [script.js] and the parts of the document it reads and
    writes: the cards in the product grid, whether the order dialog is
    displayed, the values of the form controls and of the quantity field,
    the summary lines, the search box and the sort selector.  Styling
    (scroll lock, themes, menus) is left out.  [effects] lists the effects
    so far, oldest first. *)
Record State : Type := mkState {
  currentProduct : option Product.t;
  filteredProducts : list Product.t;
  productsContainer : list Product.t;
  orderModalOpen : bool;
  orderForm : Form;
  productQuantity : jsstring;
  summary : Summary;
  searchInput : jsstring;
  sortSelect : jsstring;
  effects : list Effect
}.

(** How an event handler ends: normally, or with an uncaught exception. *)
Inductive Completion : Type :=
| Normal (st : State)
| Throw (e : Exception) (st : State).

Definition set_currentProduct (v : option Product.t) (st : State) : State :=
  mkState v (filteredProducts st) (productsContainer st) (orderModalOpen st)
    (orderForm st) (productQuantity st) (summary st) (searchInput st)
    (sortSelect st) (effects st).

Definition set_filteredProducts (v : list Product.t) (st : State) : State :=
  mkState (currentProduct st) v (productsContainer st) (orderModalOpen st)
    (orderForm st) (productQuantity st) (summary st) (searchInput st)
    (sortSelect st) (effects st).

Definition set_productsContainer (v : list Product.t) (st : State) : State :=
  mkState (currentProduct st) (filteredProducts st) v (orderModalOpen st)
    (orderForm st) (productQuantity st) (summary st) (searchInput st)
    (sortSelect st) (effects st).

Definition set_orderModalOpen (v : bool) (st : State) : State :=
  mkState (currentProduct st) (filteredProducts st) (productsContainer st) v
    (orderForm st) (productQuantity st) (summary st) (searchInput st)
    (sortSelect st) (effects st).

Definition set_orderForm (v : Form) (st : State) : State :=
  mkState (currentProduct st) (filteredProducts st) (productsContainer st)
    (orderModalOpen st) v (productQuantity st) (summary st) (searchInput st)
    (sortSelect st) (effects st).

Definition set_productQuantity (v : jsstring) (st : State) : State :=
  mkState (currentProduct st) (filteredProducts st) (productsContainer st)
    (orderModalOpen st) (orderForm st) v (summary st) (searchInput st)
    (sortSelect st) (effects st).

Definition set_summary (v : Summary) (st : State) : State :=
  mkState (currentProduct st) (filteredProducts st) (productsContainer st)
    (orderModalOpen st) (orderForm st) (productQuantity st) v (searchInput st)
    (sortSelect st) (effects st).

Definition emit (e : Effect) (st : State) : State :=
  mkState (currentProduct st) (filteredProducts st) (productsContainer st)
    (orderModalOpen st) (orderForm st) (productQuantity st) (summary st)
    (searchInput st) (sortSelect st) (effects st ++ [e]).

(** Truthiness of a string: only the empty string is falsy. *)
Definition truthy (s : jsstring) : bool :=
  match s with
  | [] => false
  | _ :: _ => true
  end.

Definition jsstring_eqb (a b : jsstring) : bool :=
  if decide (a = b) then true else false.

(** [/^[^\s@]+@[^\s@]+\.[^\s@]+$/] *)
Definition notSpaceAt (c : N) : bool := negb (isWhiteSpace c || (c =? 64)).

Definition emailRegex : regex :=
  Seq (Plus (Class notSpaceAt))
    (Seq (Class (N.eqb 64))
       (Seq (Plus (Class notSpaceAt))
          (Seq (Class (N.eqb 46)) (Plus (Class notSpaceAt))))).

(** Symbols of the message templates, as code units. *)
Definition shoppingBags : jsstring := [0xD83D; 0xDECD; 0xFE0F].
Definition parcel : jsstring := [0xD83D; 0xDCE6].
Definition bust : jsstring := [0xD83D; 0xDC64].
Definition memo : jsstring := [0xD83D; 0xDCDD].
Definition alarmClock : jsstring := [0x23F0].
Definition bullet : jsstring := [0x2022].
Definition rule (n : nat) : jsstring := repeat 0x2500 n.

Module Script.
Section Page.
(** The catalogue, the values the markup gives to the form controls, and
    the locale of the browser. *)
Context (products : list Product.t) (formDefaults : Form).
Context {fmt : NumberFormat} {coll : Collator} {case : CaseMapping}.

Definition updateOrderSummary (st : State) : State :=
  match currentProduct st with
  | None =>
      emit (ConsoleWarn (js "No current product selected for order summary")) st
  | Some p =>
      let quantity := orOne (parseInt (productQuantity st)) in
      let total := (Product.price p * quantity)%Z in
      set_summary
        (mkSummary
           (js "Product: " ++ Product.name p)
           (js "Unit Price: PKR " ++ numberToLocaleString (Product.price p))
           (js "Quantity: " ++ numberToString quantity)
           (js "Total Amount: PKR " ++ numberToLocaleString total))
        st
  end.

Definition openOrderModal (productId : Z) (st : State) : State :=
  let st1 :=
    set_currentProduct
      (find (fun p => (Product.id p =? productId)%Z) products) st in
  match currentProduct st1 with
  | Some _ => set_orderModalOpen true (updateOrderSummary st1)
  | None => emit (ConsoleError (js "Product not found with ID:") productId) st1
  end.

(** The click listener that [setupBuyButtonEvents] gives to a buy button
    whose [data-id] reads as [productId].  [openOrderModal] has no [return]
    value and no [throw]: the listener gets nothing back from it, found or
    not, and ends normally. *)
Definition buyNowClick (productId : Z) (st : State) : Completion :=
  Normal (openOrderModal productId st).

Definition closeOrderModal (st : State) : State :=
  set_currentProduct None
    (set_productQuantity (js "1")
       (set_orderForm formDefaults (set_orderModalOpen false st))).

Definition loadProducts (productsToLoad : list Product.t) (st : State) : State :=
  set_productsContainer productsToLoad st.

Definition performSort (st : State) : State :=
  let sortValue := sortSelect st in
  let sortedProducts :=
    if jsstring_eqb sortValue (js "price-low") then
      sortBy (fun a b => (Product.price a - Product.price b)%Z)
        (filteredProducts st)
    else if jsstring_eqb sortValue (js "price-high") then
      sortBy (fun a b => (Product.price b - Product.price a)%Z)
        (filteredProducts st)
    else if jsstring_eqb sortValue (js "name") then
      sortBy (fun a b => localeCompare (Product.name a) (Product.name b))
        (filteredProducts st)
    else filteredProducts st in
  loadProducts sortedProducts st.

Definition performSearch (st : State) : State :=
  let searchTerm := trim (toLowerCase (searchInput st)) in
  let filtered :=
    if jsstring_eqb searchTerm [] then products
    else
      List.filter
        (fun product =>
           includes (toLowerCase (Product.name product)) searchTerm
           || includes (toLowerCase (Product.description product)) searchTerm
           || includes (toLowerCase (Product.category product)) searchTerm)
        products in
  performSort (set_filteredProducts filtered st).

(** [orderTime] is [new Date().toLocaleString()] at the call.  Reading
    [currentProduct.price] while no product is selected is a [TypeError]:
    the result is [None].  Quantity and total are the exact integers, which
    the doubles of the engine are as long as their magnitudes stay below
    2^53; what is stated of their values carries that bound. *)
Definition getOrderData (orderTime : jsstring) (st : State) : option Order.t :=
  match currentProduct st with
  | None => None
  | Some p =>
      let quantity := orOne (parseInt (productQuantity st)) in
      let total := (Product.price p * quantity)%Z in
      Some (Order.make (Product.name p) (Product.price p) quantity total
              (customer_name (orderForm st))
              (customer_phone (orderForm st))
              (customer_email (orderForm st))
              (customer_address (orderForm st))
              (product_size (orderForm st))
              (special_instructions (orderForm st))
              orderTime)
  end.

Definition formatOrderMessage (data : Order.t) : jsstring :=
  shoppingBags ++ js " NEW ORDER - HHMI Brothers" ++ nl
  ++ nl
  ++ parcel ++ js " ORDER DETAILS:" ++ nl
  ++ js "Product: " ++ Order.product data ++ nl
  ++ js "Price: PKR " ++ numberToLocaleString (Order.price data) ++ nl
  ++ js "Quantity: " ++ numberToString (Order.quantity data) ++ nl
  ++ js "Total: PKR " ++ numberToLocaleString (Order.total data) ++ nl
  ++ js "Size: " ++ Order.size data ++ nl
  ++ nl
  ++ bust ++ js " CUSTOMER INFO:" ++ nl
  ++ js "Name: " ++ Order.name data ++ nl
  ++ js "Phone: " ++ Order.phone data ++ nl
  ++ (if truthy (Order.email data)
      then js "Email: " ++ Order.email data else []) ++ nl
  ++ js "Address: " ++ Order.address data ++ nl
  ++ nl
  ++ memo ++ js " INSTRUCTIONS:" ++ nl
  ++ (if truthy (Order.instructions data)
      then Order.instructions data else js "None") ++ nl
  ++ alarmClock ++ js " Order Time: " ++ Order.time data ++ js ";" ++ nl
  ++ rule 23 ++ nl
  ++ js "Order placed via HHMI Brothers Website" ++ nl
  ++ js "Please process this order and contact the customer for confirmation.".

Definition isValidEmail (email : jsstring) : bool :=
  regexTest emailRegex email.

Definition validateForm (st : State) : bool * State :=
  let name := customer_name (orderForm st) in
  let phone := customer_phone (orderForm st) in
  let email := customer_email (orderForm st) in
  let address := customer_address (orderForm st) in
  let size := product_size (orderForm st) in
  if negb (truthy name) || negb (truthy phone) || negb (truthy address)
     || negb (truthy size)
  then
    (false,
     emit (Alert (js "Please fill in all required fields (Name, Phone, Address, Size).")) st)
  else if truthy email && negb (isValidEmail email) then
    (false,
     emit (Alert (js "Please enter a valid email address or leave it empty.")) st)
  else (true, st).

Definition placeWhatsAppOrder (orderTime : jsstring) (st : State) : Completion :=
  let '(valid, st1) := validateForm st in
  if negb valid then Normal st1
  else
    match getOrderData orderTime st1 with
    | None => Throw TypeError st1
    | Some orderData =>
        let message := formatOrderMessage orderData in
        let phone := js "923429438436" in
        match encodeURIComponent message with
        | None => Throw URIError st1
        | Some text =>
            let url := js "https://wa.me/" ++ phone ++ js "?text=" ++ text in
            Normal (closeOrderModal (emit (WindowOpen url (js "_blank")) st1))
        end
    end.

Definition emailContentOf (body : jsstring) (orderData : Order.t) : jsstring :=
  body ++ nl
  ++ nl
  ++ js "---" ++ nl
  ++ js "ORDER SUMMARY:" ++ nl
  ++ bullet ++ js " Product: " ++ Order.product orderData ++ nl
  ++ bullet ++ js " Size: " ++ Order.size orderData ++ js "  " ++ nl
  ++ bullet ++ js " Quantity: " ++ numberToString (Order.quantity orderData) ++ nl
  ++ bullet ++ js " Total: PKR " ++ numberToLocaleString (Order.total orderData) ++ nl
  ++ bullet ++ js " Customer: " ++ Order.name orderData ++ nl
  ++ bullet ++ js " Phone: " ++ Order.phone orderData ++ nl
  ++ bullet ++ js " Address: " ++ Order.address orderData ++ nl
  ++ (if truthy (Order.email orderData)
      then bullet ++ js " Email: " ++ Order.email orderData else []) ++ nl
  ++ (if truthy (Order.instructions orderData)
      then bullet ++ js " Instructions: " ++ Order.instructions orderData
      else []) ++ nl
  ++ nl
  ++ js "Thank you for your order! We'll contact you within 24 hours. "
  ++ parcel.

(** The pop-up with the order text and the Gmail compose link; building
    the link encodes the subject and the text. *)
Definition showEmailCopyInstructions (emailContent email subject : jsstring)
    (st : State) : Completion :=
  match encodeURIComponent subject, encodeURIComponent emailContent with
  | Some su, Some body =>
      Normal
        (emit
           (EmailCopyInstructions emailContent email subject
              (js "https://mail.google.com/mail/?view=cm&fs=1&to=" ++ email
               ++ js "&su=" ++ su ++ js "&body=" ++ body))
           st)
  | _, _ => Throw URIError st
  end.

Definition placeEmailOrder (orderTime : jsstring) (st : State) : Completion :=
  let '(valid, st1) := validateForm st in
  if negb valid then
    Normal (emit (ConsoleWarn (js "Form validation failed for Email order")) st1)
  else
    match getOrderData orderTime st1 with
    | None => Throw TypeError st1
    | Some orderData =>
        let email := js "hhmibrothers@gmail.com" in
        let subject := js "NEW ORDER - HHMI Brothers - " ++ Order.product orderData in
        let body := formatOrderMessage orderData in
        showEmailCopyInstructions (emailContentOf body orderData) email subject st1
    end.
(** The button [I've Sent It] of the pop-up: the pop-up goes away and the
    order dialog closes. *)
Definition closeEmailModal (st : State) : State := closeOrderModal st.
End Page.
End Script.

(** ** The copy of the order flow in [HHMIBrothers/products.js]

    [getOrderData] and [closeOrderModal] have the same text there as in
    [script.js]; the functions below are the ones that differ. *)
Module Legacy.
Section Page.
Context (formDefaults : Form).
Context {fmt : NumberFormat}.

Definition formatOrderMessage (data : Order.t) : jsstring :=
  js "NEW ORDER - HHMI Brothers" ++ nl
  ++ nl
  ++ js "ORDER DETAILS:" ++ nl
  ++ rule 16 ++ nl
  ++ js "Product: " ++ Order.product data ++ nl
  ++ js "Unit Price: PKR " ++ numberToLocaleString (Order.price data) ++ nl
  ++ js "Quantity: " ++ numberToString (Order.quantity data) ++ nl
  ++ js "Total Amount: PKR " ++ numberToLocaleString (Order.total data) ++ nl
  ++ nl
  ++ js "CUSTOMER INFORMATION:" ++ nl
  ++ rule 16 ++ nl
  ++ js "Full Name: " ++ Order.name data ++ nl
  ++ js "Phone: " ++ Order.phone data ++ nl
  ++ js "Email: " ++ Order.email data ++ nl
  ++ js "Delivery Address: " ++ Order.address data ++ nl
  ++ js "Size: " ++ Order.size data ++ nl
  ++ nl
  ++ js "SPECIAL INSTRUCTIONS:" ++ nl
  ++ rule 16 ++ nl
  ++ (if truthy (Order.instructions data)
      then Order.instructions data else js "None") ++ nl
  ++ nl
  ++ rule 16 ++ nl
  ++ js "Order placed via HHMI Brothers Website" ++ nl
  ++ js "Order Time: " ++ Order.time data ++ nl
  ++ js "Please process this order and contact the customer for confirmation.".

Definition validateForm (st : State) : bool * State :=
  let name := customer_name (orderForm st) in
  let phone := customer_phone (orderForm st) in
  let email := customer_email (orderForm st) in
  let address := customer_address (orderForm st) in
  let size := product_size (orderForm st) in
  if negb (truthy name) || negb (truthy phone) || negb (truthy email)
     || negb (truthy address) || negb (truthy size)
  then (false, emit (Alert (js "Please fill in all required fields.")) st)
  else if negb (regexTest emailRegex email) then
    (false, emit (Alert (js "Please enter a valid email address.")) st)
  else (true, st).

Definition placeWhatsAppOrder (orderTime : jsstring) (st : State) : Completion :=
  let '(valid, st1) := validateForm st in
  if negb valid then
    Normal (emit (ConsoleWarn (js "Form validation failed for WhatsApp order")) st1)
  else
    match Script.getOrderData orderTime st1 with
    | None => Throw TypeError st1
    | Some orderData =>
        let message := formatOrderMessage orderData in
        let phone := js "+923441092910" in
        match encodeURIComponent message with
        | None => Throw URIError st1
        | Some text =>
            let url := js "https://wa.me/" ++ phone ++ js "?text=" ++ text in
            Normal
              (Script.closeOrderModal formDefaults
                 (emit (WindowOpen url (js "_blank")) st1))
        end
    end.

Definition placeEmailOrder (orderTime : jsstring) (st : State) : Completion :=
  let '(valid, st1) := validateForm st in
  if negb valid then
    Normal (emit (ConsoleWarn (js "Form validation failed for Email order")) st1)
  else
    match Script.getOrderData orderTime st1 with
    | None => Throw TypeError st1
    | Some orderData =>
        let subject := js "NEW ORDER - HHMI Brothers" in
        let body := formatOrderMessage orderData in
        let email := js "waqaskhank128@gmail.com" in
        match encodeURIComponent subject, encodeURIComponent body with
        | Some su, Some b =>
            let url :=
              js "mailto:" ++ email ++ js "?subject=" ++ su ++ js "&body=" ++ b in
            Normal (Script.closeOrderModal formDefaults (emit (LocationHref url) st1))
        | _, _ => Throw URIError st1
        end
    end.
End Page.
End Legacy.

(** ** The chat log ([ai-assistant.js]) *)

Module Assistant.
Inductive Sender : Type := user | bot.

(** An entry of [conversationHistory]. *)
Record Message : Type := mkMessage {
  type : Sender;
  content : jsstring;
  timestamp : jsstring
}.

(** [JSON.stringify] of a string: quotes, with the escapes of
    [QuoteJSONString]. *)
Definition hexLower (d : N) : N := if d <? 10 then 48 + d else 87 + d.

Definition unicodeEscape (c : N) : jsstring :=
  [92; 117; hexLower (c / 4096); hexLower ((c / 256) mod 16);
   hexLower ((c / 16) mod 16); hexLower (c mod 16)].

Definition quoteUnit (c : N) : jsstring :=
  if c =? 8 then [92; 98]
  else if c =? 9 then [92; 116]
  else if c =? 10 then [92; 110]
  else if c =? 12 then [92; 102]
  else if c =? 13 then [92; 114]
  else if c =? 34 then [92; 34]
  else if c =? 92 then [92; 92]
  else if (c <? 32) || isLowSurrogate c || isHighSurrogate c
  then unicodeEscape c
  else [c].

Fixpoint quoteUnits (s : jsstring) : jsstring :=
  match s with
  | [] => []
  | c :: rest =>
      if isHighSurrogate c then
        match rest with
        | d :: rest' =>
            if isLowSurrogate d then c :: d :: quoteUnits rest'
            else quoteUnit c ++ quoteUnits rest
        | [] => quoteUnit c
        end
      else quoteUnit c ++ quoteUnits rest
  end.

Definition quoteJSONString (s : jsstring) : jsstring :=
  [34] ++ quoteUnits s ++ [34].

Definition senderName (s : Sender) : jsstring :=
  match s with
  | user => js "user"
  | bot => js "bot"
  end.

Definition stringifyMessage (m : Message) : jsstring :=
  [123] ++ quoteJSONString (js "type") ++ [58]
  ++ quoteJSONString (senderName (type m)) ++ [44]
  ++ quoteJSONString (js "content") ++ [58]
  ++ quoteJSONString (content m) ++ [44]
  ++ quoteJSONString (js "timestamp") ++ [58]
  ++ quoteJSONString (timestamp m) ++ [125].

Fixpoint joinComma (parts : list jsstring) : jsstring :=
  match parts with
  | [] => []
  | [p] => p
  | p :: rest => p ++ [44] ++ joinComma rest
  end.

(** [JSON.stringify(conversationHistory)] *)
Definition JSON_stringify (h : list Message) : jsstring :=
  [91] ++ joinComma (List.map stringifyMessage h) ++ [93].

(** The globals of the module, the preference store, the messages shown
    in the chat window, and the console warnings so far. *)
Record State : Type := mkState {
  conversationHistory : list Message;
  localStorage : gmap (list N) (list N);
  aiMessages : list (jsstring * Sender);
  warnings : list jsstring
}.

Definition conversationKey : jsstring := js "hhmi-ai-conversation".

(** [a.slice(-n)]: the last [n] elements, all of them when there are
    fewer. *)
Definition sliceLast {A : Type} (n : nat) (a : list A) : list A :=
  skipn (length a - n) a.

Section Storage.
(** Whether the host stores the value: [setItem] raises when the quota
    is exceeded or storage is disabled. *)
Context (setItemSucceeds : gmap (list N) (list N) -> jsstring -> jsstring -> bool).

Definition saveConversationHistory (st : State) : State :=
  let history :=
    if (20 <? length (conversationHistory st))%nat
    then sliceLast 20 (conversationHistory st)
    else conversationHistory st in
  let value := JSON_stringify history in
  if setItemSucceeds (localStorage st) conversationKey value then
    mkState history (<[conversationKey := value]> (localStorage st))
      (aiMessages st) (warnings st)
  else
    mkState history (localStorage st) (aiMessages st)
      (warnings st ++ [js "Could not save conversation history:"]).

Definition addMessage (text : jsstring) (sender : Sender) (st : State) : State :=
  mkState (conversationHistory st) (localStorage st)
    (aiMessages st ++ [(text, sender)]) (warnings st).

Definition push (m : Message) (st : State) : State :=
  mkState (conversationHistory st ++ [m]) (localStorage st)
    (aiMessages st) (warnings st).

(** [now] is [new Date().toISOString()] at the call. *)
Definition addUserMessage (message now : jsstring) (st : State) : State :=
  saveConversationHistory
    (push (mkMessage user message now) (addMessage message user st)).

Definition addBotMessage (message now : jsstring) (st : State) : State :=
  saveConversationHistory
    (push (mkMessage bot message now) (addMessage message bot st)).

Definition clearConversationHistory (st : State) : State :=
  mkState [] (delete conversationKey (localStorage st))
    (aiMessages st) (warnings st).

(** A conversation: user and bot messages in the order they are added. *)
Inductive Event : Type :=
| UserSays (message now : jsstring)
| BotSays (message now : jsstring).

Definition messageOf (e : Event) : Message :=
  match e with
  | UserSays message now => mkMessage user message now
  | BotSays message now => mkMessage bot message now
  end.

Definition step (st : State) (e : Event) : State :=
  match e with
  | UserSays message now => addUserMessage message now st
  | BotSays message now => addBotMessage message now st
  end.

Definition run (events : list Event) (st : State) : State :=
  fold_left step events st.
End Storage.
End Assistant.

(** ** User input and sample states *)

Definition set_searchInput (v : jsstring) (st : State) : State :=
  mkState (currentProduct st) (filteredProducts st) (productsContainer st)
    (orderModalOpen st) (orderForm st) (productQuantity st) (summary st) v
    (sortSelect st) (effects st).

Definition set_sortSelect (v : jsstring) (st : State) : State :=
  mkState (currentProduct st) (filteredProducts st) (productsContainer st)
    (orderModalOpen st) (orderForm st) (productQuantity st) (summary st)
    (searchInput st) v (effects st).

Definition emptyForm : Form := mkForm [] [] [] [] [] [].

(** The page after load: nothing selected, the whole catalogue shown, the
    order dialog closed, the sort selector at its first entry. *)
Definition initialState (products : list Product.t) (formDefaults : Form) : State :=
  mkState None products products false formDefaults (js "1")
    (mkSummary [] [] [] []) [] (js "default") [].

(** A collator is consulted for the sort key [name] only; evaluations that
    use another key run with this one, which orders by code units. *)
Fixpoint compareUnits (a b : jsstring) : Z :=
  match a, b with
  | [], [] => 0%Z
  | [], _ :: _ => (-1)%Z
  | _ :: _, [] => 1%Z
  | x :: a', y :: b' =>
      if x <? y then (-1)%Z else if y <? x then 1%Z else compareUnits a' b'
  end.

Definition codeUnitCollator : Collator := compareUnits.

(** The product with id 4 of the shop, and the page with a search typed in. *)
Definition pufferJacket : Product.t :=
  nth 3 Catalog.products (Product.make 0 [] 0 [] [] []).

Definition searching (term : jsstring) : State :=
  set_searchInput term (initialState Catalog.products emptyForm).

(** ** Vocabulary of the specification *)

(** [t] occurs in [s]. *)
Definition Substring (t s : jsstring) : Prop :=
  exists pre post, s = pre ++ t ++ post.

(** What the searches below use of the engine's case conversion: white
    space has no case and no letter lower-cases to white space, so trimming
    before or after the conversion gives the same string, and the empty
    string stays empty. *)
Definition LeavesWhiteSpace (case : CaseMapping) : Prop :=
  (forall s, trim (toLowerCase s) = toLowerCase (trim s))
  /\ toLowerCase [] = [].

(** [field] contains [term], letter case ignored. *)
Definition ContainsCI {case : CaseMapping} (field term : jsstring) : Prop :=
  Substring (toLowerCase term) (toLowerCase field).

(** The match of the query engine: the term occurs in the name, the
    description or the category. *)
Definition Matches {case : CaseMapping} (p : Product.t) (term : jsstring) : Prop :=
  ContainsCI (Product.name p) term
  \/ ContainsCI (Product.description p) term
  \/ ContainsCI (Product.category p) term.

(** Empty or white space only. *)
Definition Blank (term : jsstring) : Prop :=
  Forall (fun c => isWhiteSpace c = true) term.

(** The integers that the engine's doubles hold exactly, and that [String]
    prints digit by digit: magnitude below 2^53.  On them the arithmetic of
    the scripts is the arithmetic of [Z]. *)
Definition SafeInteger (z : Z) : Prop := (Z.abs z < 9007199254740992)%Z.

(** A quantity and its total that the engine computes exactly, for a price
    that is not zero (the product of a zero price and a negative quantity
    is the negative zero of the doubles). *)
Definition SafeAmounts (price quantity : Z) : Prop :=
  SafeInteger quantity /\ price <> 0%Z /\ SafeInteger (price * quantity).

(** Decimal digits, and what the input continues with. *)
Definition isDecimalDigit (c : N) : bool := (48 <=? c) && (c <=? 57).

Definition digitAhead (s : jsstring) : bool :=
  match s with
  | c :: _ => isDecimalDigit c
  | [] => false
  end.

(** The input starts, after white space and an optional sign, with a
    decimal digit. *)
Definition leadingDigit (v : jsstring) : bool :=
  match trimStart v with
  | c :: r => if (c =? 45) || (c =? 43) then digitAhead r else isDecimalDigit c
  | [] => false
  end.

(** The code units of a decimal numeral. *)
Definition digitsOf (d : Decimal.uint) : jsstring :=
  js (NilEmpty.string_of_uint d).

(** The quantity of the order, and the quantity line of the summary, when
    [v] is the value of the quantity field. *)
Definition orderQuantity (orderTime v : jsstring) (st : State) : option Z :=
  option_map Order.quantity
    (Script.getOrderData orderTime (set_productQuantity v st)).

Definition orderTotal (orderTime v : jsstring) (st : State) : option Z :=
  option_map Order.total
    (Script.getOrderData orderTime (set_productQuantity v st)).

Definition summaryQuantityLine `{NumberFormat} (v : jsstring) (st : State) : jsstring :=
  summaryQuantity (summary (Script.updateOrderSummary (set_productQuantity v st))).

(** The page after the second product of the shop was picked, in a browser
    with the [en-US] locale. *)
Definition leatherJacket : Product.t :=
  nth 1 Catalog.products (Product.make 0 [] 0 [] [] []).

Definition orderingLeatherJacket : State :=
  Script.openOrderModal (fmt := enUS) Catalog.products 2
    (initialState Catalog.products emptyForm).

(** The shape of an accepted e-mail address: a local part, one [@], and a
    domain with a dot that is neither its first nor its last code unit; no
    white space and no second [@] anywhere. *)
Definition Plain (c : N) : Prop := isWhiteSpace c = false /\ c <> 64.

Definition EmailShape (e : jsstring) : Prop :=
  exists loc domain tld,
    e = loc ++ [64] ++ domain ++ [46] ++ tld
    /\ loc <> [] /\ domain <> [] /\ tld <> []
    /\ Forall Plain loc /\ Forall Plain domain /\ Forall Plain tld.

(** The required fields of the form are all filled in. *)
Definition RequiredFilled (f : Form) : Prop :=
  customer_name f <> [] /\ customer_phone f <> []
  /\ customer_address f <> [] /\ product_size f <> [].

(** Sample forms: one without an e-mail address, one whose required fields
    hold a single space. *)
Definition formWithoutEmail : Form :=
  mkForm (js "Ayesha Khan") (js "03001234567") []
    (js "12 Mall Road, Lahore") (js "M") [].

Definition formOfSpaces : Form :=
  mkForm (js " ") (js " ") [] (js " ") (js " ") [].

Definition requiredAlert : Effect :=
  Alert (js "Please fill in all required fields (Name, Phone, Address, Size).").

Definition emailAlert : Effect :=
  Alert (js "Please enter a valid email address or leave it empty.").

(** The parts of the page that make up the selection and the order
    dialog are the same in both states. *)
Definition SameSelection (st st' : State) : Prop :=
  currentProduct st' = currentProduct st
  /\ productQuantity st' = productQuantity st
  /\ orderModalOpen st' = orderModalOpen st
  /\ orderForm st' = orderForm st
  /\ summary st' = summary st.

(** Effects that hand the order to a channel. *)
Definition isChannelAction (e : Effect) : bool :=
  match e with
  | WindowOpen _ _ | LocationHref _ | EmailCopyInstructions _ _ _ _ => true
  | Alert _ | ConsoleWarn _ | ConsoleError _ _ => false
  end.

Definition emailWarning : Effect :=
  ConsoleWarn (js "Form validation failed for Email order").

(** An order for two leather jackets (the product priced 4299), filled in
    without an e-mail address, in a browser with the [en-US] locale. *)
(** A failure that reaches the caller: the handler ends with an exception. *)
Definition Raised (c : Completion) : Prop :=
  match c with
  | Throw _ _ => True
  | Normal _ => False
  end.

Definition twoLeatherJackets : State :=
  set_productQuantity (js "2")
    (set_orderForm formWithoutEmail orderingLeatherJacket).

Definition sampleOrderTime : jsstring := js "11/2/2026, 9:30:00 AM".

(** The telephone numbers of the two WhatsApp links. *)
Definition whatsappPhone : jsstring := js "923429438436".
Definition legacyWhatsappPhone : jsstring := js "+923441092910".

(** The message of that order, and the same order in the copy of the flow
    in [HHMIBrothers/products.js] (where the e-mail field is required). *)
Definition sampleMessage : option jsstring :=
  option_map (Script.formatOrderMessage (fmt := enUS))
    (Script.getOrderData sampleOrderTime twoLeatherJackets).

Definition formWithEmail : Form :=
  mkForm (js "Ayesha Khan") (js "03001234567") (js "ayesha@example.com")
    (js "12 Mall Road, Lahore") (js "M") [].

Definition twoLeatherJacketsLegacy : State :=
  set_productQuantity (js "2")
    (set_orderForm formWithEmail orderingLeatherJacket).

(** A chat of twenty-two messages, a host that stores every value, and the
    assistant before the first message. *)
Definition acceptAll : gmap (list N) (list N) -> jsstring -> jsstring -> bool :=
  fun _ _ _ => true.

Definition questions : list Assistant.Event :=
  repeat (Assistant.UserSays (js "Which jackets are warm?")
            (js "2026-11-02T09:30:00.000Z")) 21.

Definition answer : Assistant.Event :=
  Assistant.BotSays (js "Our parkas and puffer jackets.")
    (js "2026-11-02T09:30:01.000Z").

Definition longChat : list Assistant.Event := questions ++ [answer].

Definition freshAssistant : Assistant.State :=
  Assistant.mkState [] ∅ [] [].

(** ** The chat window ([ai-assistant.js]) *)

Module Chat.
(** The texts of the answers. *)
Definition apology : jsstring :=
  js "I apologize, but I'm having trouble processing your "
  ++ js "request. Please try again or contact our customer "
  ++ js "service directly.".

Definition productResponses : list jsstring :=
  [
    js "We have a fantastic collection of jackets! " ++ [0xD83E; 0xDDE5]
    ++ js " We offer:" ++ nl ++ nl ++ [0x2022]
    ++ js " Winter Parkas - Perfect for cold weather" ++ nl ++ [0x2022]
    ++ js " Leather Jackets - Classic and stylish" ++ nl ++ [0x2022]
    ++ js " Denim Jackets - Casual and comfortable" ++ nl ++ [0x2022]
    ++ js " Puffer Jackets - Lightweight warmth" ++ nl ++ [0x2022]
    ++ js " Bomber Jackets - Sporty and versatile" ++ nl ++ [0x2022]
    ++ js " Trench Coats - Elegant and formal" ++ nl ++ nl
    ++ js "Which type are you interested in?";
    js "Our jacket collection includes various styles for "
    ++ js "different occasions. We have everything from cozy "
    ++ js "winter parkas to stylish leather jackets. You can "
    ++ js "browse our products above or use the search feature to "
    ++ js "find specific types!";
    js "Looking for something specific? We have jackets for all "
    ++ js "seasons and occasions. Winter jackets for warmth, rain "
    ++ js "jackets for protection, and fashion jackets for style. "
    ++ js "What kind of jacket are you looking for?" ].

Definition priceResponse : jsstring :=
  js "Our jackets are priced between PKR 3,299 and PKR 5,999, "
  ++ js "offering great value for premium quality. " ++ [0xD83D; 0xDCB0]
  ++ nl ++ nl ++ [0x2022]
  ++ js " Budget-friendly options start at PKR 3,299" ++ nl ++ [0x2022]
  ++ js " Mid-range jackets: PKR 3,999 - PKR 4,799" ++ nl ++ [0x2022]
  ++ js " Premium jackets: PKR 4,799 - PKR 5,999" ++ nl ++ nl
  ++ js "You can sort products by price using the 'Sort by' "
  ++ js "feature above!".

Definition sizeResponse : jsstring :=
  js "We offer a comprehensive size range to ensure perfect " ++ js "fit: "
  ++ [0xD83D; 0xDCCF] ++ nl ++ nl ++ [0x2022]
  ++ js " S (Small) - Chest: 36-38" ++ [0x2033] ++ nl ++ [0x2022]
  ++ js " M (Medium) - Chest: 38-40" ++ [0x2033] ++ nl ++ [0x2022]
  ++ js " L (Large) - Chest: 40-42" ++ [0x2033] ++ nl ++ [0x2022]
  ++ js " XL (Extra Large) - Chest: 42-44" ++ [0x2033] ++ nl ++ [0x2022]
  ++ js " XXL (Double Extra Large) - Chest: 44-46" ++ [0x2033] ++ nl ++ nl
  ++ js "All our jackets are true to size with comfortable fits. "
  ++ js "When you place an order, you can select your preferred "
  ++ js "size!".

Definition orderResponse : jsstring :=
  js "Ordering is easy! Here's how: " ++ [0xD83D; 0xDED2] ++ nl ++ nl
  ++ js "1. Browse our jacket collection" ++ nl
  ++ js "2. Click 'Buy Now' on your chosen product" ++ nl
  ++ js "3. Fill out the order form with your details" ++ nl
  ++ js "4. Choose WhatsApp or Email to confirm" ++ nl
  ++ js "5. We'll contact you within 24 hours" ++ nl ++ nl
  ++ js "We offer cash on delivery in Peshawar and various "
  ++ js "payment options for other cities!".

Definition deliveryResponse : jsstring :=
  js "Delivery Information: " ++ [0xD83D; 0xDE9A] ++ nl ++ nl ++ [0x2022]
  ++ js " Peshawar: 1-2 business days" ++ nl ++ [0x2022]
  ++ js " Other major cities: 2-3 business days" ++ nl ++ [0x2022]
  ++ js " Remote areas: 3-5 business days" ++ nl ++ [0x2022]
  ++ js " Free delivery on orders above PKR 10,000" ++ nl ++ [0x2022]
  ++ js " We use reliable courier services" ++ nl ++ [0x2022]
  ++ js " Tracking information provided for all orders" ++ nl ++ nl
  ++ js "Your jacket will arrive safely packaged and ready to "
  ++ js "wear!".

Definition contactResponse : jsstring :=
  js "Contact HHMI Brothers: " ++ [0xD83D; 0xDCDE] ++ nl ++ nl
  ++ [0xD83D; 0xDCCD] ++ js " Store Location: Saddar Bazar, Peshawar" ++ nl
  ++ [0xD83D; 0xDCDE] ++ js " Phone/WhatsApp: +92 3429438436" ++ nl
  ++ [0xD83D; 0xDCE7] ++ js " Email: hhmibrothers@gmail.com" ++ nl
  ++ [0xD83D; 0xDD52] ++ js " Business Hours: 10:00 AM - 9:00 PM" ++ nl
  ++ nl ++ js "Visit our store to try jackets or message us for "
  ++ js "assistance!".

Definition materialResponse : jsstring :=
  js "Quality Materials: " ++ [0xD83E; 0xDDF5] ++ nl ++ nl
  ++ js "Our jackets feature premium materials:" ++ nl ++ [0x2022]
  ++ js " Genuine Leather - Durable and stylish" ++ nl ++ [0x2022]
  ++ js " Premium Denim - Comfortable and long-lasting" ++ nl ++ [0x2022]
  ++ js " Polyester Blends - Water-resistant and lightweight" ++ nl
  ++ [0x2022] ++ js " Wool Blends - Warm and breathable" ++ nl ++ [0x2022]
  ++ js " Cotton - Soft and comfortable" ++ nl ++ nl
  ++ js "All materials are carefully selected for quality and "
  ++ js "comfort!".

Definition returnResponse : jsstring :=
  js "Return & Exchange Policy: " ++ [0xD83D; 0xDD04] ++ nl ++ nl
  ++ [0x2022] ++ js " 7-day return window" ++ nl ++ [0x2022]
  ++ js " Items must be unworn with tags" ++ nl ++ [0x2022]
  ++ js " Original packaging required" ++ nl ++ [0x2022]
  ++ js " Exchanges subject to availability" ++ nl ++ [0x2022]
  ++ js " Refunds processed within 3-5 days" ++ nl ++ [0x2022]
  ++ js " Contact us for return authorization" ++ nl ++ nl
  ++ js "We want you to be completely satisfied with your "
  ++ js "purchase!".

Definition rainResponse : jsstring :=
  js "For rainy weather, I recommend our waterproof trench "
  ++ js "coats and rain jackets. They provide excellent "
  ++ js "protection while maintaining style. Look for jackets "
  ++ js "with water-resistant coatings! " ++ [0x2614].

Definition coldResponse : jsstring :=
  js "For cold weather, our winter parkas and puffer jackets "
  ++ js "are perfect! They offer excellent insulation with hoods "
  ++ js "and multiple pockets for functionality. Stay warm and "
  ++ js "stylish! " ++ [0x2744; 0xFE0F].

Definition anyWeatherResponse : jsstring :=
  js "We have jackets for all weather conditions! Lightweight "
  ++ js "options for mild weather, insulated jackets for cold, "
  ++ js "and waterproof options for rain. What weather "
  ++ js "conditions are you preparing for?".

Definition greetingResponses : list jsstring :=
  [
    js "Hello! " ++ [0xD83D; 0xDC4B]
    ++ js " I'm your AI shopping assistant at HHMI Brothers. I can "
    ++ js "help you find the perfect jacket, check sizes, compare "
    ++ js "prices, or guide you through ordering. What would you "
    ++ js "like to know?";
    js "Hi there! " ++ [0xD83E; 0xDDE5]
    ++ js " Welcome to HHMI Brothers. I'm here to help you with "
    ++ js "any questions about our jacket collection, sizes, "
    ++ js "prices, or delivery. How can I assist you today?";
    js "Greetings! I'm your personal shopping assistant. I can "
    ++ js "provide information about our products, help with "
    ++ js "sizing, explain our delivery process, or assist with "
    ++ js "ordering. What would you like help with?" ].

Definition defaultResponse : jsstring :=
  js "I'm not sure I understand. " ++ [0xD83E; 0xDD14]
  ++ js " I can help you with:" ++ nl ++ nl ++ [0x2022]
  ++ js " Finding specific types of jackets" ++ nl ++ [0x2022]
  ++ js " Size and fit guidance" ++ nl ++ [0x2022]
  ++ js " Price information and comparisons" ++ nl ++ [0x2022]
  ++ js " Delivery options and timing" ++ nl ++ [0x2022]
  ++ js " Order process explanation" ++ nl ++ [0x2022]
  ++ js " Store location and contact details" ++ nl ++ nl
  ++ js "Could you rephrase your question or ask about one of "
  ++ js "these topics?".

Definition includesAny (message : jsstring) (words : list jsstring) : bool :=
  existsb (includes message) words.

(** [responses[Math.floor(Math.random() * responses.length)]].  The draw
    and its product with the length are the engine's, computed in doubles;
    [randomIndex] is the index it arrives at.  The draw is below 1, which
    keeps the index below the length; reading past the end is not a text and
    is given as the empty one. *)
Definition getRandomResponse (randomIndex : nat) (responses : list jsstring) : jsstring :=
  nth randomIndex responses [].

Definition handleProductQuery (randomIndex : nat) (message : jsstring) : jsstring :=
  getRandomResponse randomIndex productResponses.

Definition handlePriceQuery (message : jsstring) : jsstring := priceResponse.
Definition handleSizeQuery (message : jsstring) : jsstring := sizeResponse.
Definition handleOrderQuery (message : jsstring) : jsstring := orderResponse.
Definition handleDeliveryQuery (message : jsstring) : jsstring := deliveryResponse.
Definition handleContactQuery (message : jsstring) : jsstring := contactResponse.
Definition handleMaterialQuery (message : jsstring) : jsstring := materialResponse.
Definition handleReturnQuery (message : jsstring) : jsstring := returnResponse.
Definition handleDefaultQuery (message : jsstring) : jsstring := defaultResponse.

Definition handleWeatherQuery (message : jsstring) : jsstring :=
  if includes message (js "rain") || includes message (js "water") then
    rainResponse
  else if includes message (js "winter") || includes message (js "cold") then
    coldResponse
  else anyWeatherResponse.

Definition handleGreetingQuery (randomIndex : nat) (message : jsstring) : jsstring :=
  getRandomResponse randomIndex greetingResponses.

Definition createAIResponse {case : CaseMapping} (randomIndex : nat) (message : jsstring) : jsstring :=
  let lowerMessage := toLowerCase message in
  if includes lowerMessage (js "jacket") || includes lowerMessage (js "product")
     || includes lowerMessage (js "collection")
  then handleProductQuery randomIndex lowerMessage
  else if includes lowerMessage (js "price") || includes lowerMessage (js "cost")
          || includes lowerMessage (js "how much")
  then handlePriceQuery lowerMessage
  else if includes lowerMessage (js "size") || includes lowerMessage (js "fit")
          || includes lowerMessage (js "measure")
  then handleSizeQuery lowerMessage
  else if includes lowerMessage (js "order") || includes lowerMessage (js "buy")
          || includes lowerMessage (js "purchase")
  then handleOrderQuery lowerMessage
  else if includes lowerMessage (js "delivery")
          || includes lowerMessage (js "shipping")
          || includes lowerMessage (js "dispatch")
  then handleDeliveryQuery lowerMessage
  else if includes lowerMessage (js "contact")
          || includes lowerMessage (js "location")
          || includes lowerMessage (js "address")
  then handleContactQuery lowerMessage
  else if includes lowerMessage (js "material")
          || includes lowerMessage (js "fabric")
          || includes lowerMessage (js "quality")
  then handleMaterialQuery lowerMessage
  else if includes lowerMessage (js "return")
          || includes lowerMessage (js "exchange")
          || includes lowerMessage (js "refund")
  then handleReturnQuery lowerMessage
  else if includes lowerMessage (js "weather") || includes lowerMessage (js "rain")
          || includes lowerMessage (js "winter")
          || includes lowerMessage (js "cold")
  then handleWeatherQuery lowerMessage
  else if includes lowerMessage (js "hello") || includes lowerMessage (js "hi")
          || includes lowerMessage (js "help")
  then handleGreetingQuery randomIndex lowerMessage
  else handleDefaultQuery lowerMessage.

(** The chat window: the assistant's log and store, the text in the input
    field, whether the window is open, the input errors reported on the
    console, and the messages for which an answer has been scheduled. *)
Record State : Type := mkState {
  assistant : Assistant.State;
  aiInput : jsstring;
  isAIChatOpen : bool;
  inputErrors : list jsstring;
  scheduled : list jsstring
}.

Section Storage.
Context (setItemSucceeds : gmap (list N) (list N) -> jsstring -> jsstring -> bool).
Context {case : CaseMapping}.

Definition showInputError (error : jsstring) (st : State) : State :=
  mkState (assistant st) (aiInput st) (isAIChatOpen st)
    (inputErrors st ++ [error]) (scheduled st).

Definition validateMessage (message : jsstring) (st : State) : bool * State :=
  if jsstring_eqb message [] then
    (false, showInputError (js "Please type a message") st)
  else if (500 <? length message)%nat then
    (false, showInputError (js "Message is too long (max 500 characters)") st)
  else (true, st).

(** The answer is produced later, when the timer fires: see [respond]. *)
Definition generateAIResponse (userMessage : jsstring) (st : State) : State :=
  mkState (assistant st) (aiInput st) (isAIChatOpen st) (inputErrors st)
    (scheduled st ++ [userMessage]).

(** [now] is [new Date().toISOString()] when the message is logged. *)
Definition handleSendMessage (now : jsstring) (st : State) : State :=
  let message := trim (aiInput st) in
  let '(valid, st1) := validateMessage message st in
  if negb valid then st1
  else
    let st2 :=
      mkState (Assistant.addUserMessage setItemSucceeds message now (assistant st1))
        [] (isAIChatOpen st1) (inputErrors st1) (scheduled st1) in
    generateAIResponse message st2.

(** The timer callback of [generateAIResponse] for [userMessage]. *)
Definition respond (randomIndex : nat) (now userMessage : jsstring) (st : State) : State :=
  mkState
    (Assistant.addBotMessage setItemSucceeds
       (createAIResponse randomIndex userMessage) now (assistant st))
    (aiInput st) (isAIChatOpen st) (inputErrors st) (scheduled st).

Definition handleKeyPress (key now : jsstring) (st : State) : State :=
  if jsstring_eqb key (js "Enter") then handleSendMessage now st else st.

Definition handleEscapeKey (key : jsstring) (st : State) : State :=
  if jsstring_eqb key (js "Escape") then
    mkState (assistant st) [] (isAIChatOpen st) (inputErrors st) (scheduled st)
  else st.

Definition openAIChat (st : State) : State :=
  mkState (assistant st) (aiInput st) true (inputErrors st) (scheduled st).

Definition closeAIChat (st : State) : State :=
  mkState (assistant st) [] false (inputErrors st) (scheduled st).

Definition handleAIToggle (st : State) : State :=
  if isAIChatOpen st then closeAIChat st else openAIChat st.
End Storage.
End Chat.

(** ** Themes ([script.js]) *)

Module Theme.
(** The class of the page body, the theme buttons (their [data-theme] and
    whether they carry the class [active]) and the preference store. *)
Record State : Type := mkState {
  bodyClassName : jsstring;
  themeOptions : list (jsstring * bool);
  localStorage : gmap (list N) (list N)
}.

(** How [changeTheme] ends: normally, or with the exception of a refused
    [setItem], which it does not catch. *)
Inductive Completion : Type :=
| Normal (st : State)
| Throw (st : State).

Definition themeKey : jsstring := js "hhmi-theme".

Section Storage.
Context (setItemSucceeds : gmap (list N) (list N) -> jsstring -> jsstring -> bool).

Definition changeTheme (themeName : jsstring) (st : State) : Completion :=
  let st1 :=
    mkState (themeName ++ js "-theme")
      (List.map (fun option => (fst option, jsstring_eqb (fst option) themeName))
         (themeOptions st))
      (localStorage st) in
  if setItemSucceeds (localStorage st1) themeKey themeName then
    Normal
      (mkState (bodyClassName st1) (themeOptions st1)
         (<[themeKey := themeName]> (localStorage st1)))
  else Throw st1.

Definition loadSavedTheme (st : State) : Completion :=
  let savedTheme :=
    match localStorage st !! themeKey with
    | Some saved => if truthy saved then saved else js "default"
    | None => js "default"
    end in
  changeTheme savedTheme st.
End Storage.
End Theme.

(** ** More vocabulary *)

(** A code unit of a string: below 2^16. *)
Definition Unit16 (c : N) : Prop := c < 65536.

(** Every surrogate is part of a pair. *)
Inductive WellFormed : jsstring -> Prop :=
| WellFormed_nil : WellFormed []
| WellFormed_unit c s :
    isHighSurrogate c = false -> isLowSurrogate c = false ->
    WellFormed s -> WellFormed (c :: s)
| WellFormed_pair c d s :
    isHighSurrogate c = true -> isLowSurrogate d = true ->
    WellFormed s -> WellFormed (c :: d :: s).

(** Text as a script can hold it and an encoder can encode it. *)
Definition Text (s : jsstring) : Prop := Forall Unit16 s /\ WellFormed s.

(** What may stand in a query parameter: an unreserved character or the
    percent sign of an escape. *)
Definition UrlSafe (c : N) : Prop := uriUnreserved c = true \/ c = 37.

(** All texts that go into an order are [Text]. *)
Definition OrderTexts (p : Product.t) (f : Form) (orderTime : jsstring) : Prop :=
  Text (Product.name p) /\ Text (customer_name f) /\ Text (customer_phone f)
  /\ Text (customer_email f) /\ Text (customer_address f)
  /\ Text (product_size f) /\ Text (special_instructions f)
  /\ Text orderTime.

(** The key words of [createAIResponse], in the order it tries them. *)
Definition productWords : list jsstring :=
  [js "jacket"; js "product"; js "collection"].

Definition laterWords : list jsstring :=
  [js "price"; js "cost"; js "how much"; js "size"; js "fit"; js "measure";
   js "order"; js "buy"; js "purchase"; js "delivery"; js "shipping";
   js "dispatch"; js "contact"; js "location"; js "address"; js "material";
   js "fabric"; js "quality"; js "return"; js "exchange"; js "refund";
   js "weather"; js "rain"; js "winter"; js "cold"].

Definition greetingWords : list jsstring := [js "hello"; js "hi"; js "help"].

(** Sample states of the chat window and of the theme selector. *)
Definition freshChat (input : jsstring) : Chat.State :=
  Chat.mkState freshAssistant input true [] [].

Definition themedPage : Theme.State :=
  Theme.mkState (js "default-theme")
    [(js "default", true); (js "dark", false); (js "ocean", false)] ∅.

Definition legacyRequiredAlert : Effect :=
  Alert (js "Please fill in all required fields.").

Definition legacyEmailAlert : Effect :=
  Alert (js "Please enter a valid email address.").

Definition whatsappWarning : Effect :=
  ConsoleWarn (js "Form validation failed for WhatsApp order").

(** The state after an order went out and the order dialog closed. *)
Definition orderSent (formDefaults : Form) (e : Effect) (st : State) : State :=
  mkState None (filteredProducts st) (productsContainer st) false formDefaults
    (js "1") (summary st) (searchInput st) (sortSelect st) (effects st ++ [e]).

(** The state in which a theme operation ends, raised or not. *)
Definition themeAfter (c : Theme.Completion) : Theme.State :=
  match c with
  | Theme.Normal st => st
  | Theme.Throw st => st
  end.

(** The theme that [loadSavedTheme] applies for a stored value. *)
Definition themeFor (stored : option jsstring) : jsstring :=
  match stored with
  | Some ((_ :: _) as saved) => saved
  | _ => js "default"
  end.

(** A theme button is active exactly when it is the button of [theme]. *)
Definition ActiveOnly (theme : jsstring) (options : list (jsstring * bool)) : Prop :=
  forall name active, In (name, active) options -> active = true <-> name = theme.

Definition allWords : list jsstring :=
  productWords ++ laterWords ++ greetingWords.

(** * Properties *)

(** ** Evaluations of the string and number primitives *)

Example parseInt_hex : parseInt (js "0x1F") = Some 31%Z.
Proof. reflexivity. Qed.

Example parseInt_spaces : parseInt (js "  -12px") = Some (-12)%Z.
Proof. reflexivity. Qed.

Example numberToString_neg : numberToString (-305) = js "-305".
Proof. reflexivity. Qed.

Example encodeURIComponent_text :
  encodeURIComponent (js "Size: M & L") = Some (js "Size%3A%20M%20%26%20L").
Proof. reflexivity. Qed.

Example encodeURIComponent_parcel :
  encodeURIComponent [0xD83D; 0xDCE6] = Some (js "%F0%9F%93%A6").
Proof. reflexivity. Qed.

Example enUS_4299 : @numberToLocaleString enUS 4299 = js "4,299".
Proof. reflexivity. Qed.

Example enUS_million : @numberToLocaleString enUS 1234567 = js "1,234,567".
Proof. reflexivity. Qed.

Example openOrderModal_selects :
  currentProduct orderingLeatherJacket = Some leatherJacket
  /\ orderModalOpen orderingLeatherJacket = true
  /\ summaryTotal (summary orderingLeatherJacket) = js "Total Amount: PKR 4,299".
Proof. repeat split. Qed.

Example search_jacket :
  List.map Product.id
    (filteredProducts
       (Script.performSearch (coll := codeUnitCollator) (case := latin1)
          Catalog.products
          (searching (js "  JACKET "))))
  = [1; 2; 3; 4; 5; 7]%Z.
Proof. reflexivity. Qed.

Example search_jacket_price_low :
  List.map Product.price
    (productsContainer
       (Script.performSearch (coll := codeUnitCollator) (case := latin1)
          Catalog.products
          (set_sortSelect (js "price-low") (searching (js "jacket")))))
  = [3299; 3799; 3999; 4299; 4799; 5499]%Z.
Proof. reflexivity. Qed.

Example isValidEmail_examples :
  Script.isValidEmail (js "ayesha@example.com") = true
  /\ Script.isValidEmail (js "not-an-email") = false
  /\ Script.isValidEmail (js "a@b@c.de") = false
  /\ Script.isValidEmail (js "a b@c.de") = false
  /\ Script.isValidEmail (js "a@b.") = false.
Proof. repeat split. Qed.

(** In a locale that prints four-digit numbers without a separator the
    message of the sample order holds the plain digits. *)
Example message_plain_digits :
  option_map
    (fun data =>
       includes (Script.formatOrderMessage (fmt := ungrouped) data)
         (js "Price: PKR 4299")
       && includes (Script.formatOrderMessage (fmt := ungrouped) data)
            (js "Total: PKR 8598"))
    (Script.getOrderData sampleOrderTime twoLeatherJackets)
  = Some true.
Proof. vm_compute. reflexivity. Qed.

(** ** Strings *)

Lemma startsWith_spec (p s : jsstring) :
  startsWith p s = true <-> exists post, s = p ++ post.
Proof.
  revert s; induction p as [|a p IH]; intros s; simpl.
  - split; eauto.
  - destruct s as [|b s].
    + split; [discriminate | intros [post H]; discriminate].
    + rewrite andb_true_iff, N.eqb_eq, IH. split.
      * intros [-> [post ->]]. eauto.
      * intros [post H]. injection H as -> ->. eauto.
Qed.

Lemma includes_spec (s t : jsstring) :
  includes s t = true <-> Substring t s.
Proof.
  unfold Substring. induction s as [|c s IH].
  - cbn [includes]. rewrite orb_false_r, startsWith_spec. split.
    + intros [post H]. exists [], post. exact H.
    + intros (pre & post & H). destruct pre; [|discriminate].
      exists post. exact H.
  - cbn [includes]. rewrite orb_true_iff, startsWith_spec, IH. split.
    + intros [[post H] | (pre & post & H)].
      * exists [], post. exact H.
      * exists (c :: pre), post. simpl. now rewrite H.
    + intros (pre & post & H). destruct pre as [|x pre].
      * left. exists post. exact H.
      * right. injection H as _ H. eauto.
Qed.

Lemma includes_false (s t : jsstring) :
  includes s t = false -> ~ Substring t s.
Proof.
  intros H Hs. apply includes_spec in Hs. congruence.
Qed.

Lemma letter_not_space (c : N) :
  (65 <= c <= 90) \/ (0xC0 <= c <= 0xDE) ->
  isWhiteSpace c = false /\ isWhiteSpace (c + 32) = false.
Proof.
  intros H. unfold isWhiteSpace.
  rewrite !orb_false_iff, !andb_false_iff, !N.eqb_neq, !N.leb_gt. lia.
Qed.

Lemma isWhiteSpace_toLowerUnit (c : N) :
  isWhiteSpace (toLowerUnit c) = isWhiteSpace c.
Proof.
  unfold toLowerUnit.
  destruct (_ || _) eqn:E; [|reflexivity].
  assert (H : (65 <= c <= 90) \/ (0xC0 <= c <= 0xDE)).
  { rewrite orb_true_iff, !andb_true_iff, !N.leb_le in E. lia. }
  destruct (letter_not_space c H) as [-> ->]. reflexivity.
Qed.

Lemma trimStart_latin1 (s : jsstring) :
  trimStart (toLowerCase (CaseMapping := latin1) s)
  = toLowerCase (CaseMapping := latin1) (trimStart s).
Proof.
  unfold toLowerCase, latin1.
  induction s as [|c s IH]; [reflexivity|].
  cbn [List.map trimStart]. rewrite isWhiteSpace_toLowerUnit.
  destruct (isWhiteSpace c); [exact IH | reflexivity].
Qed.

(** The Latin-1 conversion, as the engine's, leaves white space alone. *)
Lemma latin1_LeavesWhiteSpace : LeavesWhiteSpace latin1.
Proof.
  split; [|reflexivity]. intros s.
  assert (Hrev : forall x, toLowerCase (CaseMapping := latin1) (rev x)
                           = rev (toLowerCase (CaseMapping := latin1) x)).
  { intros x. apply map_rev. }
  unfold trim, trimEnd.
  now rewrite trimStart_latin1, <- Hrev, trimStart_latin1, Hrev.
Qed.

Lemma trimStart_nil_iff (s : jsstring) : trimStart s = [] <-> Blank s.
Proof.
  unfold Blank. induction s as [|c s IH]; simpl.
  - split; auto.
  - destruct (isWhiteSpace c) eqn:E.
    + rewrite IH. split; [intros H; constructor; assumption|].
      intros H. now inversion H.
    + split; [discriminate|]. intros H. inversion H. congruence.
Qed.

Lemma trimStart_head (s : jsstring) (c : N) (r : jsstring) :
  trimStart s = c :: r -> isWhiteSpace c = false.
Proof.
  induction s as [|x s IH]; simpl; [discriminate|].
  destruct (isWhiteSpace x) eqn:E; [exact IH|].
  intros H. injection H as -> ->. exact E.
Qed.

Lemma trimStart_suffix (s : jsstring) :
  exists ws, s = ws ++ trimStart s /\ Blank ws.
Proof.
  induction s as [|x s (ws & Hs & Hb)]; simpl.
  - exists []. split; [reflexivity | constructor].
  - destruct (isWhiteSpace x) eqn:E.
    + exists (x :: ws). split; [simpl; now rewrite <- Hs|].
      constructor; assumption.
    + exists []. split; [reflexivity | constructor].
Qed.

Lemma trim_nil_iff (s : jsstring) : trim s = [] <-> Blank s.
Proof.
  unfold trim, trimEnd. split.
  - intros H.
    assert (H1 : trimStart (rev (trimStart s)) = []).
    { apply (f_equal (@rev N)) in H. rewrite rev_involutive in H. exact H. }
    apply trimStart_nil_iff in H1.
    destruct (trimStart s) as [|c r] eqn:E.
    + now apply trimStart_nil_iff.
    + exfalso. apply trimStart_head in E.
      unfold Blank in H1. rewrite List.Forall_forall in H1.
      specialize (H1 c). rewrite H1 in E; [discriminate|].
      apply in_rev. rewrite rev_involutive. now left.
  - intros H. apply trimStart_nil_iff in H. now rewrite H.
Qed.

(** ** Query engine: filtering *)

Lemma jsstring_eqb_true (a b : jsstring) : jsstring_eqb a b = true <-> a = b.
Proof.
  unfold jsstring_eqb. destruct (decide (a = b)); split; congruence.
Qed.

Lemma filter_all {A : Type} (l : list A) : List.filter (fun _ => true) l = l.
Proof.
  induction l as [|x l IH]; simpl; [reflexivity | now rewrite IH].
Qed.

Lemma Substring_nil (s : jsstring) : Substring [] s.
Proof. exists [], s. reflexivity. Qed.

Lemma Matches_blank `{CaseMapping} (p : Product.t) (term : jsstring) :
  toLowerCase term = [] -> Matches p term.
Proof.
  intros E. left. unfold ContainsCI. rewrite E. apply Substring_nil.
Qed.

Lemma performSort_filteredProducts `{Collator} (st : State) :
  filteredProducts (Script.performSort st) = filteredProducts st.
Proof. reflexivity. Qed.

(** The filtered list is the catalogue filtered, in catalogue order, by the
    match against the trimmed input. *)
Lemma performSearch_filter `{Collator} (case : CaseMapping)
    (products : list Product.t) (st : State) :
  LeavesWhiteSpace case ->
  exists keep : Product.t -> bool,
    filteredProducts (Script.performSearch products st)
    = List.filter keep products
    /\ forall p, keep p = true <-> Matches p (trim (searchInput st)).
Proof.
  intros [Htrim Hnil].
  unfold Script.performSearch. rewrite performSort_filteredProducts.
  cbn [filteredProducts set_filteredProducts].
  destruct (jsstring_eqb (trim (toLowerCase (searchInput st))) []) eqn:E.
  - apply jsstring_eqb_true in E. rewrite Htrim in E.
    exists (fun _ => true). split; [now rewrite filter_all|].
    intros p. split; [intros _; now apply Matches_blank | reflexivity].
  - eexists. split; [reflexivity|]. intros p. cbv beta.
    rewrite !orb_true_iff, !includes_spec, Htrim.
    unfold Matches, ContainsCI. tauto.
Qed.

(** C1 (as amended): the filtering step of [performSearch] returns, in
    catalogue order, exactly the products whose name, description or
    category contains the trimmed search term (leading and trailing white
    space removed), letter case ignored; an empty or white-space-only term
    returns the whole catalogue.  Letter case is ignored by the engine's
    [toLowerCase], whatever it maps, of which only [LeavesWhiteSpace] is
    used. *)
Theorem search_returns_trimmed_matches
    (coll : Collator) (case : CaseMapping)
    (products : list Product.t) (st : State) :
  LeavesWhiteSpace case ->
  (exists keep : Product.t -> bool,
     filteredProducts (Script.performSearch products st)
     = List.filter keep products
     /\ forall p, keep p = true <-> Matches p (trim (searchInput st)))
  /\ (forall p,
        In p (filteredProducts (Script.performSearch products st))
        <-> In p products /\ Matches p (trim (searchInput st)))
  /\ (Blank (searchInput st) ->
      filteredProducts (Script.performSearch products st) = products).
Proof.
  intros Hcase.
  destruct (performSearch_filter case products st Hcase) as (keep & Hf & Hk).
  split; [exists keep; split; assumption|]. split.
  - intros p. rewrite Hf, filter_In, Hk. reflexivity.
  - intros Hb. destruct Hcase as [Htrim Hnil]. unfold Script.performSearch.
    rewrite performSort_filteredProducts.
    cbn [filteredProducts set_filteredProducts].
    apply trim_nil_iff in Hb.
    rewrite Htrim, Hb, Hnil. reflexivity.
Qed.

Lemma search_returns_trimmed_matches_witness :
  LeavesWhiteSpace latin1
  /\ In pufferJacket
       (filteredProducts
          (Script.performSearch (coll := codeUnitCollator) (case := latin1)
             Catalog.products (searching (js "  WINTER "))))
  /\ filteredProducts
       (Script.performSearch (coll := codeUnitCollator) (case := latin1)
          Catalog.products (searching (js "   ")))
     = Catalog.products.
Proof.
  split; [exact latin1_LeavesWhiteSpace|]. split.
  - apply (search_returns_trimmed_matches codeUnitCollator latin1
             Catalog.products (searching (js "  WINTER "))
             latin1_LeavesWhiteSpace).
    split; [vm_compute; tauto|].
    right. right. apply includes_spec. reflexivity.
  - apply (search_returns_trimmed_matches codeUnitCollator latin1
             Catalog.products (searching (js "   "))
             latin1_LeavesWhiteSpace).
    repeat constructor.
Defined.

(** C1 as stated fails for a term with surrounding white space: the search
    for [winter ] (with a trailing space) returns the puffer jacket, whose
    category is [winter], although none of its three fields contains the
    term with its space. *)
Lemma search_untrimmed_term_counterexample :
  ~ Blank (js "winter ")
  /\ In pufferJacket
       (filteredProducts
          (Script.performSearch (coll := codeUnitCollator) (case := latin1)
             Catalog.products (searching (js "winter "))))
  /\ ~ Matches (case := latin1) pufferJacket (js "winter ").
Proof.
  split; [|split].
  - intros H. inversion H. discriminate.
  - vm_compute. tauto.
  - intros [H | [H | H]]; revert H; apply includes_false; reflexivity.
Qed.

(** ** Numbers: [parseInt] reads back what [String] prints *)

Lemma radixDigit_nondigit (c : N) :
  isDecimalDigit c = false -> radixDigit 10 c = None.
Proof.
  unfold isDecimalDigit, radixDigit, digitValue. intros H. rewrite H.
  destruct ((97 <=? c) && (c <=? 122)) eqn:E1.
  - rewrite andb_true_iff, !N.leb_le in E1.
    destruct (Z.ltb_spec (Z.of_N (c - 87)) 10); [lia | reflexivity].
  - destruct ((65 <=? c) && (c <=? 90)) eqn:E2; [|reflexivity].
    rewrite andb_true_iff, !N.leb_le in E2.
    destruct (Z.ltb_spec (Z.of_N (c - 55)) 10); [lia | reflexivity].
Qed.

Lemma parseDigits_stop (acc : Z) (tail : jsstring) :
  digitAhead tail = false -> parseDigits 10 acc tail = acc.
Proof.
  destruct tail as [|c r]; [reflexivity|]. simpl. intros H.
  now rewrite radixDigit_nondigit.
Qed.

Lemma digitsOf_unfold (d : Decimal.uint) :
  digitsOf d
  = match d with
    | Decimal.Nil => []
    | Decimal.D0 d' => 48 :: digitsOf d'
    | Decimal.D1 d' => 49 :: digitsOf d'
    | Decimal.D2 d' => 50 :: digitsOf d'
    | Decimal.D3 d' => 51 :: digitsOf d'
    | Decimal.D4 d' => 52 :: digitsOf d'
    | Decimal.D5 d' => 53 :: digitsOf d'
    | Decimal.D6 d' => 54 :: digitsOf d'
    | Decimal.D7 d' => 55 :: digitsOf d'
    | Decimal.D8 d' => 56 :: digitsOf d'
    | Decimal.D9 d' => 57 :: digitsOf d'
    end.
Proof. destruct d; reflexivity. Qed.

Ltac digit_step :=
  match goal with
  | |- parseDigits 10 ?acc (?c :: _) = _ =>
      cbn [parseDigits];
      let v := eval vm_compute in (radixDigit 10 c) in
      change (radixDigit 10 c) with v; cbv iota beta
  end.

Lemma parseDigits_acc (d : Decimal.uint) (acc : positive) (tail : jsstring) :
  digitAhead tail = false ->
  parseDigits 10 (Z.pos acc) (digitsOf d ++ tail)
  = Z.pos (Pos.of_uint_acc d acc).
Proof.
  intros Ht. revert acc.
  induction d as [|d IH|d IH|d IH|d IH|d IH|d IH|d IH|d IH|d IH|d IH];
    intros acc;
    [ now apply parseDigits_stop | .. ];
    rewrite digitsOf_unfold, <- app_comm_cons;
    digit_step; cbn [Pos.of_uint_acc]; rewrite <- IH; f_equal;
    lia.
Qed.

Lemma parseDigits_zero (d : Decimal.uint) (tail : jsstring) :
  digitAhead tail = false ->
  parseDigits 10 0 (digitsOf d ++ tail) = Z.of_N (Pos.of_uint d).
Proof.
  intros Ht.
  induction d as [|d IH|d IH|d IH|d IH|d IH|d IH|d IH|d IH|d IH|d IH];
    [ now apply parseDigits_stop | .. ];
    rewrite digitsOf_unfold, <- app_comm_cons;
    digit_step; cbn [Pos.of_uint Z.mul Z.add];
    [ exact IH | .. ];
    apply (parseDigits_acc d _ tail Ht).
Qed.

Lemma numberToString_pos (p : positive) :
  numberToString (Z.pos p) = digitsOf (Pos.to_uint p).
Proof.
  unfold numberToString, digitsOf. cbn [Z.to_int Pos.to_int NilZero.string_of_int].
  unfold NilZero.string_of_uint.
  destruct (Pos.to_uint p) eqn:E; try reflexivity.
  now destruct (DecimalPos.Unsigned.to_uint_nonnil p).
Qed.

(** The decimal digits of a positive number do not start with a zero. *)
Lemma to_uint_no_leading_zero (p : positive) (d : Decimal.uint) :
  Pos.to_uint p <> Decimal.D0 d.
Proof.
  intros E.
  pose proof (DecimalPos.Unsigned.to_of (Pos.to_uint p)) as H.
  rewrite DecimalPos.Unsigned.of_to in H. cbn [N.to_uint] in H.
  rewrite E in H. rewrite DecimalFacts.unorm_D0 in H.
  unfold Decimal.unorm in H.
  destruct (Decimal.nzhead d) eqn:En;
    try (symmetry in H; rewrite <- En in H;
         now apply DecimalFacts.nzhead_nonzero in H).
  injection H as ->.
  now apply (DecimalPos.Unsigned.to_uint_nonzero p).
Qed.

(** [parseInt] of the decimal digits of a positive integer, whatever
    follows them as long as it is not one more digit. *)
Lemma parseInt_numberToString (n : Z) (tail : jsstring) :
  (0 < n)%Z -> digitAhead tail = false ->
  parseInt (numberToString n ++ tail) = Some n.
Proof.
  intros Hn Ht. destruct n as [|p|p]; try lia.
  rewrite numberToString_pos.
  pose proof (parseDigits_zero (Pos.to_uint p) tail Ht) as H.
  rewrite DecimalPos.Unsigned.of_to in H. cbn [Z.of_N] in H.
  pose proof (to_uint_no_leading_zero p) as Hz.
  pose proof (DecimalPos.Unsigned.to_uint_nonnil p) as Hnil.
  destruct (Pos.to_uint p) as [|d|d|d|d|d|d|d|d|d|d];
    [ congruence | now destruct (Hz d) | .. ];
    rewrite digitsOf_unfold, <- app_comm_cons in H |- *;
    unfold parseInt; cbn [trimStart];
    match goal with
    | |- context [isWhiteSpace ?c] =>
        change (isWhiteSpace c) with false; cbv iota;
        change (c =? 45) with false; change (c =? 43) with false; cbv iota;
        change (c =? 48) with false; cbn [andb]; cbv iota
    end;
    unfold parseUnsigned;
    match goal with
    | |- context [radixDigit 10 ?c] =>
        let v := eval vm_compute in (radixDigit 10 c) in
        change (radixDigit 10 c) with v at 1; cbv iota beta
    end;
    rewrite H; reflexivity.
Qed.

Lemma parseInt_no_digit (v : jsstring) :
  leadingDigit v = false -> parseInt v = None.
Proof.
  unfold leadingDigit, parseInt.
  destruct (trimStart v) as [|c r]; [reflexivity|].
  assert (Hd : forall x l, isDecimalDigit x = false ->
               (let '(R, S2) :=
                  if (x =? 48) && hexMarkAhead l then (16%Z, tl l)
                  else (10%Z, x :: l) in
                parseUnsigned R S2) = None).
  { intros x l Hx.
    assert (E : (x =? 48) = false).
    { apply N.eqb_neq. intros ->. discriminate. }
    rewrite E. cbn. now rewrite radixDigit_nondigit. }
  destruct (c =? 45) eqn:E1; cbn [orb].
  - destruct r as [|x l]; [reflexivity|]. cbn [digitAhead]. intros Hx.
    specialize (Hd x l Hx).
    destruct ((x =? 48) && hexMarkAhead l); cbv zeta iota beta in *;
      now rewrite Hd.
  - destruct (c =? 43) eqn:E2.
    + destruct r as [|x l]; [reflexivity|]. cbn [digitAhead]. intros Hx.
      specialize (Hd x l Hx).
      destruct ((x =? 48) && hexMarkAhead l); cbv zeta iota beta in *;
        now rewrite Hd.
    + intros Hx. specialize (Hd c r Hx).
      destruct ((c =? 48) && hexMarkAhead r); cbv zeta iota beta in *;
        now rewrite Hd.
Qed.

Lemma parseInt_zero (tail : jsstring) :
  digitAhead tail = false -> hexMarkAhead tail = false ->
  parseInt (js "0" ++ tail) = Some 0%Z.
Proof.
  intros Hd Hx. change (js "0" ++ tail) with (48 :: tail).
  unfold parseInt. cbn [trimStart].
  change (isWhiteSpace 48) with false. cbv iota.
  change (48 =? 45) with false. change (48 =? 43) with false. cbv iota.
  rewrite Hx. change ((48 =? 48) && false) with false. cbv iota zeta beta.
  unfold parseUnsigned.
  change (radixDigit 10 48) with (Some 0%Z). cbv iota.
  cbn [parseDigits]. change (radixDigit 10 48) with (Some 0%Z). cbv iota.
  cbn [Z.mul Z.add]. now rewrite parseDigits_stop.
Qed.

(** ** Selection state: the quantity *)

Lemma orderQuantity_eq (orderTime v : jsstring) (st : State) (p : Product.t) :
  currentProduct st = Some p ->
  orderQuantity orderTime v st = Some (orOne (parseInt v)).
Proof.
  intros H. unfold orderQuantity, Script.getOrderData.
  cbn [currentProduct set_productQuantity]. rewrite H. reflexivity.
Qed.

Lemma orOne_nonzero (x : option Z) : orOne x <> 0%Z.
Proof.
  destruct x as [n|]; simpl; [|discriminate].
  destruct (Z.eqb_spec n 0); [discriminate | assumption].
Qed.

(** C2 (as amended): the derived quantity is [parseInt(value) || 1].
    Inputs [0] and [abc] yield 1, input [4] yields 4 and input [2.5]
    yields 2.  Any input that does not start (after white space and an
    optional sign) with a digit yields 1, and so does a zero; an input that
    starts with the decimal digits of a positive integer [n] (below 2^53)
    yields [n], whatever follows the digits.  The quantity is never zero;
    as long as the quantity and its product with the price are safe
    integers (magnitude below 2^53), the total is that product and the
    summary shows the quantity. *)
Theorem quantity_is_leading_integer_or_one
    (fmt : NumberFormat) (st : State) (p : Product.t) (orderTime : jsstring) :
  currentProduct st = Some p ->
  (orderQuantity orderTime (js "0") st = Some 1%Z
   /\ orderQuantity orderTime (js "abc") st = Some 1%Z
   /\ orderQuantity orderTime (js "4") st = Some 4%Z
   /\ orderQuantity orderTime (js "2.5") st = Some 2%Z)
  /\ (forall v, leadingDigit v = false ->
        orderQuantity orderTime v st = Some 1%Z)
  /\ (forall tail, digitAhead tail = false -> hexMarkAhead tail = false ->
        orderQuantity orderTime (js "0" ++ tail) st = Some 1%Z)
  /\ (forall n tail, (0 < n < 9007199254740992)%Z -> digitAhead tail = false ->
        orderQuantity orderTime (numberToString n ++ tail) st = Some n)
  /\ (forall v, orderQuantity orderTime v st <> Some 0%Z)
  /\ (forall v q,
        orderQuantity orderTime v st = Some q ->
        SafeInteger q -> SafeInteger (Product.price p * q) ->
        orderTotal orderTime v st = Some (Product.price p * q)%Z
        /\ summaryQuantityLine v st = js "Quantity: " ++ numberToString q).
Proof.
  intros Hp.
  pose proof (fun v => orderQuantity_eq orderTime v st p Hp) as Hq.
  split; [|split; [|split; [|split; [|split]]]].
  - rewrite !Hq. repeat split; reflexivity.
  - intros v Hv. rewrite Hq, (parseInt_no_digit v Hv). reflexivity.
  - intros tail Hd Hx. rewrite Hq, (parseInt_zero tail Hd Hx). reflexivity.
  - intros n tail [Hn _] Hd.
    rewrite Hq, (parseInt_numberToString n tail Hn Hd).
    simpl. destruct (Z.eqb_spec n 0); [lia | reflexivity].
  - intros v. rewrite Hq. intros E. injection E as E.
    exact (orOne_nonzero _ E).
  - intros v q E _ _. rewrite Hq in E. injection E as <-. split.
    + unfold orderTotal, Script.getOrderData.
      cbn [currentProduct set_productQuantity]. rewrite Hp. reflexivity.
    + unfold summaryQuantityLine, Script.updateOrderSummary.
      cbn [currentProduct set_productQuantity]. rewrite Hp. reflexivity.
Qed.

Lemma quantity_is_leading_integer_or_one_witness :
  orderQuantity [] (js "12 pieces") orderingLeatherJacket = Some 12%Z
  /\ orderTotal [] (js "12 pieces") orderingLeatherJacket = Some 51588%Z.
Proof.
  destruct (quantity_is_leading_integer_or_one enUS orderingLeatherJacket
              leatherJacket [] eq_refl) as (_ & _ & _ & H & _ & Ht).
  pose proof (H 12%Z (js " pieces") ltac:(lia) eq_refl) as Hq.
  split; [exact Hq|].
  apply (Ht (js "12 pieces") 12%Z Hq); unfold SafeInteger; simpl; lia.
Defined.

(** C2 as stated fails: with [2.5] in the quantity field the order is for
    2 pieces, and with [-3] it is for -3, not for 1. *)
Lemma quantity_not_clamped_counterexample :
  orderQuantity [] (js "2.5") orderingLeatherJacket = Some 2%Z
  /\ orderQuantity [] (js "-3") orderingLeatherJacket = Some (-3)%Z
  /\ orderQuantity [] (js "2.5") orderingLeatherJacket <> Some 1%Z.
Proof.
  repeat split; try reflexivity. discriminate.
Qed.

(** ** Regular expressions: the matcher decides the language *)

Lemma matches_nil_nullable (r : regex) : matches r [] -> nullable r = true.
Proof.
  intros H. remember [] as s eqn:E. induction H; simpl; try reflexivity.
  - discriminate.
  - apply app_eq_nil in E as [-> ->]. now rewrite IHmatches1, IHmatches2.
  - now rewrite IHmatches.
  - rewrite IHmatches by assumption. apply orb_true_r.
Qed.

Lemma nullable_matches_nil (r : regex) : nullable r = true -> matches r [].
Proof.
  induction r; simpl; intros H; try discriminate.
  - constructor.
  - apply andb_true_iff in H as [H1 H2].
    change (@nil N) with (@nil N ++ []). constructor; auto.
  - apply orb_true_iff in H as [H | H]; [apply MAltL | apply MAltR]; auto.
  - constructor.
Qed.

Lemma matches_Star_cons (r : regex) (c : N) (s : jsstring) :
  matches (Star r) (c :: s) ->
  exists s1 s2, s = s1 ++ s2 /\ matches r (c :: s1) /\ matches (Star r) s2.
Proof.
  intros H. remember (Star r) as r' eqn:Er. remember (c :: s) as s' eqn:Es.
  induction H; try discriminate.
  injection Er as ->. destruct s1 as [|x s1].
  - simpl in Es. now apply IHmatches2.
  - injection Es as <- <-. exists s1, s2. auto.
Qed.

Lemma deriv_spec (r : regex) (c : N) (s : jsstring) :
  matches (deriv c r) s <-> matches r (c :: s).
Proof.
  revert s. induction r as [| |p|r1 IH1 r2 IH2|r1 IH1 r2 IH2|r IH];
    intros s; cbn [deriv].
  - split; intros H; inversion H.
  - split; intros H; inversion H.
  - destruct (p c) eqn:E; split; intros H; inversion H; subst.
    + now constructor.
    + constructor.
    + congruence.
  - assert (Hseq : matches (Seq (deriv c r1) r2) s ->
                   matches (Seq r1 r2) (c :: s)).
    { intros H. inversion H; subst.
      rewrite app_comm_cons.
      constructor; [now apply IH1 | assumption]. }
    assert (Hinv : matches (Seq r1 r2) (c :: s) ->
                   matches (Seq (deriv c r1) r2) s
                   \/ (nullable r1 = true /\ matches (deriv c r2) s)).
    { intros H. inversion H as [| |? ? s1 s2 H1 H2 | | | |]; subst.
      destruct s1 as [|x s1].
      - right. simpl in *. subst. split.
        + now apply matches_nil_nullable.
        + now apply IH2.
      - left. simpl in *.
        match goal with E : _ :: _ = _ :: _ |- _ => injection E as -> <- end.
        constructor; [now apply IH1 | assumption]. }
    destruct (nullable r1) eqn:En; split.
    + intros H. inversion H; subst; [now apply Hseq|].
      change (c :: s) with ([] ++ c :: s). constructor.
      * now apply nullable_matches_nil.
      * now apply IH2.
    + intros H. destruct (Hinv H) as [H' | [_ H']];
        [now apply MAltL | now apply MAltR].
    + apply Hseq.
    + intros H. destruct (Hinv H) as [H' | [H' _]];
        [assumption | discriminate].
  - split; intros H; inversion H; subst.
    + apply MAltL. now apply IH1.
    + apply MAltR. now apply IH2.
    + apply MAltL. now apply IH1.
    + apply MAltR. now apply IH2.
  - split.
    + intros H. inversion H; subst.
      rewrite app_comm_cons.
      constructor; [now apply IH | assumption].
    + intros H. apply matches_Star_cons in H as (s1 & s2 & -> & H1 & H2).
      constructor; [now apply IH | assumption].
Qed.

Theorem regexTest_spec (r : regex) (s : jsstring) :
  regexTest r s = true <-> matches r s.
Proof.
  revert r. induction s as [|c s IH]; intros r; simpl.
  - split; [apply nullable_matches_nil | apply matches_nil_nullable].
  - rewrite IH. apply deriv_spec.
Qed.

(** ** Order composer: validation *)

Lemma notSpaceAt_Plain (c : N) : notSpaceAt c = true <-> Plain c.
Proof.
  unfold notSpaceAt, Plain.
  rewrite negb_true_iff, orb_false_iff, N.eqb_neq. reflexivity.
Qed.

Lemma matches_Class (p : N -> bool) (s : jsstring) :
  matches (Class p) s <-> exists c, s = [c] /\ p c = true.
Proof.
  split.
  - intros H. inversion H; subst. eauto.
  - intros (c & -> & H). now constructor.
Qed.

Lemma matches_Seq (r1 r2 : regex) (s : jsstring) :
  matches (Seq r1 r2) s
  <-> exists s1 s2, s = s1 ++ s2 /\ matches r1 s1 /\ matches r2 s2.
Proof.
  split.
  - intros H. inversion H; subst. eauto.
  - intros (s1 & s2 & -> & H1 & H2). now constructor.
Qed.

Lemma matches_Star_Class (p : N -> bool) (s : jsstring) :
  matches (Star (Class p)) s <-> Forall (fun c => p c = true) s.
Proof.
  split.
  - intros H. remember (Star (Class p)) as r eqn:Er.
    induction H; try discriminate.
    + constructor.
    + injection Er as ->. apply matches_Class in H as (c & -> & Hc).
      constructor; [assumption | now apply IHmatches2].
  - induction 1 as [|c s Hc _ IH]; [constructor|].
    change (c :: s) with ([c] ++ s). constructor; [|assumption].
    now constructor.
Qed.

Lemma matches_Plus_Class (p : N -> bool) (s : jsstring) :
  matches (Plus (Class p)) s <-> s <> [] /\ Forall (fun c => p c = true) s.
Proof.
  unfold Plus. rewrite matches_Seq. split.
  - intros (s1 & s2 & -> & H1 & H2).
    apply matches_Class in H1 as (c & -> & Hc).
    apply matches_Star_Class in H2. split; [discriminate|].
    now constructor.
  - intros [Hne H]. destruct H as [|c s Hc H]; [congruence|].
    exists [c], s. split; [reflexivity|]. split.
    + now constructor.
    + now apply matches_Star_Class.
Qed.

Lemma plain_run (s : jsstring) :
  matches (Plus (Class notSpaceAt)) s <-> s <> [] /\ Forall Plain s.
Proof.
  rewrite matches_Plus_Class.
  rewrite (Forall_iff _ s Plain) by apply notSpaceAt_Plain. reflexivity.
Qed.

Lemma matches_unit (k : N) (s : jsstring) :
  matches (Class (N.eqb k)) s <-> s = [k].
Proof.
  rewrite matches_Class. split.
  - intros (c & -> & H). apply N.eqb_eq in H. now subst.
  - intros ->. exists k. split; [reflexivity | apply N.eqb_refl].
Qed.

(** The addresses that the pattern of [isValidEmail] accepts. *)
Lemma isValidEmail_spec (e : jsstring) :
  Script.isValidEmail e = true <-> EmailShape e.
Proof.
  unfold Script.isValidEmail, emailRegex, EmailShape.
  rewrite regexTest_spec, matches_Seq. split.
  - intros (loc & s1 & -> & Hl & H1).
    apply matches_Seq in H1 as (a & s2 & -> & Ha & H2).
    apply matches_Seq in H2 as (domain & s3 & -> & Hd & H3).
    apply matches_Seq in H3 as (dot & tld & -> & Hdot & Ht).
    apply matches_unit in Ha as ->. apply matches_unit in Hdot as ->.
    apply plain_run in Hl as [? ?]. apply plain_run in Hd as [? ?].
    apply plain_run in Ht as [? ?].
    exists loc, domain, tld. auto 10.
  - intros (loc & domain & tld & -> & ? & ? & ? & ? & ? & ?).
    exists loc, ([64] ++ domain ++ [46] ++ tld).
    split; [reflexivity|]. split; [now apply plain_run|].
    apply matches_Seq. exists [64], (domain ++ [46] ++ tld).
    split; [reflexivity|]. split; [now apply matches_unit|].
    apply matches_Seq. exists domain, ([46] ++ tld).
    split; [reflexivity|]. split; [now apply plain_run|].
    apply matches_Seq. exists [46], tld.
    split; [reflexivity|]. split; [now apply matches_unit | now apply plain_run].
Qed.

Lemma truthy_true (s : jsstring) : truthy s = true <-> s <> [].
Proof. destruct s; simpl; split; congruence. Qed.

Lemma truthy_false (s : jsstring) : truthy s = false <-> s = [].
Proof. destruct s; simpl; split; congruence. Qed.

Lemma required_check (f : Form) :
  negb (truthy (customer_name f)) || negb (truthy (customer_phone f))
  || negb (truthy (customer_address f)) || negb (truthy (product_size f))
  = false
  <-> RequiredFilled f.
Proof.
  unfold RequiredFilled.
  rewrite !orb_false_iff, !negb_false_iff, !truthy_true. tauto.
Qed.

(** What [validateForm] of [script.js] returns and reports. *)
Lemma validateForm_cases (st : State) :
  (RequiredFilled (orderForm st) ->
   Script.validateForm st
   = if truthy (customer_email (orderForm st))
        && negb (Script.isValidEmail (customer_email (orderForm st)))
     then (false, emit emailAlert st) else (true, st))
  /\ (~ RequiredFilled (orderForm st) ->
      Script.validateForm st = (false, emit requiredAlert st)).
Proof.
  unfold Script.validateForm.
  destruct (negb (truthy (customer_name (orderForm st))) || _ || _ || _) eqn:E.
  - split; [|reflexivity]. intros H. apply required_check in H. congruence.
  - apply required_check in E. split; [reflexivity | tauto].
Qed.

Lemma validateForm_accepts (st : State) :
  fst (Script.validateForm st) = true
  <-> RequiredFilled (orderForm st)
      /\ (customer_email (orderForm st) = []
          \/ EmailShape (customer_email (orderForm st))).
Proof.
  destruct (validateForm_cases st) as [Hy Hn].
  split.
  - intros H.
    assert (Hr : RequiredFilled (orderForm st)).
    { unfold RequiredFilled.
      destruct (customer_name (orderForm st)) eqn:E1;
        destruct (customer_phone (orderForm st)) eqn:E2;
        destruct (customer_address (orderForm st)) eqn:E3;
        destruct (product_size (orderForm st)) eqn:E4;
        try (repeat split; discriminate);
        rewrite Hn in H by (unfold RequiredFilled; rewrite ?E1, ?E2, ?E3, ?E4; tauto);
        discriminate. }
    split; [assumption|]. rewrite (Hy Hr) in H.
    destruct (truthy _) eqn:Et.
    + destruct (Script.isValidEmail _) eqn:Ev; [|discriminate].
      right. now apply isValidEmail_spec.
    + left. now apply truthy_false.
  - intros [Hr He]. rewrite (Hy Hr).
    destruct He as [-> | He]; [reflexivity|].
    apply isValidEmail_spec in He. rewrite He, andb_false_r. reflexivity.
Qed.

Lemma EmailShape_nonempty (e : jsstring) : EmailShape e -> e <> [].
Proof.
  intros (loc & domain & tld & -> & Hl & _). destruct loc; [congruence | discriminate].
Qed.

Lemma legacy_validateForm_accepts (st : State) :
  fst (Legacy.validateForm st) = true
  <-> RequiredFilled (orderForm st)
      /\ EmailShape (customer_email (orderForm st)).
Proof.
  unfold Legacy.validateForm, RequiredFilled.
  rewrite <- isValidEmail_spec. unfold Script.isValidEmail.
  destruct (customer_name (orderForm st));
    destruct (customer_phone (orderForm st));
    destruct (customer_address (orderForm st));
    destruct (product_size (orderForm st));
    destruct (customer_email (orderForm st)) as [|c e];
    cbn [truthy negb orb fst];
    try (split; [discriminate | intros [(? & ? & ? & ?) ?]; congruence]).
  - split; [discriminate|]. intros [_ H]. discriminate.
  - destruct (regexTest emailRegex (c :: e)); cbn [negb fst];
      split; try discriminate; try tauto.
    intros _. repeat split; discriminate.
Qed.

(** C3 (as amended): in [script.js] validation succeeds if and only if
    name, phone, address and size are all non-empty and the e-mail field is
    empty or has the shape of the pattern (one [@] after a non-empty local
    part, then a domain with an inner dot, no white space); in the copy in
    [HHMIBrothers/products.js] the e-mail field is a fifth required field,
    so validation succeeds if and only if the four fields are non-empty and
    the e-mail field has that shape.  With e-mail [not-an-email] both
    fail; with an empty e-mail field and the four fields filled in,
    [script.js] succeeds and the copy fails. *)
Theorem validation_succeeds_iff (st : State) :
  (fst (Script.validateForm st) = true
   <-> RequiredFilled (orderForm st)
       /\ (customer_email (orderForm st) = []
           \/ EmailShape (customer_email (orderForm st))))
  /\ (fst (Legacy.validateForm st) = true
      <-> RequiredFilled (orderForm st)
          /\ EmailShape (customer_email (orderForm st)))
  /\ (customer_email (orderForm st) = js "not-an-email" ->
      fst (Script.validateForm st) = false
      /\ fst (Legacy.validateForm st) = false)
  /\ (customer_email (orderForm st) = [] ->
      RequiredFilled (orderForm st) ->
      fst (Script.validateForm st) = true
      /\ fst (Legacy.validateForm st) = false).
Proof.
  pose proof (validateForm_accepts st) as Hs.
  pose proof (legacy_validateForm_accepts st) as Hl.
  split; [exact Hs|]. split; [exact Hl|]. split.
  - intros He.
    assert (Hno : ~ EmailShape (js "not-an-email")).
    { intros H. apply isValidEmail_spec in H. discriminate. }
    rewrite He in Hs, Hl. split; apply not_true_is_false.
    + intros H. apply Hs in H as [_ [H | H]]; [discriminate | auto].
    + intros H. apply Hl in H as [_ H]. auto.
  - intros He Hr. split.
    + apply Hs. auto.
    + apply not_true_is_false. intros H. apply Hl in H as [_ H].
      apply EmailShape_nonempty in H. auto.
Qed.

Lemma validation_succeeds_iff_witness :
  fst (Script.validateForm (set_orderForm formWithoutEmail orderingLeatherJacket))
  = true
  /\ fst (Legacy.validateForm (set_orderForm formWithoutEmail orderingLeatherJacket))
    = false.
Proof.
  apply (validation_succeeds_iff
           (set_orderForm formWithoutEmail orderingLeatherJacket)).
  - reflexivity.
  - repeat split; discriminate.
Defined.

(** C3 as stated fails on the copy of [validateForm] in
    [HHMIBrothers/products.js]: a form with the four required fields filled
    in and no e-mail address is rejected there. *)
Lemma validation_requires_email_counterexample :
  RequiredFilled formWithoutEmail
  /\ customer_email formWithoutEmail = []
  /\ fst (Legacy.validateForm (set_orderForm formWithoutEmail orderingLeatherJacket))
    = false.
Proof.
  split; [repeat split; discriminate|]. split; reflexivity.
Qed.

(** C10: when name, phone, address and size are non-empty, [validateForm]
    of [script.js] passes the required-field check whatever the fields
    hold, white space included: the outcome is decided by the e-mail field
    alone, and with no e-mail address the form is accepted.  Only an empty
    required field is reported as missing. *)
Theorem required_fields_accept_whitespace (st : State) :
  (RequiredFilled (orderForm st) ->
   Script.validateForm st
   = if truthy (customer_email (orderForm st))
        && negb (Script.isValidEmail (customer_email (orderForm st)))
     then (false, emit emailAlert st) else (true, st))
  /\ (RequiredFilled (orderForm st) ->
      customer_email (orderForm st) = [] ->
      Script.validateForm st = (true, st))
  /\ (orderForm st = formOfSpaces -> Script.validateForm st = (true, st))
  /\ (~ RequiredFilled (orderForm st) ->
      Script.validateForm st = (false, emit requiredAlert st)).
Proof.
  destruct (validateForm_cases st) as [Hy Hn].
  split; [exact Hy|]. split; [|split; [|exact Hn]].
  - intros Hr He. rewrite (Hy Hr), He. reflexivity.
  - intros Hf. rewrite Hy; rewrite Hf; [reflexivity|].
    repeat split; discriminate.
Qed.

Lemma required_fields_accept_whitespace_witness :
  Script.validateForm (set_orderForm formOfSpaces orderingLeatherJacket)
  = (true, set_orderForm formOfSpaces orderingLeatherJacket).
Proof.
  destruct (required_fields_accept_whitespace
              (set_orderForm formOfSpaces orderingLeatherJacket))
    as (_ & H & _).
  apply H.
  - repeat split; discriminate.
  - reflexivity.
Defined.

(** ** Order flow: a failed validation changes nothing *)

Lemma validateForm_rejects (st : State) :
  fst (Script.validateForm st) = false ->
  exists alert,
    (alert = requiredAlert \/ alert = emailAlert)
    /\ Script.validateForm st = (false, emit alert st).
Proof.
  intros H. unfold Script.validateForm in *.
  destruct (negb (truthy (customer_name (orderForm st))) || _ || _ || _).
  - exists requiredAlert. auto.
  - destruct (truthy _ && negb _).
    + exists emailAlert. auto.
    + discriminate.
Qed.

Lemma SameSelection_emit (e : Effect) (st : State) : SameSelection st (emit e st).
Proof. repeat split. Qed.

(** C6: when validation fails, [placeWhatsAppOrder] and [placeEmailOrder]
    return without a transition: selection, quantity, form, summary and
    the open order dialog are as before, the only new effects are the
    alert that reports the error (and, for e-mail, a console warning), and
    none of them is a channel action. *)
Theorem failed_validation_keeps_state
    (formDefaults : Form) (fmt : NumberFormat) (orderTime : jsstring)
    (st : State) :
  fst (Script.validateForm st) = false ->
  exists alert,
    (alert = requiredAlert \/ alert = emailAlert)
    /\ Script.placeWhatsAppOrder formDefaults orderTime st
       = Normal (emit alert st)
    /\ Script.placeEmailOrder orderTime st
       = Normal (emit emailWarning (emit alert st))
    /\ SameSelection st (emit alert st)
    /\ SameSelection st (emit emailWarning (emit alert st))
    /\ effects (emit alert st) = effects st ++ [alert]
    /\ effects (emit emailWarning (emit alert st))
       = effects st ++ [alert; emailWarning]
    /\ forallb (fun e => negb (isChannelAction e)) [alert; emailWarning] = true.
Proof.
  intros H. destruct (validateForm_rejects st H) as (alert & Ha & Hv).
  exists alert. split; [exact Ha|].
  unfold Script.placeWhatsAppOrder, Script.placeEmailOrder. rewrite Hv.
  cbn [negb]. repeat split.
  - cbn [effects emit]. now rewrite <- app_assoc.
  - destruct Ha as [-> | ->]; reflexivity.
Qed.

Lemma failed_validation_keeps_state_witness :
  exists alert,
    Script.placeWhatsAppOrder emptyForm (fmt := enUS) []
      (set_orderForm emptyForm orderingLeatherJacket)
    = Normal (emit alert (set_orderForm emptyForm orderingLeatherJacket)).
Proof.
  destruct (failed_validation_keeps_state emptyForm enUS []
              (set_orderForm emptyForm orderingLeatherJacket) eq_refl)
    as (alert & _ & H & _).
  exists alert. exact H.
Defined.

(** ** Selection state: picking a product *)

Lemma find_none_id (products : list Product.t) (productId : Z) :
  (forall p, In p products -> Product.id p <> productId) ->
  find (fun p => (Product.id p =? productId)%Z) products = None.
Proof.
  intros H. induction products as [|q l IH]; [reflexivity|]. simpl.
  destruct (Z.eqb_spec (Product.id q) productId) as [E | _].
  - exfalso. apply (H q); [now left | exact E].
  - apply IH. intros p Hp. apply H. now right.
Qed.

(** C5 (as amended): picking an id that no product of the catalogue has
    selects nothing: [currentProduct] is left empty, never the first
    product.  The failure is not reported to the caller: the click listener
    ends normally, and all that tells of the failure is the line that
    [console.error] logs with the id.  The order dialog, open or closed, the
    summary and the quantity field are left as they were. *)
Theorem select_missing_id_reports_not_found
    (fmt : NumberFormat) (products : list Product.t) (productId : Z)
    (st : State) :
  (forall p, In p products -> Product.id p <> productId) ->
  currentProduct (Script.openOrderModal products productId st) = None
  /\ (forall first, head products = Some first ->
        currentProduct (Script.openOrderModal products productId st)
        <> Some first)
  /\ effects (Script.openOrderModal products productId st)
     = effects st ++ [ConsoleError (js "Product not found with ID:") productId]
  /\ orderModalOpen (Script.openOrderModal products productId st)
     = orderModalOpen st
  /\ summary (Script.openOrderModal products productId st) = summary st
  /\ productQuantity (Script.openOrderModal products productId st)
     = productQuantity st
  /\ Script.buyNowClick products productId st
     = Normal (emit (ConsoleError (js "Product not found with ID:") productId)
                 (set_currentProduct None st))
  /\ ~ Raised (Script.buyNowClick products productId st).
Proof.
  intros H. unfold Script.buyNowClick, Script.openOrderModal.
  cbn [currentProduct set_currentProduct].
  rewrite (find_none_id products productId H).
  split; [reflexivity|]. split; [intros first _; discriminate|].
  repeat (split; [reflexivity|]). intros [].
Qed.

Lemma select_missing_id_reports_not_found_witness :
  currentProduct
    (Script.openOrderModal (fmt := enUS) Catalog.products 999
       orderingLeatherJacket)
  = None.
Proof.
  apply (select_missing_id_reports_not_found enUS Catalog.products 999
           orderingLeatherJacket).
  intros p Hp. simpl in Hp.
  repeat (destruct Hp as [<- | Hp]; [discriminate|]). destruct Hp.
Defined.

(** C5 as stated fails: with the order dialog open for the leather jacket,
    a click for the id 999, which no product has, ends normally as a click
    for an id of the catalogue does; nothing is raised or handed back to the
    listener, one line goes to [console.error], and the dialog stays open
    with the summary and the quantity of the leather jacket. *)
Lemma select_missing_id_not_reported_counterexample :
  (forall p, In p Catalog.products -> Product.id p <> 999%Z)
  /\ ~ Raised (Script.buyNowClick (fmt := enUS) Catalog.products 999
                 twoLeatherJackets)
  /\ (exists st,
        Script.buyNowClick (fmt := enUS) Catalog.products 999 twoLeatherJackets
        = Normal st
        /\ effects st
           = effects twoLeatherJackets
             ++ [ConsoleError (js "Product not found with ID:") 999]
        /\ orderModalOpen st = true
        /\ summaryProduct (summary st)
           = js "Product: Women's Faux Leather Jacket"
        /\ productQuantity st = js "2")
  /\ (exists st,
        Script.buyNowClick (fmt := enUS) Catalog.products 3 twoLeatherJackets
        = Normal st).
Proof.
  split; [|split; [|split]].
  - intros p Hp. simpl in Hp.
    repeat (destruct Hp as [<- | Hp]; [discriminate|]). destruct Hp.
  - intros [].
  - eexists. split; [reflexivity|]. repeat split.
  - eexists. reflexivity.
Qed.

(** ** Order composer: the message *)

Lemma getOrderData_selected (orderTime : jsstring) (st : State) (p : Product.t) :
  currentProduct st = Some p ->
  Script.getOrderData orderTime st
  = Some (Order.make (Product.name p) (Product.price p)
            (orOne (parseInt (productQuantity st)))
            (Product.price p * orOne (parseInt (productQuantity st)))
            (customer_name (orderForm st)) (customer_phone (orderForm st))
            (customer_email (orderForm st)) (customer_address (orderForm st))
            (product_size (orderForm st)) (special_instructions (orderForm st))
            orderTime).
Proof. intros H. unfold Script.getOrderData. now rewrite H. Qed.

(** C4 (as amended): an order for a product priced 4299 with quantity 2
    has total 8598, and its message shows, on the lines [Price: PKR],
    [Quantity:] and [Total: PKR], the unit price and the total as
    [toLocaleString()] prints them in the locale of the browser: [4,299]
    and [8,598] under [en-US], the plain digits [4299] and [8598] in a
    locale that does not group them.  Every order with no instructions,
    whatever its product, price and quantity, has the text [None] as its
    instructions block. *)
Theorem order_message_shows_formatted_amounts
    (fmt : NumberFormat) (orderTime : jsstring) :
  (forall st p,
     currentProduct st = Some p ->
     Product.price p = 4299%Z ->
     productQuantity st = js "2" ->
     exists data,
       Script.getOrderData orderTime st = Some data
       /\ Order.quantity data = 2%Z
       /\ Order.total data = 8598%Z
       /\ exists pre post,
            Script.formatOrderMessage data
            = pre
              ++ (js "Price: PKR " ++ numberToLocaleString 4299%Z ++ nl)
              ++ (js "Quantity: 2" ++ nl)
              ++ (js "Total: PKR " ++ numberToLocaleString 8598%Z ++ nl)
              ++ post)
  /\ (forall st data,
        Script.getOrderData orderTime st = Some data ->
        Order.instructions data = special_instructions (orderForm st)
        /\ Order.time data = orderTime)
  /\ (forall data,
        Order.instructions data = [] ->
        exists pre post,
          Script.formatOrderMessage data
          = pre ++ (memo ++ js " INSTRUCTIONS:" ++ nl)
            ++ (js "None" ++ nl)
            ++ (alarmClock ++ js " Order Time: " ++ Order.time data
                ++ js ";" ++ nl)
            ++ post).
Proof.
  split; [|split].
  - intros st p Hp Hprice Hq.
    eexists. split; [apply (getOrderData_selected orderTime st p Hp)|].
    rewrite Hprice, Hq. cbn [Order.quantity Order.total].
    split; [reflexivity|]. split; [reflexivity|].
    unfold Script.formatOrderMessage.
    cbn [Order.product Order.price Order.quantity Order.total Order.name
         Order.phone Order.email Order.address Order.size Order.instructions
         Order.time].
    exists (shoppingBags ++ js " NEW ORDER - HHMI Brothers" ++ nl ++ nl
            ++ parcel ++ js " ORDER DETAILS:" ++ nl
            ++ js "Product: " ++ Product.name p ++ nl).
    eexists. rewrite <- !app_assoc. reflexivity.
  - intros st data. unfold Script.getOrderData.
    destruct (currentProduct st) as [p|]; [|discriminate].
    intros E. injection E as <-. split; reflexivity.
  - intros data Hi. unfold Script.formatOrderMessage. rewrite Hi.
    cbn [truthy].
    exists (shoppingBags ++ js " NEW ORDER - HHMI Brothers" ++ nl ++ nl
            ++ parcel ++ js " ORDER DETAILS:" ++ nl
            ++ js "Product: " ++ Order.product data ++ nl
            ++ js "Price: PKR " ++ numberToLocaleString (Order.price data) ++ nl
            ++ js "Quantity: " ++ numberToString (Order.quantity data) ++ nl
            ++ js "Total: PKR " ++ numberToLocaleString (Order.total data) ++ nl
            ++ js "Size: " ++ Order.size data ++ nl ++ nl
            ++ bust ++ js " CUSTOMER INFO:" ++ nl
            ++ js "Name: " ++ Order.name data ++ nl
            ++ js "Phone: " ++ Order.phone data ++ nl
            ++ (if truthy (Order.email data)
                then js "Email: " ++ Order.email data else [])
            ++ nl
            ++ js "Address: " ++ Order.address data ++ nl ++ nl).
    eexists. rewrite <- !app_assoc. reflexivity.
Qed.

Lemma order_message_shows_formatted_amounts_witness :
  exists data,
    Script.getOrderData sampleOrderTime twoLeatherJackets = Some data
    /\ Order.total data = 8598%Z
    /\ Substring (js "Price: PKR 4,299")
         (Script.formatOrderMessage (fmt := enUS) data)
    /\ Substring (js "Total: PKR 8,598")
         (Script.formatOrderMessage (fmt := enUS) data).
Proof.
  destruct (order_message_shows_formatted_amounts enUS sampleOrderTime)
    as (H & _ & _).
  destruct (H twoLeatherJackets leatherJacket eq_refl eq_refl eq_refl)
    as (data & Hd & _ & Ht & _).
  exists data. split; [exact Hd|]. split; [exact Ht|].
  injection Hd as <-. split; apply includes_spec; reflexivity.
Defined.

(** C4 as stated fails in a browser with an [en-US] locale: the message of
    the order for two leather jackets has total 8598, but contains neither
    [4299] nor [8598]; it shows [4,299] and [8,598]. *)
Lemma order_message_groups_digits_counterexample :
  option_map Order.total
    (Script.getOrderData sampleOrderTime twoLeatherJackets) = Some 8598%Z
  /\ exists message,
       sampleMessage = Some message
       /\ ~ Substring (js "4299") message
       /\ ~ Substring (js "8598") message
       /\ Substring (js "Price: PKR 4,299") message
       /\ Substring (js "Total: PKR 8,598") message.
Proof.
  split; [reflexivity|]. eexists. split; [reflexivity|].
  split; [|split; [|split]].
  - apply includes_false. vm_compute. reflexivity.
  - apply includes_false. vm_compute. reflexivity.
  - apply includes_spec. vm_compute. reflexivity.
  - apply includes_spec. vm_compute. reflexivity.
Qed.

(** ** Delivery dispatcher: the WhatsApp link *)

(** In [script.js] the link is [https://wa.me/923429438436?text=] followed
    by the percent-encoded message, and the number is made of digits. *)
Lemma placeWhatsAppOrder_url
    (formDefaults : Form) (fmt : NumberFormat) (orderTime : jsstring)
    (st : State) (data : Order.t) (text : jsstring) :
  fst (Script.validateForm st) = true ->
  Script.getOrderData orderTime st = Some data ->
  encodeURIComponent (Script.formatOrderMessage data) = Some text ->
  Script.placeWhatsAppOrder formDefaults orderTime st
  = Normal
      (Script.closeOrderModal formDefaults
         (emit (WindowOpen
                  (js "https://wa.me/" ++ whatsappPhone ++ js "?text=" ++ text)
                  (js "_blank")) st))
  /\ forallb isDecimalDigit whatsappPhone = true.
Proof.
  intros Hv Hd He. split; [|reflexivity].
  unfold Script.placeWhatsAppOrder.
  destruct (validateForm_cases st) as [Hy Hn].
  apply validateForm_accepts in Hv as Hacc. destruct Hacc as [Hr _].
  rewrite (Hy Hr) in Hv |- *.
  destruct (truthy _ && negb _); [discriminate|].
  cbn [negb]. rewrite Hd, He. reflexivity.
Qed.

(** C7, the copy in [HHMIBrothers/products.js]: the link of the order for
    two leather jackets is [https://wa.me/+923441092910?text=] followed by
    the percent-encoded message; its number starts with [+] and so is not
    made of digits only, while the number of [script.js] is. *)
Theorem legacy_whatsapp_number_has_plus_sign :
  (exists text message,
     option_map (Legacy.formatOrderMessage (fmt := enUS))
       (Script.getOrderData sampleOrderTime twoLeatherJacketsLegacy)
     = Some message
     /\ encodeURIComponent message = Some text
     /\ Legacy.placeWhatsAppOrder emptyForm (fmt := enUS) sampleOrderTime
          twoLeatherJacketsLegacy
        = Normal
            (Script.closeOrderModal emptyForm
               (emit (WindowOpen
                        (js "https://wa.me/" ++ legacyWhatsappPhone
                         ++ js "?text=" ++ text)
                        (js "_blank"))
                  twoLeatherJacketsLegacy)))
  /\ forallb isDecimalDigit legacyWhatsappPhone = false
  /\ forallb isDecimalDigit whatsappPhone = true.
Proof.
  split; [|split; reflexivity].
  eexists. eexists. split; [reflexivity|]. split.
  - vm_compute. reflexivity.
  - vm_compute. reflexivity.
Qed.

(** ** Query engine: sorting *)

Section SortByKey.
Context {A : Type} (key : A -> Z) (cmp : A -> A -> Z).
Hypothesis cmp_key : forall a b, (0 <? cmp a b)%Z = (key b <? key a)%Z.

Let le (a b : A) : Prop := (key a <= key b)%Z.

Lemma insertBy_Permutation (x : A) (l : list A) :
  Permutation (insertBy cmp x l) (x :: l).
Proof.
  induction l as [|y r IH]; simpl; [reflexivity|].
  destruct (0 <? cmp x y)%Z; [|reflexivity].
  rewrite IH. apply perm_swap.
Qed.

Lemma sortBy_Permutation (l : list A) : Permutation (sortBy cmp l) l.
Proof.
  induction l as [|x l IH]; simpl; [reflexivity|].
  fold (sortBy cmp l). rewrite insertBy_Permutation. now constructor.
Qed.

Lemma insertBy_sorted (x : A) (l : list A) :
  StronglySorted le l -> StronglySorted le (insertBy cmp x l).
Proof.
  induction 1 as [|y r Hr IH Hy]; simpl.
  - repeat constructor.
  - rewrite cmp_key. destruct (Z.ltb_spec (key y) (key x)) as [Hlt | Hge].
    + constructor; [exact IH|].
      apply (Permutation_Forall (Permutation_sym (insertBy_Permutation x r))).
      constructor; [unfold le; lia | exact Hy].
    + constructor; [now constructor|].
      constructor; [exact Hge|].
      eapply List.Forall_impl; [|exact Hy]. unfold le. intros a Ha. lia.
Qed.

Lemma sortBy_sorted (l : list A) : StronglySorted le (sortBy cmp l).
Proof.
  induction l as [|x l IH]; simpl; [constructor|].
  now apply insertBy_sorted.
Qed.
End SortByKey.

Lemma StronglySorted_rev {A : Type} (R : A -> A -> Prop) (l : list A) :
  StronglySorted R l -> StronglySorted (fun a b => R b a) (rev l).
Proof.
  induction 1 as [|x l Hl IH Hx]; simpl; [constructor|].
  apply StronglySorted_app_2.
  - intros a b Ha Hb. apply list_elem_of_In in Ha, Hb.
    destruct Hb as [<- | []]. apply in_rev in Ha.
    rewrite List.Forall_forall in Hx. now apply Hx.
  - exact IH.
  - repeat constructor.
Qed.

Lemma StronglySorted_weaken {A : Type} (R R' : A -> A -> Prop) (l : list A) :
  (forall a b, R a b -> R' a b) -> StronglySorted R l -> StronglySorted R' l.
Proof.
  intros H. induction 1 as [|x l Hl IH Hx]; constructor; [exact IH|].
  eapply List.Forall_impl; [apply H | exact Hx].
Qed.

Lemma NoDup_map_inj {A B : Type} (f : A -> B) (l : list A) (x y : A) :
  NoDup (List.map f l) -> In x l -> In y l -> f x = f y -> x = y.
Proof.
  induction l as [|a l IH]; simpl; [tauto|].
  intros Hnd Hx Hy E. apply NoDup_cons in Hnd as [Ha Hnd].
  destruct Hx as [-> | Hx], Hy as [-> | Hy]; auto.
  - exfalso. apply Ha. rewrite E. apply list_elem_of_In. now apply in_map.
  - exfalso. apply Ha. rewrite <- E. apply list_elem_of_In. now apply in_map.
Qed.

(** Sorting by ascending price and sorting by descending price give
    reversed sequences when no two prices are equal. *)
Lemma price_sorts_reversed (l : list Product.t) :
  NoDup (List.map Product.price l) ->
  sortBy (fun a b => (Product.price a - Product.price b)%Z) l
  = rev (sortBy (fun a b => (Product.price b - Product.price a)%Z) l).
Proof.
  intros Hnd.
  set (asc := sortBy (fun a b => (Product.price a - Product.price b)%Z) l).
  set (desc := sortBy (fun a b => (Product.price b - Product.price a)%Z) l).
  assert (Pa : Permutation asc l) by apply sortBy_Permutation.
  assert (Pd : Permutation desc l) by apply sortBy_Permutation.
  assert (Sa : StronglySorted
                 (fun a b => (Product.price a <= Product.price b)%Z) asc).
  { apply (sortBy_sorted Product.price). intros a b.
    destruct (Z.ltb_spec 0 (Product.price a - Product.price b)),
             (Z.ltb_spec (Product.price b) (Product.price a)); lia. }
  assert (Sd : StronglySorted
                 (fun a b => (Product.price a <= Product.price b)%Z) (rev desc)).
  { apply (StronglySorted_weaken
             (fun a b => (- Product.price b <= - Product.price a)%Z));
      [intros a b; lia|].
    apply (StronglySorted_rev
             (fun a b => (- Product.price a <= - Product.price b)%Z)) .
    apply (sortBy_sorted (fun a => (- Product.price a)%Z)). intros a b.
    destruct (Z.ltb_spec 0 (Product.price b - Product.price a)),
             (Z.ltb_spec (- Product.price b) (- Product.price a)); lia. }
  apply (StronglySorted_unique_strong _ _ _) with (3 := Sd) (2 := Sa).
  - intros x1 x2 H1 H2 Hle Hge.
    apply (NoDup_map_inj Product.price l); [exact Hnd | | | lia].
    + apply list_elem_of_In in H1. now apply (Permutation_in _ Pa).
    + apply list_elem_of_In in H2. apply in_rev in H2.
      now apply (Permutation_in _ Pd).
  - rewrite Pa, <- Pd. apply Permutation_rev.
Qed.

(** C8: when no two products of the filtered set have the same price, the
    list shown for the sort key [price-low] is the reverse of the list
    shown for [price-high]; both are rearrangements of the filtered set. *)
Theorem price_sorts_are_reverses (coll : Collator) (st : State) :
  NoDup (List.map Product.price (filteredProducts st)) ->
  productsContainer (Script.performSort (set_sortSelect (js "price-low") st))
  = rev (productsContainer
           (Script.performSort (set_sortSelect (js "price-high") st)))
  /\ Permutation
       (productsContainer
          (Script.performSort (set_sortSelect (js "price-low") st)))
       (filteredProducts st)
  /\ Permutation
       (productsContainer
          (Script.performSort (set_sortSelect (js "price-high") st)))
       (filteredProducts st).
Proof.
  intros Hnd. unfold Script.performSort, Script.loadProducts.
  cbn [productsContainer set_productsContainer sortSelect set_sortSelect
       filteredProducts].
  change (jsstring_eqb (js "price-low") (js "price-low")) with true.
  change (jsstring_eqb (js "price-high") (js "price-low")) with false.
  change (jsstring_eqb (js "price-high") (js "price-high")) with true.
  cbv iota. split; [now apply price_sorts_reversed|].
  split; apply sortBy_Permutation.
Qed.

Lemma price_sorts_are_reverses_witness :
  productsContainer
    (Script.performSort (coll := codeUnitCollator)
       (set_sortSelect (js "price-low") (initialState Catalog.products emptyForm)))
  = rev (productsContainer
           (Script.performSort (coll := codeUnitCollator)
              (set_sortSelect (js "price-high")
                 (initialState Catalog.products emptyForm)))).
Proof.
  apply (price_sorts_are_reverses codeUnitCollator
           (initialState Catalog.products emptyForm)).
  cbn [filteredProducts initialState]. unfold Catalog.products.
  cbn [List.map Product.price].
  apply (bool_decide_unpack _). reflexivity.
Defined.

(** ** The chat log *)

Lemma sliceLast_length {A : Type} (n : nat) (a : list A) :
  (length (Assistant.sliceLast n a) <= n)%nat.
Proof. unfold Assistant.sliceLast. rewrite length_skipn. lia. Qed.

Lemma sliceLast_short {A : Type} (n : nat) (a : list A) :
  (length a <= n)%nat -> Assistant.sliceLast n a = a.
Proof.
  intros H. unfold Assistant.sliceLast. now replace (length a - n)%nat with 0%nat by lia.
Qed.

Lemma sliceLast_app {A : Type} (n : nat) (a b : list A) :
  Assistant.sliceLast n (Assistant.sliceLast n a ++ b) = Assistant.sliceLast n (a ++ b).
Proof.
  destruct (Nat.le_gt_cases (length a) n) as [H | H].
  - now rewrite (sliceLast_short n a H).
  - unfold Assistant.sliceLast. rewrite !length_app, length_skipn.
    rewrite (skipn_app (length a + length b - n) a b).
    rewrite (skipn_app _ (skipn (length a - n) a) b).
    rewrite skipn_skipn, length_skipn. f_equal; f_equal; lia.
Qed.

Section ChatLog.
Context (setItemSucceeds : gmap (list N) (list N) -> jsstring -> jsstring -> bool).

Lemma save_history (st : Assistant.State) :
  Assistant.conversationHistory
    (Assistant.saveConversationHistory setItemSucceeds st)
  = Assistant.sliceLast 20 (Assistant.conversationHistory st).
Proof.
  unfold Assistant.saveConversationHistory.
  assert (E : (if (20 <? length (Assistant.conversationHistory st))%nat
               then Assistant.sliceLast 20 (Assistant.conversationHistory st)
               else Assistant.conversationHistory st)
              = Assistant.sliceLast 20 (Assistant.conversationHistory st)).
  { destruct (Nat.ltb_spec 20 (length (Assistant.conversationHistory st)));
      [reflexivity|]. symmetry. now apply sliceLast_short. }
  rewrite E. now destruct (setItemSucceeds _ _ _).
Qed.

Lemma step_history (st : Assistant.State) (e : Assistant.Event) :
  Assistant.conversationHistory (Assistant.step setItemSucceeds st e)
  = Assistant.sliceLast 20 (Assistant.conversationHistory st ++ [Assistant.messageOf e]).
Proof.
  destruct e; cbn [Assistant.step];
    unfold Assistant.addUserMessage, Assistant.addBotMessage;
    now rewrite save_history.
Qed.

Lemma step_store (st : Assistant.State) (e : Assistant.Event) :
  Assistant.localStorage (Assistant.step setItemSucceeds st e)
  = if setItemSucceeds (Assistant.localStorage st) Assistant.conversationKey
         (Assistant.JSON_stringify
            (Assistant.conversationHistory
               (Assistant.step setItemSucceeds st e)))
    then <[Assistant.conversationKey :=
             Assistant.JSON_stringify
               (Assistant.conversationHistory
                  (Assistant.step setItemSucceeds st e))]>
           (Assistant.localStorage st)
    else Assistant.localStorage st.
Proof.
  rewrite step_history.
  destruct e; cbn [Assistant.step Assistant.messageOf];
    unfold Assistant.addUserMessage, Assistant.addBotMessage,
      Assistant.saveConversationHistory;
    cbn [Assistant.conversationHistory Assistant.localStorage
         Assistant.push Assistant.addMessage];
    match goal with
    | |- context [if (20 <? length ?h)%nat then _ else _] =>
        replace (if (20 <? length h)%nat then Assistant.sliceLast 20 h else h)
          with (Assistant.sliceLast 20 h)
          by (destruct (Nat.ltb_spec 20 (length h));
              [reflexivity | now rewrite sliceLast_short])
    end;
    now destruct (setItemSucceeds _ _ _).
Qed.

Lemma run_snoc (events : list Assistant.Event) (e : Assistant.Event)
    (st : Assistant.State) :
  Assistant.run setItemSucceeds (events ++ [e]) st
  = Assistant.step setItemSucceeds (Assistant.run setItemSucceeds events st) e.
Proof. unfold Assistant.run. now rewrite fold_left_app. Qed.

Lemma run_history (events : list Assistant.Event) (e : Assistant.Event)
    (st : Assistant.State) :
  Assistant.conversationHistory
    (Assistant.run setItemSucceeds (events ++ [e]) st)
  = Assistant.sliceLast 20
      (Assistant.conversationHistory st
       ++ List.map Assistant.messageOf (events ++ [e])).
Proof.
  revert e. induction events as [|e' events IH] using rev_ind; intros e.
  - simpl. apply step_history.
  - rewrite run_snoc, step_history, IH, sliceLast_app.
    rewrite (map_app _ (events ++ [e']) [e]), app_assoc. reflexivity.
Qed.
End ChatLog.

(** C9: after the last message of any non-empty sequence of user and bot
    messages, from any earlier history, the log in memory is the last
    twenty messages, so it has at most twenty entries; every write to the
    preference store stores the serialisation of that log, and when the
    host refuses the write the store is left as it was. *)
Theorem stored_log_is_last_twenty
    (setItemSucceeds : gmap (list N) (list N) -> jsstring -> jsstring -> bool)
    (st : Assistant.State) (events : list Assistant.Event) (e : Assistant.Event) :
  exists log,
    log = Assistant.sliceLast 20
            (Assistant.conversationHistory st
             ++ List.map Assistant.messageOf (events ++ [e]))
    /\ (length log <= 20)%nat
    /\ Assistant.conversationHistory
         (Assistant.run setItemSucceeds (events ++ [e]) st) = log
    /\ (setItemSucceeds
          (Assistant.localStorage (Assistant.run setItemSucceeds events st))
          Assistant.conversationKey (Assistant.JSON_stringify log) = true ->
        Assistant.localStorage
          (Assistant.run setItemSucceeds (events ++ [e]) st)
          !! Assistant.conversationKey
        = Some (Assistant.JSON_stringify log))
    /\ (setItemSucceeds
          (Assistant.localStorage (Assistant.run setItemSucceeds events st))
          Assistant.conversationKey (Assistant.JSON_stringify log) = false ->
        Assistant.localStorage
          (Assistant.run setItemSucceeds (events ++ [e]) st)
        = Assistant.localStorage (Assistant.run setItemSucceeds events st)).
Proof.
  eexists. split; [reflexivity|]. split; [apply sliceLast_length|].
  pose proof (run_history setItemSucceeds events e st) as Hh.
  split; [exact Hh|].
  rewrite run_snoc in Hh |- *. rewrite step_store, Hh.
  split; intros ->; [apply lookup_insert_eq | reflexivity].
Qed.

Lemma stored_log_is_last_twenty_witness :
  exists log,
    (length log <= 20)%nat
    /\ Assistant.localStorage (Assistant.run acceptAll longChat freshAssistant)
       !! Assistant.conversationKey
       = Some (Assistant.JSON_stringify log).
Proof.
  destruct (stored_log_is_last_twenty acceptAll freshAssistant questions answer)
    as (log & _ & Hlen & _ & Hw & _).
  exists log. split; [exact Hlen|]. apply Hw. reflexivity.
Defined.

(** * Further properties of the scripts *)

(** ** Picking a product that exists *)

Lemma find_unique_id (products : list Product.t) (p : Product.t) :
  In p products -> NoDup (List.map Product.id products) ->
  find (fun q => (Product.id q =? Product.id p)%Z) products = Some p.
Proof.
  induction products as [|q l IH]; simpl; [tauto|].
  intros Hin Hnd. apply NoDup_cons in Hnd as [Hq Hnd].
  destruct (Z.eqb_spec (Product.id q) (Product.id p)) as [E | E].
  - destruct Hin as [-> | Hin]; [reflexivity|].
    exfalso. apply Hq. rewrite E. apply list_elem_of_In. now apply in_map.
  - destruct Hin as [-> | Hin]; [congruence|]. now apply IH.
Qed.

(** X1: in a catalogue without repeated ids, [openOrderModal] with the id
    of a product of the catalogue selects that product and opens the
    order dialog, the quantity field is not reset, and nothing is reported.
    The summary shows the price times the quantity that the quantity field
    holds at that moment, as long as quantity and total are safe integers
    (magnitude below 2^53), which the engine computes exactly. *)
Theorem select_existing_id_opens_dialog
    (fmt : NumberFormat) (products : list Product.t) (p : Product.t)
    (st : State) :
  In p products ->
  NoDup (List.map Product.id products) ->
  currentProduct (Script.openOrderModal products (Product.id p) st) = Some p
  /\ orderModalOpen (Script.openOrderModal products (Product.id p) st) = true
  /\ effects (Script.openOrderModal products (Product.id p) st) = effects st
  /\ productQuantity (Script.openOrderModal products (Product.id p) st)
     = productQuantity st
  /\ forall quantity,
       orOne (parseInt (productQuantity st)) = quantity ->
       SafeAmounts (Product.price p) quantity ->
       summary (Script.openOrderModal products (Product.id p) st)
       = mkSummary
           (js "Product: " ++ Product.name p)
           (js "Unit Price: PKR " ++ numberToLocaleString (Product.price p))
           (js "Quantity: " ++ numberToString quantity)
           (js "Total Amount: PKR "
            ++ numberToLocaleString (Product.price p * quantity)%Z).
Proof.
  intros Hin Hnd. unfold Script.openOrderModal, Script.updateOrderSummary.
  cbn [currentProduct set_currentProduct].
  rewrite (find_unique_id products p Hin Hnd).
  repeat (split; [reflexivity|]). intros quantity <- _. reflexivity.
Qed.

Lemma select_existing_id_opens_dialog_witness :
  currentProduct
    (Script.openOrderModal (fmt := enUS) Catalog.products
       (Product.id pufferJacket) (initialState Catalog.products emptyForm))
  = Some pufferJacket
  /\ summaryTotal
       (summary
          (Script.openOrderModal (fmt := enUS) Catalog.products
             (Product.id pufferJacket)
             (set_productQuantity (js "3")
                (initialState Catalog.products emptyForm))))
     = js "Total Amount: PKR 14,397".
Proof.
  assert (Hin : In pufferJacket Catalog.products) by (vm_compute; tauto).
  assert (Hnd : NoDup (List.map Product.id Catalog.products))
    by (apply (bool_decide_unpack _); reflexivity).
  split.
  - apply (select_existing_id_opens_dialog enUS Catalog.products pufferJacket
             (initialState Catalog.products emptyForm) Hin Hnd).
  - destruct (select_existing_id_opens_dialog enUS Catalog.products
                pufferJacket
                (set_productQuantity (js "3")
                   (initialState Catalog.products emptyForm)) Hin Hnd)
      as (_ & _ & _ & _ & Hs).
    rewrite (Hs 3%Z eq_refl); [reflexivity|].
    unfold SafeAmounts, SafeInteger. simpl. lia.
Defined.

(** ** What a search displays *)

Lemma performSort_Permutation `{Collator} (st : State) :
  Permutation (productsContainer (Script.performSort st)) (filteredProducts st).
Proof.
  unfold Script.performSort, Script.loadProducts.
  cbn [productsContainer set_productsContainer].
  repeat match goal with
         | |- context [if ?b then _ else _] => destruct b
         end;
    try apply sortBy_Permutation; reflexivity.
Qed.

(** X2: whatever the sort selector holds, the cards displayed after a
    search are a rearrangement of the filtered products: a product is
    displayed if and only if it is in the catalogue and matches the
    trimmed search term, letter case ignored as the engine's [toLowerCase]
    does, and no product is dropped or shown twice. *)
Theorem search_displays_exactly_matches
    (coll : Collator) (case : CaseMapping)
    (products : list Product.t) (st : State) :
  LeavesWhiteSpace case ->
  Permutation (productsContainer (Script.performSearch products st))
    (filteredProducts (Script.performSearch products st))
  /\ forall p,
       In p (productsContainer (Script.performSearch products st))
       <-> In p products /\ Matches p (trim (searchInput st)).
Proof.
  intros Hcase.
  assert (HP : Permutation (productsContainer (Script.performSearch products st))
                 (filteredProducts (Script.performSearch products st))).
  { unfold Script.performSearch. rewrite performSort_filteredProducts.
    apply performSort_Permutation. }
  split; [exact HP|]. intros p.
  destruct (performSearch_filter case products st Hcase) as (keep & Hf & Hk).
  rewrite <- Hk, <- filter_In, <- Hf. split; apply Permutation_in.
  - exact HP.
  - now apply Permutation_sym.
Qed.

Lemma search_displays_exactly_matches_witness :
  In leatherJacket
    (productsContainer
       (Script.performSearch (coll := codeUnitCollator) (case := latin1)
          Catalog.products
          (set_sortSelect (js "price-high") (searching (js " Leather ")))))
  /\ ~ In pufferJacket
        (productsContainer
           (Script.performSearch (coll := codeUnitCollator) (case := latin1)
              Catalog.products
              (set_sortSelect (js "price-high") (searching (js " Leather "))))).
Proof.
  destruct (search_displays_exactly_matches codeUnitCollator latin1
              Catalog.products
              (set_sortSelect (js "price-high") (searching (js " Leather ")))
              latin1_LeavesWhiteSpace) as [_ H].
  split.
  - apply H. split; [vm_compute; tauto|].
    left. apply includes_spec. reflexivity.
  - intros Hin. apply H in Hin as [_ [Hm | [Hm | Hm]]];
      revert Hm; apply includes_false; reflexivity.
Defined.

(** X3: for the sort key [price-low] the displayed prices never decrease,
    for [price-high] they never increase, ties or not. *)
Theorem price_sorts_are_ordered (coll : Collator) (st : State) :
  StronglySorted (fun a b => (Product.price a <= Product.price b)%Z)
    (productsContainer (Script.performSort (set_sortSelect (js "price-low") st)))
  /\ StronglySorted (fun a b => (Product.price b <= Product.price a)%Z)
       (productsContainer
          (Script.performSort (set_sortSelect (js "price-high") st))).
Proof.
  unfold Script.performSort, Script.loadProducts.
  cbn [productsContainer set_productsContainer sortSelect set_sortSelect
       filteredProducts].
  change (jsstring_eqb (js "price-low") (js "price-low")) with true.
  change (jsstring_eqb (js "price-high") (js "price-low")) with false.
  change (jsstring_eqb (js "price-high") (js "price-high")) with true.
  cbv iota. split.
  - apply (sortBy_sorted Product.price). intros a b.
    destruct (Z.ltb_spec 0 (Product.price a - Product.price b)),
             (Z.ltb_spec (Product.price b) (Product.price a)); lia.
  - apply (StronglySorted_weaken
             (fun a b => (- Product.price a <= - Product.price b)%Z));
      [intros a b; lia|].
    apply (sortBy_sorted (fun a => (- Product.price a)%Z)). intros a b.
    destruct (Z.ltb_spec 0 (Product.price b - Product.price a)),
             (Z.ltb_spec (- Product.price b) (- Product.price a)); lia.
Qed.

Section StableSort.
Context {A : Type} (key : A -> Z) (cmp : A -> A -> Z).
Hypothesis cmp_key : forall a b, (0 <? cmp a b)%Z = (key b <? key a)%Z.

Lemma filter_insertBy (k : Z) (x : A) (l : list A) :
  List.filter (fun a => (key a =? k)%Z) (insertBy cmp x l)
  = List.filter (fun a => (key a =? k)%Z) (x :: l).
Proof.
  induction l as [|y r IH]; [reflexivity|].
  cbn [insertBy]. rewrite cmp_key.
  destruct (Z.ltb_spec (key y) (key x)) as [Hlt | Hge]; [|reflexivity].
  cbn [List.filter] in *. rewrite IH.
  destruct (Z.eqb_spec (key x) k), (Z.eqb_spec (key y) k);
    try reflexivity; lia.
Qed.

Lemma filter_sortBy (k : Z) (l : list A) :
  List.filter (fun a => (key a =? k)%Z) (sortBy cmp l)
  = List.filter (fun a => (key a =? k)%Z) l.
Proof.
  induction l as [|x l IH]; [reflexivity|].
  cbn [sortBy fold_right]. fold (sortBy cmp l).
  rewrite filter_insertBy. cbn [List.filter]. now rewrite IH.
Qed.
End StableSort.

(** X4: the price sorts are stable: products with the same price are
    displayed in the order they have in the filtered list, for [price-low]
    and for [price-high] alike. *)
Theorem price_sorts_keep_order_of_ties
    (coll : Collator) (st : State) (price : Z) :
  List.filter (fun p => (Product.price p =? price)%Z)
    (productsContainer (Script.performSort (set_sortSelect (js "price-low") st)))
  = List.filter (fun p => (Product.price p =? price)%Z) (filteredProducts st)
  /\ List.filter (fun p => (Product.price p =? price)%Z)
       (productsContainer
          (Script.performSort (set_sortSelect (js "price-high") st)))
     = List.filter (fun p => (Product.price p =? price)%Z) (filteredProducts st).
Proof.
  unfold Script.performSort, Script.loadProducts.
  cbn [productsContainer set_productsContainer sortSelect set_sortSelect
       filteredProducts].
  change (jsstring_eqb (js "price-low") (js "price-low")) with true.
  change (jsstring_eqb (js "price-high") (js "price-low")) with false.
  change (jsstring_eqb (js "price-high") (js "price-high")) with true.
  cbv iota. split.
  - apply (filter_sortBy Product.price). intros a b.
    destruct (Z.ltb_spec 0 (Product.price a - Product.price b)),
             (Z.ltb_spec (Product.price b) (Product.price a)); lia.
  - pose proof (filter_sortBy (fun a => (- Product.price a)%Z)
                  (fun a b => (Product.price b - Product.price a)%Z)) as H.
    assert (E : forall p, (Product.price p =? price)%Z
                          = (- Product.price p =? - price)%Z).
    { intros p. destruct (Z.eqb_spec (Product.price p) price),
                         (Z.eqb_spec (- Product.price p) (- price)); lia. }
    rewrite !(filter_ext _ _ E).
    rewrite H; [reflexivity|]. intros a b.
    destruct (Z.ltb_spec 0 (Product.price b - Product.price a)),
             (Z.ltb_spec (- Product.price b) (- Product.price a)); lia.
Qed.

(** ** Texts and their percent-encoding *)

Lemma small_Text (s : jsstring) : Forall (fun c => c < 0xD800) s -> Text s.
Proof.
  induction 1 as [|c s Hc _ [IHu IHw]]; [split; constructor|].
  split.
  - constructor; [unfold Unit16; lia | exact IHu].
  - apply WellFormed_unit; [| |exact IHw].
    + unfold isHighSurrogate. apply andb_false_iff. left.
      apply N.leb_gt. exact Hc.
    + unfold isLowSurrogate. apply andb_false_iff. left.
      apply N.leb_gt. lia.
Qed.

Lemma js_small (s : string) : Forall (fun c => c < 0xD800) (js s).
Proof.
  unfold js. induction s as [|a s IH]; simpl; constructor; [|exact IH].
  pose proof (N_ascii_bounded a). lia.
Qed.

Lemma js_Text (s : string) : Text (js s).
Proof. apply small_Text, js_small. Qed.

Lemma numberToString_Text (z : Z) : Text (numberToString z).
Proof. apply js_Text. Qed.

Lemma WellFormed_app (a b : jsstring) :
  WellFormed a -> WellFormed b -> WellFormed (a ++ b).
Proof.
  induction 1; intros Hb; simpl; [exact Hb | |].
  - apply WellFormed_unit; auto.
  - apply WellFormed_pair; auto.
Qed.

Lemma Text_app (a b : jsstring) : Text a -> Text b -> Text (a ++ b).
Proof.
  intros [Ha Wa] [Hb Wb]. split.
  - apply Forall_app. split; assumption.
  - now apply WellFormed_app.
Qed.

Lemma Text_nil : Text [].
Proof. split; constructor. Qed.

Lemma pair_Text (c d : N) :
  isHighSurrogate c = true -> isLowSurrogate d = true -> Text [c; d].
Proof.
  intros Hc Hd. split.
  - unfold isHighSurrogate, isLowSurrogate in *.
    rewrite andb_true_iff, !N.leb_le in Hc, Hd.
    repeat constructor; unfold Unit16; lia.
  - apply WellFormed_pair; [assumption.. | constructor].
Qed.

Lemma rule_Text (n : nat) : Text (rule n).
Proof.
  apply small_Text. unfold rule. induction n; simpl; constructor;
    [reflexivity | assumption].
Qed.

Lemma symbols_Text :
  Text shoppingBags /\ Text parcel /\ Text bust /\ Text memo
  /\ Text alarmClock /\ Text bullet /\ Text nl.
Proof.
  assert (Hs : forall c, c < 65536 -> isHighSurrogate c = false ->
                         isLowSurrogate c = false -> Text [c]).
  { intros c Hc Hh Hl. split; [repeat constructor; exact Hc|].
    apply WellFormed_unit; [assumption.. | constructor]. }
  refine (conj _ (conj _ (conj _ (conj _ (conj _ (conj _ _)))))).
  - change (Text ([0xD83D; 0xDECD] ++ [0xFE0F])).
    apply Text_app; [apply pair_Text; reflexivity | apply Hs; reflexivity].
  - apply pair_Text; reflexivity.
  - apply pair_Text; reflexivity.
  - apply pair_Text; reflexivity.
  - apply Hs; reflexivity.
  - apply Hs; reflexivity.
  - apply Hs; reflexivity.
Qed.

Ltac text :=
  repeat first
    [ assumption
    | apply js_Text
    | apply numberToString_Text
    | apply rule_Text
    | apply Text_nil
    | apply (proj1 symbols_Text)
    | apply (proj1 (proj2 symbols_Text))
    | apply (proj1 (proj2 (proj2 symbols_Text)))
    | apply (proj1 (proj2 (proj2 (proj2 symbols_Text))))
    | apply (proj1 (proj2 (proj2 (proj2 (proj2 symbols_Text)))))
    | apply (proj1 (proj2 (proj2 (proj2 (proj2 (proj2 symbols_Text))))))
    | apply (proj2 (proj2 (proj2 (proj2 (proj2 (proj2 symbols_Text))))))
    | apply Text_app
    | match goal with
      | H : forall z, Text (numberToLocaleString z) |- _ => apply H
      | |- Text (if ?b then _ else _) => destruct b
      end ].

Lemma hexDigit_safe (d : N) : d < 16 -> uriUnreserved (hexDigit d) = true.
Proof.
  intros H.
  assert (E : d = 0 \/ d = 1 \/ d = 2 \/ d = 3 \/ d = 4 \/ d = 5 \/ d = 6
              \/ d = 7 \/ d = 8 \/ d = 9 \/ d = 10 \/ d = 11 \/ d = 12
              \/ d = 13 \/ d = 14 \/ d = 15) by lia.
  repeat destruct E as [-> | E]; try reflexivity. now subst.
Qed.

Lemma percentByte_safe (b : N) : b < 256 -> Forall UrlSafe (percentByte b).
Proof.
  intros H. unfold percentByte.
  assert (b / 16 < 16) by (apply N.Div0.div_lt_upper_bound; lia).
  assert (b mod 16 < 16) by (apply N.mod_lt; lia).
  constructor; [now right|].
  constructor; [left; now apply hexDigit_safe|].
  constructor; [left; now apply hexDigit_safe | constructor].
Qed.

Lemma utf8_bytes (cp : N) : cp < 0x110000 -> Forall (fun b => b < 256) (utf8 cp).
Proof.
  intros H. unfold utf8.
  assert (H64 : forall x, x mod 64 < 64) by (intros; apply N.mod_lt; lia).
  destruct (N.ltb_spec cp 0x80); [repeat constructor; lia|].
  destruct (N.ltb_spec cp 0x800).
  { assert (cp / 64 < 32) by (apply N.Div0.div_lt_upper_bound; lia).
    pose proof (H64 cp). repeat constructor; lia. }
  destruct (N.ltb_spec cp 0x10000).
  { assert (cp / 4096 < 16) by (apply N.Div0.div_lt_upper_bound; lia).
    pose proof (H64 cp). pose proof (H64 (cp / 64)).
    repeat constructor; lia. }
  assert (cp / 262144 < 8) by (apply N.Div0.div_lt_upper_bound; lia).
  pose proof (H64 cp). pose proof (H64 (cp / 64)). pose proof (H64 (cp / 4096)).
  repeat constructor; lia.
Qed.

Lemma percentEncode_safe (cp : N) :
  cp < 0x110000 -> Forall UrlSafe (percentEncode cp).
Proof.
  intros H. unfold percentEncode. apply utf8_bytes in H.
  induction H as [|b l Hb _ IH]; cbn [List.map List.concat]; [constructor|].
  apply Forall_app. split; [now apply percentByte_safe | exact IH].
Qed.

Lemma surrogate_reserved (c : N) :
  isHighSurrogate c = true ->
  uriUnreserved c = false /\ isLowSurrogate c = false.
Proof.
  unfold isHighSurrogate, isLowSurrogate, uriUnreserved, isAlnum. intros H.
  rewrite andb_true_iff, !N.leb_le in H.
  rewrite !orb_false_iff, !andb_false_iff, !N.eqb_neq, !N.leb_gt. lia.
Qed.

(** A well-formed string is encoded. *)
Lemma encodeURIComponent_total (s : jsstring) :
  WellFormed s -> exists t, encodeURIComponent s = Some t.
Proof.
  induction 1 as [|c s Hh Hl _ [t IH]|c d s Hc Hd _ [t IH]].
  - exists []. reflexivity.
  - cbn [encodeURIComponent]. rewrite Hh, Hl, IH.
    destruct (uriUnreserved c); eexists; reflexivity.
  - cbn [encodeURIComponent].
    destruct (surrogate_reserved c Hc) as [-> ->]. rewrite Hc, Hd, IH.
    eexists. reflexivity.
Qed.

(** The encoding of a string holds only unreserved characters and
    percent escapes. *)
Lemma encodeURIComponent_safe (s t : jsstring) :
  Forall Unit16 s -> encodeURIComponent s = Some t -> Forall UrlSafe t.
Proof.
  remember (length s) as n eqn:En. revert s t En.
  induction n as [n IH] using lt_wf_ind. intros s t En Hs.
  destruct s as [|c rest]; cbn [encodeURIComponent].
  - intros E. injection E as <-. constructor.
  - apply Forall_cons in Hs as [Hc Hrest]. unfold Unit16 in Hc.
    destruct (uriUnreserved c) eqn:Eu.
    + destruct (encodeURIComponent rest) as [t'|] eqn:Er; [|discriminate].
      intros E. injection E as <-. constructor; [now left|].
      apply (IH (length rest)) with (s := rest); simpl in En; auto; lia.
    + destruct (isLowSurrogate c) eqn:El; [discriminate|].
      destruct (isHighSurrogate c) eqn:Eh.
      * destruct rest as [|d rest']; [discriminate|].
        destruct (isLowSurrogate d) eqn:Ed; [|discriminate].
        destruct (encodeURIComponent rest') as [t'|] eqn:Er; [|discriminate].
        intros E. injection E as <-.
        apply Forall_cons in Hrest as [Hd Hrest']. unfold Unit16 in Hd.
        apply Forall_app. split.
        -- apply percentEncode_safe.
           unfold isHighSurrogate, isLowSurrogate in Eh, Ed.
           rewrite andb_true_iff, !N.leb_le in Eh, Ed. lia.
        -- apply (IH (length rest')) with (s := rest'); simpl in En; auto; lia.
      * destruct (encodeURIComponent rest) as [t'|] eqn:Er; [|discriminate].
        intros E. injection E as <-. apply Forall_app. split.
        -- apply percentEncode_safe. lia.
        -- apply (IH (length rest)) with (s := rest); simpl in En; auto; lia.
Qed.

Lemma encodeURIComponent_Text (s : jsstring) :
  Text s -> exists t, encodeURIComponent s = Some t /\ Forall UrlSafe t.
Proof.
  intros [Hu Hw]. destruct (encodeURIComponent_total s Hw) as [t Ht].
  exists t. split; [exact Ht|]. now apply (encodeURIComponent_safe s).
Qed.

Lemma group3_small (l : jsstring) :
  Forall (fun c => c < 0xD800) l -> Forall (fun c => c < 0xD800) (group3 l).
Proof.
  remember (length l) as n eqn:En. revert l En.
  induction n as [n IH] using lt_wf_ind. intros l En H.
  destruct l as [|a [|b [|c [|d r]]]]; try exact H.
  change (group3 (a :: b :: c :: d :: r))
    with (a :: b :: c :: 44 :: group3 (d :: r)).
  apply Forall_cons in H as [Ha H]. apply Forall_cons in H as [Hb H].
  apply Forall_cons in H as [Hc H].
  repeat (constructor; [assumption || reflexivity|]).
  apply (IH (length (d :: r))); [simpl in *; lia | reflexivity | exact H].
Qed.

Lemma enUS_Text (z : Z) : Text (@numberToLocaleString enUS z).
Proof.
  apply small_Text. unfold numberToLocaleString, enUS.
  apply Forall_app. split.
  - destruct (z <? 0)%Z; repeat constructor.
  - apply Forall_rev, group3_small, Forall_rev, js_small.
Qed.

(** ** Orders that go out *)

Lemma validateForm_true (st : State) :
  fst (Script.validateForm st) = true -> Script.validateForm st = (true, st).
Proof.
  intros H. unfold Script.validateForm in *.
  destruct (negb (truthy (customer_name (orderForm st))) || _ || _ || _);
    [discriminate|].
  destruct (truthy _ && negb _); [discriminate | reflexivity].
Qed.

Lemma legacy_validateForm_true (st : State) :
  fst (Legacy.validateForm st) = true -> Legacy.validateForm st = (true, st).
Proof.
  intros H. unfold Legacy.validateForm in *.
  destruct (negb (truthy (customer_name (orderForm st))) || _ || _ || _ || _);
    [discriminate|].
  destruct (negb _); [discriminate | reflexivity].
Qed.

Lemma formatOrderMessage_Text (fmt : NumberFormat) (data : Order.t) :
  (forall z, Text (numberToLocaleString z)) ->
  Text (Order.product data) -> Text (Order.name data) ->
  Text (Order.phone data) -> Text (Order.email data) ->
  Text (Order.address data) -> Text (Order.size data) ->
  Text (Order.instructions data) -> Text (Order.time data) ->
  Text (Script.formatOrderMessage data).
Proof. intros. unfold Script.formatOrderMessage. text. Qed.

Lemma legacy_formatOrderMessage_Text (fmt : NumberFormat) (data : Order.t) :
  (forall z, Text (numberToLocaleString z)) ->
  Text (Order.product data) -> Text (Order.name data) ->
  Text (Order.phone data) -> Text (Order.email data) ->
  Text (Order.address data) -> Text (Order.size data) ->
  Text (Order.instructions data) -> Text (Order.time data) ->
  Text (Legacy.formatOrderMessage data).
Proof. intros. unfold Legacy.formatOrderMessage. text. Qed.

Lemma emailContentOf_Text (fmt : NumberFormat) (body : jsstring) (data : Order.t) :
  (forall z, Text (numberToLocaleString z)) ->
  Text body ->
  Text (Order.product data) -> Text (Order.name data) ->
  Text (Order.phone data) -> Text (Order.email data) ->
  Text (Order.address data) -> Text (Order.size data) ->
  Text (Order.instructions data) ->
  Text (Script.emailContentOf body data).
Proof. intros. unfold Script.emailContentOf. text. Qed.

(** X5: a valid form with a selected product, all texts well formed: the
    WhatsApp order goes out.  [placeWhatsAppOrder] of [script.js] raises
    nothing, opens exactly one window, on
    [https://wa.me/923429438436?text=] followed by a text made of
    unreserved characters and percent escapes only (no field can add a
    second parameter to the link), and leaves the dialog closed, the
    selection empty, the form reset and the quantity at 1. *)
Theorem whatsapp_order_goes_out
    (formDefaults : Form) (fmt : NumberFormat) (orderTime : jsstring)
    (st : State) (p : Product.t) :
  fst (Script.validateForm st) = true ->
  currentProduct st = Some p ->
  OrderTexts p (orderForm st) orderTime ->
  (forall z, Text (numberToLocaleString z)) ->
  exists data text,
    Script.getOrderData orderTime st = Some data
    /\ encodeURIComponent (Script.formatOrderMessage data) = Some text
    /\ Forall UrlSafe text
    /\ Script.placeWhatsAppOrder formDefaults orderTime st
       = Normal
           (orderSent formDefaults
              (WindowOpen (js "https://wa.me/923429438436?text=" ++ text)
                 (js "_blank")) st).
Proof.
  intros Hv Hp (Tn & T1 & T2 & T3 & T4 & T5 & T6 & T7) Hfmt.
  pose proof (getOrderData_selected orderTime st p Hp) as Hd.
  eexists. 
  destruct (encodeURIComponent_Text
              (Script.formatOrderMessage
                 (Order.make (Product.name p) (Product.price p)
                    (orOne (parseInt (productQuantity st)))
                    (Product.price p * orOne (parseInt (productQuantity st)))
                    (customer_name (orderForm st)) (customer_phone (orderForm st))
                    (customer_email (orderForm st))
                    (customer_address (orderForm st))
                    (product_size (orderForm st))
                    (special_instructions (orderForm st)) orderTime)))
    as (text & He & Hs).
  { apply formatOrderMessage_Text; assumption. }
  exists text. split; [exact Hd|]. split; [exact He|]. split; [exact Hs|].
  unfold Script.placeWhatsAppOrder.
  rewrite (validateForm_true st Hv). cbn [negb]. rewrite Hd, He. reflexivity.
Qed.

Lemma whatsapp_order_goes_out_witness :
  exists text,
    Script.placeWhatsAppOrder emptyForm (fmt := enUS) sampleOrderTime
      twoLeatherJackets
    = Normal
        (orderSent emptyForm
           (WindowOpen (js "https://wa.me/923429438436?text=" ++ text)
              (js "_blank")) twoLeatherJackets).
Proof.
  destruct (whatsapp_order_goes_out emptyForm enUS sampleOrderTime
              twoLeatherJackets leatherJacket eq_refl eq_refl)
    as (data & text & _ & _ & _ & H).
  - repeat split; first [apply js_small | apply js_Text | constructor
                         | apply WellFormed_nil].
  - apply enUS_Text.
  - exists text. exact H.
Defined.

(** X6: a valid form but no selected product: [placeWhatsAppOrder] and
    [placeEmailOrder] of [script.js] fail with a [TypeError] when they
    read the price of the missing product; nothing is sent, nothing is
    reported, and the state is as before. *)
Theorem order_without_product_raises
    (formDefaults : Form) (fmt : NumberFormat) (orderTime : jsstring)
    (st : State) :
  fst (Script.validateForm st) = true ->
  currentProduct st = None ->
  Script.placeWhatsAppOrder formDefaults orderTime st = Throw TypeError st
  /\ Script.placeEmailOrder orderTime st = Throw TypeError st.
Proof.
  intros Hv Hp. unfold Script.placeWhatsAppOrder, Script.placeEmailOrder.
  rewrite (validateForm_true st Hv). cbn [negb].
  unfold Script.getOrderData. rewrite Hp. split; reflexivity.
Qed.

Lemma order_without_product_raises_witness :
  Script.placeWhatsAppOrder emptyForm (fmt := enUS) sampleOrderTime
    (set_orderForm formWithoutEmail (initialState Catalog.products emptyForm))
  = Throw TypeError
      (set_orderForm formWithoutEmail (initialState Catalog.products emptyForm)).
Proof.
  apply (order_without_product_raises emptyForm enUS sampleOrderTime
           (set_orderForm formWithoutEmail
              (initialState Catalog.products emptyForm)));
    reflexivity.
Defined.

(** X7: a valid form with a selected product, all texts well formed: the
    e-mail order of [script.js] shows the pop-up with the order text for
    [hhmibrothers@gmail.com], a subject that ends with the product name
    and a Gmail link whose subject and body are percent-encoded.  Unlike
    the WhatsApp order it leaves the order dialog open and the product
    selected; the dialog closes when the pop-up is confirmed. *)
Theorem email_order_shows_popup
    (formDefaults : Form) (fmt : NumberFormat) (orderTime : jsstring)
    (st : State) (p : Product.t) :
  fst (Script.validateForm st) = true ->
  currentProduct st = Some p ->
  OrderTexts p (orderForm st) orderTime ->
  (forall z, Text (numberToLocaleString z)) ->
  exists data su body popup,
    Script.getOrderData orderTime st = Some data
    /\ encodeURIComponent (js "NEW ORDER - HHMI Brothers - " ++ Product.name p)
       = Some su
    /\ encodeURIComponent
         (Script.emailContentOf (Script.formatOrderMessage data) data)
       = Some body
    /\ Forall UrlSafe su /\ Forall UrlSafe body
    /\ popup
       = EmailCopyInstructions
           (Script.emailContentOf (Script.formatOrderMessage data) data)
           (js "hhmibrothers@gmail.com")
           (js "NEW ORDER - HHMI Brothers - " ++ Product.name p)
           (js "https://mail.google.com/mail/?view=cm&fs=1&to="
            ++ js "hhmibrothers@gmail.com" ++ js "&su=" ++ su
            ++ js "&body=" ++ body)
    /\ Script.placeEmailOrder orderTime st = Normal (emit popup st)
    /\ SameSelection st (emit popup st)
    /\ Script.closeEmailModal formDefaults (emit popup st)
       = orderSent formDefaults popup st.
Proof.
  intros Hv Hp (Tn & T1 & T2 & T3 & T4 & T5 & T6 & T7) Hfmt.
  pose proof (getOrderData_selected orderTime st p Hp) as Hd.
  set (data := Order.make (Product.name p) (Product.price p)
                 (orOne (parseInt (productQuantity st)))
                 (Product.price p * orOne (parseInt (productQuantity st)))
                 (customer_name (orderForm st)) (customer_phone (orderForm st))
                 (customer_email (orderForm st))
                 (customer_address (orderForm st))
                 (product_size (orderForm st))
                 (special_instructions (orderForm st)) orderTime) in *.
  assert (Tm : Text (Script.formatOrderMessage data))
    by (apply formatOrderMessage_Text; assumption).
  destruct (encodeURIComponent_Text
              (js "NEW ORDER - HHMI Brothers - " ++ Product.name p))
    as (su & Hsu & Ssu); [text|].
  destruct (encodeURIComponent_Text
              (Script.emailContentOf (Script.formatOrderMessage data) data))
    as (body & Hb & Sb); [apply emailContentOf_Text; assumption|].
  exists data, su, body. eexists.
  split; [exact Hd|]. split; [exact Hsu|]. split; [exact Hb|].
  split; [exact Ssu|]. split; [exact Sb|]. split; [reflexivity|].
  split; [|split; [apply SameSelection_emit | reflexivity]].
  unfold Script.placeEmailOrder.
  rewrite (validateForm_true st Hv). cbn [negb]. rewrite Hd.
  unfold Script.showEmailCopyInstructions.
  change (Order.product data) with (Product.name p).
  rewrite Hsu, Hb. reflexivity.
Qed.

Lemma email_order_shows_popup_witness :
  exists popup,
    Script.placeEmailOrder (fmt := enUS) sampleOrderTime twoLeatherJackets
    = Normal (emit popup twoLeatherJackets).
Proof.
  destruct (email_order_shows_popup emptyForm enUS sampleOrderTime
              twoLeatherJackets leatherJacket eq_refl eq_refl)
    as (data & su & body & popup & _ & _ & _ & _ & _ & _ & H & _).
  - repeat split; first [apply js_small | apply js_Text | constructor
                         | apply WellFormed_nil].
  - apply enUS_Text.
  - exists popup. exact H.
Defined.

(** ** The copy of the order flow in [HHMIBrothers/products.js] *)

Lemma legacy_validateForm_rejects (st : State) :
  fst (Legacy.validateForm st) = false ->
  exists alert,
    (alert = legacyRequiredAlert \/ alert = legacyEmailAlert)
    /\ Legacy.validateForm st = (false, emit alert st).
Proof.
  intros H. unfold Legacy.validateForm in *.
  destruct (negb (truthy (customer_name (orderForm st))) || _ || _ || _ || _).
  - exists legacyRequiredAlert. auto.
  - destruct (negb _).
    + exists legacyEmailAlert. auto.
    + discriminate.
Qed.

(** X8: in [HHMIBrothers/products.js], too, a failed validation stops both
    order handlers before anything is built: the state keeps selection,
    quantity, form and open dialog, and the only new effects are the alert
    and a console warning. *)
Theorem legacy_failed_validation_keeps_state
    (formDefaults : Form) (fmt : NumberFormat) (orderTime : jsstring)
    (st : State) :
  fst (Legacy.validateForm st) = false ->
  exists alert,
    (alert = legacyRequiredAlert \/ alert = legacyEmailAlert)
    /\ Legacy.placeWhatsAppOrder formDefaults orderTime st
       = Normal (emit whatsappWarning (emit alert st))
    /\ Legacy.placeEmailOrder formDefaults orderTime st
       = Normal (emit emailWarning (emit alert st))
    /\ SameSelection st (emit whatsappWarning (emit alert st))
    /\ SameSelection st (emit emailWarning (emit alert st))
    /\ effects (emit whatsappWarning (emit alert st))
       = effects st ++ [alert; whatsappWarning]
    /\ effects (emit emailWarning (emit alert st))
       = effects st ++ [alert; emailWarning]
    /\ forallb (fun e => negb (isChannelAction e))
         [alert; whatsappWarning; emailWarning] = true.
Proof.
  intros H. destruct (legacy_validateForm_rejects st H) as (alert & Ha & Hv).
  exists alert. split; [exact Ha|].
  unfold Legacy.placeWhatsAppOrder, Legacy.placeEmailOrder. rewrite Hv.
  cbn [negb]. repeat split.
  - cbn [effects emit]. now rewrite <- app_assoc.
  - cbn [effects emit]. now rewrite <- app_assoc.
  - destruct Ha as [-> | ->]; reflexivity.
Qed.

Lemma legacy_failed_validation_keeps_state_witness :
  exists alert,
    Legacy.placeEmailOrder emptyForm (fmt := enUS) sampleOrderTime
      twoLeatherJackets
    = Normal (emit emailWarning (emit alert twoLeatherJackets)).
Proof.
  destruct (legacy_failed_validation_keeps_state emptyForm enUS
              sampleOrderTime twoLeatherJackets eq_refl)
    as (alert & _ & _ & H & _).
  exists alert. exact H.
Defined.

(** X9: in [HHMIBrothers/products.js] a valid form with a selected
    product, all texts well formed, sends the order on either channel:
    WhatsApp opens [https://wa.me/+923441092910?text=...], e-mail
    navigates to [mailto:waqaskhank128@gmail.com] with the fixed subject
    and the percent-encoded message as body; both close the dialog, clear
    the selection and reset form and quantity. *)
Theorem legacy_orders_go_out
    (formDefaults : Form) (fmt : NumberFormat) (orderTime : jsstring)
    (st : State) (p : Product.t) :
  fst (Legacy.validateForm st) = true ->
  currentProduct st = Some p ->
  OrderTexts p (orderForm st) orderTime ->
  (forall z, Text (numberToLocaleString z)) ->
  exists data text,
    Script.getOrderData orderTime st = Some data
    /\ encodeURIComponent (Legacy.formatOrderMessage data) = Some text
    /\ Forall UrlSafe text
    /\ Legacy.placeWhatsAppOrder formDefaults orderTime st
       = Normal
           (orderSent formDefaults
              (WindowOpen (js "https://wa.me/+923441092910?text=" ++ text)
                 (js "_blank")) st)
    /\ Legacy.placeEmailOrder formDefaults orderTime st
       = Normal
           (orderSent formDefaults
              (LocationHref
                 (js "mailto:waqaskhank128@gmail.com?subject="
                  ++ js "NEW%20ORDER%20-%20HHMI%20Brothers"
                  ++ js "&body=" ++ text)) st).
Proof.
  intros Hv Hp (Tn & T1 & T2 & T3 & T4 & T5 & T6 & T7) Hfmt.
  pose proof (getOrderData_selected orderTime st p Hp) as Hd.
  eexists.
  destruct (encodeURIComponent_Text
              (Legacy.formatOrderMessage
                 (Order.make (Product.name p) (Product.price p)
                    (orOne (parseInt (productQuantity st)))
                    (Product.price p * orOne (parseInt (productQuantity st)))
                    (customer_name (orderForm st)) (customer_phone (orderForm st))
                    (customer_email (orderForm st))
                    (customer_address (orderForm st))
                    (product_size (orderForm st))
                    (special_instructions (orderForm st)) orderTime)))
    as (text & He & Hs).
  { apply legacy_formatOrderMessage_Text; assumption. }
  exists text. split; [exact Hd|]. split; [exact He|]. split; [exact Hs|].
  unfold Legacy.placeWhatsAppOrder, Legacy.placeEmailOrder.
  rewrite (legacy_validateForm_true st Hv). cbn [negb]. rewrite Hd, He.
  split; reflexivity.
Qed.

Lemma legacy_orders_go_out_witness :
  exists text,
    Legacy.placeEmailOrder emptyForm (fmt := enUS) sampleOrderTime
      twoLeatherJacketsLegacy
    = Normal
        (orderSent emptyForm
           (LocationHref
              (js "mailto:waqaskhank128@gmail.com?subject="
               ++ js "NEW%20ORDER%20-%20HHMI%20Brothers"
               ++ js "&body=" ++ text)) twoLeatherJacketsLegacy).
Proof.
  destruct (legacy_orders_go_out emptyForm enUS sampleOrderTime
              twoLeatherJacketsLegacy leatherJacket eq_refl eq_refl)
    as (data & text & _ & _ & _ & _ & H).
  - repeat split; first [apply js_small | apply js_Text | constructor
                         | apply WellFormed_nil].
  - apply enUS_Text.
  - exists text. exact H.
Defined.

(** ** Accepted e-mail addresses *)

Lemma Plain_count (l : jsstring) :
  Forall Plain l -> count_occ N.eq_dec l 64 = 0%nat.
Proof.
  induction 1 as [|c l [_ Hc] _ IH]; [reflexivity|].
  simpl. destruct (N.eq_dec c 64); [contradiction | exact IH].
Qed.

Lemma Plain_no_space (l : jsstring) :
  Forall Plain l -> Forall (fun c => isWhiteSpace c = false) l.
Proof. apply List.Forall_impl. intros c [H _]. exact H. Qed.

(** X10: an address that [isValidEmail] accepts has exactly one [@],
    which is neither its first nor its last code unit, holds no white
    space and is at least five code units long. *)
Theorem accepted_email_has_one_at (email : jsstring) :
  Script.isValidEmail email = true ->
  count_occ N.eq_dec email 64 = 1%nat
  /\ Forall (fun c => isWhiteSpace c = false) email
  /\ (5 <= length email)%nat
  /\ head email <> Some 64
  /\ head (rev email) <> Some 64.
Proof.
  intros H. apply isValidEmail_spec in H
    as (loc & domain & tld & -> & Hl & Hd & Ht & Pl & Pd & Pt).
  split; [|split; [|split; [|split]]].
  - rewrite !count_occ_app, (Plain_count loc Pl), (Plain_count domain Pd),
      (Plain_count tld Pt). reflexivity.
  - apply Forall_app. split; [now apply Plain_no_space|].
    constructor; [reflexivity|].
    apply Forall_app. split; [now apply Plain_no_space|].
    constructor; [reflexivity | now apply Plain_no_space].
  - rewrite !length_app. simpl.
    destruct loc, domain, tld; simpl; try congruence; lia.
  - destruct Pl as [|c l [_ Hc] _]; [congruence|]. simpl. congruence.
  - rewrite !rev_app_distr.
    destruct (rev tld) as [|c r] eqn:E.
    + apply (f_equal (@rev N)) in E. rewrite rev_involutive in E.
      simpl in E. congruence.
    + simpl. intros Hc. injection Hc as ->.
      assert (Hin : In 64 tld).
      { apply in_rev. rewrite E. now left. }
      rewrite List.Forall_forall in Pt. destruct (Pt 64 Hin) as [_ ?].
      congruence.
Qed.

Lemma accepted_email_has_one_at_witness :
  count_occ N.eq_dec (js "ayesha@example.com") 64 = 1%nat.
Proof.
  apply (accepted_email_has_one_at (js "ayesha@example.com")). reflexivity.
Defined.

(** ** The chat log and the other preferences *)

Section ChatStore.
Context (setItemSucceeds : gmap (list N) (list N) -> jsstring -> jsstring -> bool).

Lemma step_other_keys (st : Assistant.State) (e : Assistant.Event) (k : jsstring) :
  k <> Assistant.conversationKey ->
  Assistant.localStorage (Assistant.step setItemSucceeds st e) !! k
  = Assistant.localStorage st !! k.
Proof.
  intros Hk. rewrite step_store.
  destruct (setItemSucceeds _ _ _); [|reflexivity].
  apply lookup_insert_ne. congruence.
Qed.
End ChatStore.

(** X11: the chat log is the only preference the assistant writes: after
    any sequence of user and bot messages, and after clearing the
    history, every other key of the store (the theme, for one) holds what
    it held before. *)
Theorem chat_log_leaves_other_keys
    (setItemSucceeds : gmap (list N) (list N) -> jsstring -> jsstring -> bool)
    (st : Assistant.State) (events : list Assistant.Event) (k : jsstring) :
  k <> Assistant.conversationKey ->
  Assistant.localStorage (Assistant.run setItemSucceeds events st) !! k
  = Assistant.localStorage st !! k
  /\ Assistant.localStorage (Assistant.clearConversationHistory st) !! k
     = Assistant.localStorage st !! k.
Proof.
  intros Hk. split.
  - induction events as [|e events IH] using rev_ind; [reflexivity|].
    rewrite run_snoc, step_other_keys by exact Hk. exact IH.
  - apply lookup_delete_ne. congruence.
Qed.

Lemma chat_log_leaves_other_keys_witness :
  Assistant.localStorage
    (Assistant.run acceptAll longChat
       (Assistant.mkState [] {[ Theme.themeKey := js "dark" ]} [] []))
  !! Theme.themeKey
  = Some (js "dark").
Proof.
  destruct (chat_log_leaves_other_keys acceptAll
              (Assistant.mkState [] {[ Theme.themeKey := js "dark" ]} [] [])
              longChat Theme.themeKey) as [H _].
  - discriminate.
  - rewrite H. apply lookup_singleton_eq.
Defined.

(** X12: clearing the history empties the log in memory and removes it
    from the store; whatever was logged before, the log after the next
    messages holds only messages sent after the clearing (the last twenty
    of them), and a write that the host accepts stores exactly those. *)
Theorem cleared_history_starts_over
    (setItemSucceeds : gmap (list N) (list N) -> jsstring -> jsstring -> bool)
    (st : Assistant.State) (events : list Assistant.Event) (e : Assistant.Event) :
  Assistant.conversationHistory (Assistant.clearConversationHistory st) = []
  /\ Assistant.localStorage (Assistant.clearConversationHistory st)
     !! Assistant.conversationKey = None
  /\ Assistant.conversationHistory
       (Assistant.run setItemSucceeds (events ++ [e])
          (Assistant.clearConversationHistory st))
     = Assistant.sliceLast 20 (List.map Assistant.messageOf (events ++ [e]))
  /\ (setItemSucceeds
        (Assistant.localStorage
           (Assistant.run setItemSucceeds events
              (Assistant.clearConversationHistory st)))
        Assistant.conversationKey
        (Assistant.JSON_stringify
           (Assistant.sliceLast 20
              (List.map Assistant.messageOf (events ++ [e])))) = true ->
      Assistant.localStorage
        (Assistant.run setItemSucceeds (events ++ [e])
           (Assistant.clearConversationHistory st))
      !! Assistant.conversationKey
      = Some (Assistant.JSON_stringify
                (Assistant.sliceLast 20
                   (List.map Assistant.messageOf (events ++ [e]))))).
Proof.
  split; [reflexivity|]. split; [apply lookup_delete_eq|].
  pose proof (run_history setItemSucceeds events e
                (Assistant.clearConversationHistory st)) as Hh.
  cbn [Assistant.conversationHistory Assistant.clearConversationHistory app] in Hh.
  split; [exact Hh|].
  rewrite run_snoc in Hh |- *. rewrite step_store, Hh.
  intros ->. apply lookup_insert_eq.
Qed.

Lemma cleared_history_starts_over_witness :
  Assistant.localStorage
    (Assistant.run acceptAll ([] ++ [answer])
       (Assistant.clearConversationHistory
          (Assistant.run acceptAll longChat freshAssistant)))
  !! Assistant.conversationKey
  = Some (Assistant.JSON_stringify
            (Assistant.sliceLast 20
               (List.map Assistant.messageOf ([] ++ [answer])))).
Proof.
  apply (cleared_history_starts_over acceptAll
           (Assistant.run acceptAll longChat freshAssistant) [] answer).
  reflexivity.
Defined.

(** ** The chat window *)

(** X13: [handleSendMessage] sends the trimmed input.  When the input is
    empty or white space only, or its trimmed text is longer than 500 code
    units, nothing is logged, stored or scheduled, the input field keeps
    its text and one input error is reported.  Otherwise the trimmed text
    is logged as a user message, the field is emptied and one answer is
    scheduled for it. *)
Theorem send_message_checks_input
    (setItemSucceeds : gmap (list N) (list N) -> jsstring -> jsstring -> bool)
    (now : jsstring) (st : Chat.State) :
  (Blank (Chat.aiInput st) ->
   Chat.handleSendMessage setItemSucceeds now st
   = Chat.mkState (Chat.assistant st) (Chat.aiInput st) (Chat.isAIChatOpen st)
       (Chat.inputErrors st ++ [js "Please type a message"])
       (Chat.scheduled st))
  /\ ((500 < length (trim (Chat.aiInput st)))%nat ->
      Chat.handleSendMessage setItemSucceeds now st
      = Chat.mkState (Chat.assistant st) (Chat.aiInput st)
          (Chat.isAIChatOpen st)
          (Chat.inputErrors st ++ [js "Message is too long (max 500 characters)"])
          (Chat.scheduled st))
  /\ (~ Blank (Chat.aiInput st) ->
      (length (trim (Chat.aiInput st)) <= 500)%nat ->
      Chat.handleSendMessage setItemSucceeds now st
      = Chat.mkState
          (Assistant.addUserMessage setItemSucceeds (trim (Chat.aiInput st))
             now (Chat.assistant st))
          [] (Chat.isAIChatOpen st) (Chat.inputErrors st)
          (Chat.scheduled st ++ [trim (Chat.aiInput st)])
      /\ Assistant.conversationHistory
           (Chat.assistant (Chat.handleSendMessage setItemSucceeds now st))
         = Assistant.sliceLast 20
             (Assistant.conversationHistory (Chat.assistant st)
              ++ [Assistant.mkMessage Assistant.user (trim (Chat.aiInput st))
                    now])).
Proof.
  unfold Chat.handleSendMessage, Chat.validateMessage.
  split; [|split].
  - intros Hb. apply trim_nil_iff in Hb. rewrite Hb. reflexivity.
  - intros Hl. destruct (jsstring_eqb (trim (Chat.aiInput st)) []) eqn:E.
    + apply jsstring_eqb_true in E. rewrite E in Hl. simpl in Hl. lia.
    + destruct (Nat.ltb_spec 500 (length (trim (Chat.aiInput st)))); [|lia].
      reflexivity.
  - intros Hb Hl. destruct (jsstring_eqb (trim (Chat.aiInput st)) []) eqn:E.
    + apply jsstring_eqb_true in E. apply trim_nil_iff in E. contradiction.
    + destruct (Nat.ltb_spec 500 (length (trim (Chat.aiInput st)))); [lia|].
      cbn [negb Chat.assistant Chat.generateAIResponse]. split; [reflexivity|].
      apply (step_history setItemSucceeds (Chat.assistant st)
               (Assistant.UserSays (trim (Chat.aiInput st)) now)).
Qed.

Lemma send_message_checks_input_witness :
  Chat.scheduled
    (Chat.handleSendMessage acceptAll (js "2026-11-02T09:30:00.000Z")
       (freshChat (js "  Do you have rain jackets?  ")))
  = [js "Do you have rain jackets?"].
Proof.
  destruct (send_message_checks_input acceptAll (js "2026-11-02T09:30:00.000Z")
              (freshChat (js "  Do you have rain jackets?  ")))
    as (_ & _ & H).
  destruct H as [H _].
  - intros Hb. inversion Hb as [|? ? _ Hb']. inversion Hb' as [|? ? _ Hb''].
    inversion Hb'' as [|? ? Hd _]. discriminate.
  - vm_compute. lia.
  - rewrite H. reflexivity.
Defined.

(** ** The answers of the assistant *)

Lemma head_differs (a b : jsstring) : head a <> head b -> a <> b.
Proof. intros H E. apply H. now rewrite E. Qed.

Lemma getRandomResponse_cases (randomIndex : nat) (responses : list jsstring) :
  In (Chat.getRandomResponse randomIndex responses) responses
  \/ Chat.getRandomResponse randomIndex responses = [].
Proof.
  unfold Chat.getRandomResponse.
  destruct (nth_in_or_default randomIndex responses []); auto.
Qed.

Lemma getRandomResponse_In (randomIndex : nat) (responses : list jsstring) :
  (randomIndex < length responses)%nat ->
  In (Chat.getRandomResponse randomIndex responses) responses.
Proof.
  intros Hr. unfold Chat.getRandomResponse. now apply nth_In.
Qed.

Lemma random_answers_not_default (randomIndex : nat) (message : jsstring) :
  Chat.handleProductQuery randomIndex message <> Chat.defaultResponse
  /\ Chat.handleGreetingQuery randomIndex message <> Chat.defaultResponse.
Proof.
  unfold Chat.handleProductQuery, Chat.handleGreetingQuery. split.
  - destruct (getRandomResponse_cases randomIndex Chat.productResponses)
      as [H | ->]; [|discriminate].
    simpl in H. destruct H as [<- | [<- | [<- | []]]];
      apply head_differs; discriminate.
  - destruct (getRandomResponse_cases randomIndex Chat.greetingResponses)
      as [H | ->]; [|discriminate].
    simpl in H. destruct H as [<- | [<- | [<- | []]]];
      apply head_differs; discriminate.
Qed.

Lemma weather_answer_not_default (message : jsstring) :
  Chat.handleWeatherQuery message <> Chat.defaultResponse.
Proof.
  unfold Chat.handleWeatherQuery.
  destruct (_ || _); [apply head_differs; discriminate|].
  destruct (_ || _); apply head_differs; discriminate.
Qed.

Lemma fixed_answers_not_default :
  Chat.priceResponse <> Chat.defaultResponse
  /\ Chat.sizeResponse <> Chat.defaultResponse
  /\ Chat.orderResponse <> Chat.defaultResponse
  /\ Chat.deliveryResponse <> Chat.defaultResponse
  /\ Chat.contactResponse <> Chat.defaultResponse
  /\ Chat.materialResponse <> Chat.defaultResponse
  /\ Chat.returnResponse <> Chat.defaultResponse.
Proof. repeat split; apply head_differs; discriminate. Qed.

Ltac not_default :=
  first
    [ apply (proj1 (random_answers_not_default _ _))
    | apply (proj2 (random_answers_not_default _ _))
    | apply weather_answer_not_default
    | apply (proj1 fixed_answers_not_default)
    | apply (proj1 (proj2 fixed_answers_not_default))
    | apply (proj1 (proj2 (proj2 fixed_answers_not_default)))
    | apply (proj1 (proj2 (proj2 (proj2 fixed_answers_not_default))))
    | apply (proj1 (proj2 (proj2 (proj2 (proj2 fixed_answers_not_default)))))
    | apply (proj1 (proj2 (proj2 (proj2 (proj2 (proj2 fixed_answers_not_default))))))
    | apply (proj2 (proj2 (proj2 (proj2 (proj2 (proj2 fixed_answers_not_default)))))) ].

(** X14: [createAIResponse] gives its answer for unrecognised questions
    exactly when the message, lower-cased by the engine, contains none of
    the key words of the ten topics, for every draw of the random answers
    (each topic with random answers has three, and the drawn index is below
    three). *)
Theorem default_answer_iff_no_key_word
    (case : CaseMapping) (randomIndex : nat) (message : jsstring) :
  (randomIndex < 3)%nat ->
  Chat.createAIResponse randomIndex message = Chat.defaultResponse
  <-> Chat.includesAny (toLowerCase message) allWords = false.
Proof.
  intros _.
  unfold Chat.createAIResponse, Chat.handlePriceQuery, Chat.handleSizeQuery,
    Chat.handleOrderQuery, Chat.handleDeliveryQuery, Chat.handleContactQuery,
    Chat.handleMaterialQuery, Chat.handleReturnQuery, Chat.handleDefaultQuery.
  cbn [Chat.includesAny allWords productWords laterWords greetingWords
       app existsb].
  repeat match goal with
         | |- context [includes (toLowerCase message) ?w] =>
             destruct (includes (toLowerCase message) w);
             cbn [orb];
             [ split; [intros E; exfalso; revert E; not_default | discriminate]
             | ]
         end.
  split; reflexivity.
Qed.

Lemma default_answer_iff_no_key_word_witness :
  Chat.createAIResponse (case := latin1) 2 (js "Tell me a JOKE")
  = Chat.defaultResponse.
Proof.
  apply (default_answer_iff_no_key_word latin1 2 (js "Tell me a JOKE"));
    [lia | reflexivity].
Defined.

Lemma includesAny_false (message : jsstring) (words : list jsstring) :
  Chat.includesAny message words = false ->
  forall w, In w words -> includes message w = false.
Proof.
  unfold Chat.includesAny. induction words as [|x l IH]; simpl; [tauto|].
  intros H w [<- | Hw]; apply orb_false_iff in H as [H1 H2]; auto.
Qed.

(** X15: the topics are tried in a fixed order.  A message with one of
    the product words gets one of the three product answers whatever else
    it asks; a message with none of the product and topic words that
    contains [hello], [hi] or [help] anywhere, be it inside another word,
    gets one of the three greetings.  The words are looked for in the
    message as the engine lower-cases it; the drawn index is below three. *)
Theorem answers_follow_first_topic
    (case : CaseMapping) (randomIndex : nat) (message : jsstring) :
  (randomIndex < 3)%nat ->
  (Chat.includesAny (toLowerCase message) productWords = true ->
   In (Chat.createAIResponse randomIndex message) Chat.productResponses)
  /\ (Chat.includesAny (toLowerCase message) productWords = false ->
      Chat.includesAny (toLowerCase message) laterWords = false ->
      Chat.includesAny (toLowerCase message) greetingWords = true ->
      In (Chat.createAIResponse randomIndex message) Chat.greetingResponses).
Proof.
  intros Hr. unfold Chat.createAIResponse. split.
  - intros H. cbn [Chat.includesAny productWords existsb] in H.
    rewrite orb_false_r, orb_assoc in H. rewrite H.
    apply getRandomResponse_In. exact Hr.
  - intros Hp Hl Hg.
    pose proof (includesAny_false _ _ Hp) as Ep.
    pose proof (includesAny_false _ _ Hl) as El.
    repeat match goal with
           | |- context [includes (toLowerCase message) ?w] =>
               first
                 [ rewrite (Ep w) by (simpl; tauto)
                 | rewrite (El w) by (simpl; tauto) ]
           end.
    cbn [orb]. cbn [Chat.includesAny greetingWords existsb] in Hg.
    rewrite orb_false_r, orb_assoc in Hg. rewrite Hg.
    apply getRandomResponse_In. exact Hr.
Qed.

Lemma answers_follow_first_topic_witness :
  In (Chat.createAIResponse (case := latin1) 1 (js "What is this?"))
    Chat.greetingResponses
  /\ In (Chat.createAIResponse (case := latin1) 0
           (js "Hi, what does a JACKET cost?"))
       Chat.productResponses.
Proof.
  split.
  - apply (answers_follow_first_topic latin1 1 (js "What is this?"));
      [lia | reflexivity ..].
  - apply (answers_follow_first_topic latin1 0
             (js "Hi, what does a JACKET cost?")); [lia | reflexivity].
Defined.

(** ** Themes *)

Lemma changeTheme_page
    (setItemSucceeds : gmap (list N) (list N) -> jsstring -> jsstring -> bool)
    (themeName : jsstring) (st : Theme.State) :
  Theme.bodyClassName (themeAfter (Theme.changeTheme setItemSucceeds themeName st))
  = themeName ++ js "-theme"
  /\ ActiveOnly themeName
       (Theme.themeOptions
          (themeAfter (Theme.changeTheme setItemSucceeds themeName st)))
  /\ List.map fst
       (Theme.themeOptions
          (themeAfter (Theme.changeTheme setItemSucceeds themeName st)))
     = List.map fst (Theme.themeOptions st).
Proof.
  unfold Theme.changeTheme.
  cbn [Theme.localStorage Theme.bodyClassName Theme.themeOptions].
  destruct (setItemSucceeds _ _ _);
    cbn [themeAfter Theme.bodyClassName Theme.themeOptions];
    (split; [reflexivity|]; split;
     [ intros name active Hin; apply in_map_iff in Hin as ([d a] & E & _);
       cbn [fst] in E; injection E as <- <-; apply jsstring_eqb_true
     | rewrite map_map; reflexivity ]).
Qed.

(** X16: [changeTheme] sets the class of the page to the theme, makes the
    buttons of that theme the only active ones, and stores the theme
    under [hhmi-theme] without touching another key.  When the host
    refuses the write, the exception leaves the page switched and the
    store as it was: the theme holds for this visit only. *)
Theorem change_theme_switches_and_stores
    (setItemSucceeds : gmap (list N) (list N) -> jsstring -> jsstring -> bool)
    (themeName : jsstring) (st : Theme.State) :
  Theme.bodyClassName (themeAfter (Theme.changeTheme setItemSucceeds themeName st))
  = themeName ++ js "-theme"
  /\ ActiveOnly themeName
       (Theme.themeOptions
          (themeAfter (Theme.changeTheme setItemSucceeds themeName st)))
  /\ (setItemSucceeds (Theme.localStorage st) Theme.themeKey themeName = true ->
      exists st',
        Theme.changeTheme setItemSucceeds themeName st = Theme.Normal st'
        /\ Theme.localStorage st' !! Theme.themeKey = Some themeName
        /\ forall k, k <> Theme.themeKey ->
             Theme.localStorage st' !! k = Theme.localStorage st !! k)
  /\ (setItemSucceeds (Theme.localStorage st) Theme.themeKey themeName = false ->
      exists st',
        Theme.changeTheme setItemSucceeds themeName st = Theme.Throw st'
        /\ Theme.localStorage st' = Theme.localStorage st).
Proof.
  destruct (changeTheme_page setItemSucceeds themeName st) as (Hb & Ha & _).
  split; [exact Hb|]. split; [exact Ha|].
  unfold Theme.changeTheme. cbn [Theme.localStorage].
  split; intros ->; eexists; (split; [reflexivity|]).
  - cbn [Theme.localStorage]. split; [apply lookup_insert_eq|].
    intros k Hk. apply lookup_insert_ne. congruence.
  - reflexivity.
Qed.

Lemma change_theme_switches_and_stores_witness :
  exists st',
    Theme.changeTheme acceptAll (js "dark") themedPage = Theme.Normal st'
    /\ Theme.localStorage st' !! Theme.themeKey = Some (js "dark").
Proof.
  destruct (change_theme_switches_and_stores acceptAll (js "dark") themedPage)
    as (_ & _ & H & _).
  destruct (H eq_refl) as (st' & E & Hs & _).
  exists st'. split; assumption.
Defined.

(** X17: the theme survives a reload.  After a [changeTheme] that was
    stored, [loadSavedTheme] on any page with that store applies the same
    theme again: the class of the page and the active buttons are those of
    the chosen theme.  When the stored name is empty, or nothing is
    stored, it applies the theme [default]. *)
Theorem saved_theme_is_restored
    (setItemSucceeds : gmap (list N) (list N) -> jsstring -> jsstring -> bool)
    (themeName : jsstring) (st st' page : Theme.State) :
  Theme.changeTheme setItemSucceeds themeName st = Theme.Normal st' ->
  Theme.localStorage page = Theme.localStorage st' ->
  Theme.bodyClassName (themeAfter (Theme.loadSavedTheme setItemSucceeds page))
  = themeFor (Some themeName) ++ js "-theme"
  /\ ActiveOnly (themeFor (Some themeName))
       (Theme.themeOptions
          (themeAfter (Theme.loadSavedTheme setItemSucceeds page)))
  /\ (themeName <> [] -> themeFor (Some themeName) = themeName)
  /\ (forall fresh,
        Theme.localStorage fresh !! Theme.themeKey = None ->
        Theme.bodyClassName
          (themeAfter (Theme.loadSavedTheme setItemSucceeds fresh))
        = js "default-theme").
Proof.
  intros Hc Hp.
  assert (Hs : Theme.localStorage page !! Theme.themeKey = Some themeName).
  { rewrite Hp. unfold Theme.changeTheme in Hc.
    destruct (setItemSucceeds _ _ _); [|discriminate].
    injection Hc as <-. apply lookup_insert_eq. }
  assert (Hl : Theme.loadSavedTheme setItemSucceeds page
               = Theme.changeTheme setItemSucceeds (themeFor (Some themeName))
                   page).
  { unfold Theme.loadSavedTheme. rewrite Hs. now destruct themeName. }
  rewrite Hl.
  destruct (changeTheme_page setItemSucceeds (themeFor (Some themeName)) page)
    as (Hb & Ha & _).
  split; [exact Hb|]. split; [exact Ha|]. split.
  - destruct themeName; [congruence | reflexivity].
  - intros fresh Hf. unfold Theme.loadSavedTheme. rewrite Hf.
    apply (changeTheme_page setItemSucceeds (js "default") fresh).
Qed.

Lemma saved_theme_is_restored_witness :
  Theme.bodyClassName
    (themeAfter
       (Theme.loadSavedTheme acceptAll
          (Theme.mkState [] [(js "dark", false)]
             (Theme.localStorage
                (themeAfter (Theme.changeTheme acceptAll (js "dark") themedPage))))))
  = js "dark-theme".
Proof.
  apply (saved_theme_is_restored acceptAll (js "dark") themedPage
           (themeAfter (Theme.changeTheme acceptAll (js "dark") themedPage))
           (Theme.mkState [] [(js "dark", false)]
              (Theme.localStorage
                 (themeAfter (Theme.changeTheme acceptAll (js "dark") themedPage)))));
    reflexivity.
Defined.

(** ** The two validations, and the summary *)

(** X18: the validation of [HHMIBrothers/products.js] is the stricter one:
    every form it accepts is accepted by [validateForm] of [script.js],
    and a form that [script.js] accepts is rejected by the copy only for
    its empty e-mail field. *)
Theorem legacy_validation_is_stricter (st : State) :
  (fst (Legacy.validateForm st) = true -> fst (Script.validateForm st) = true)
  /\ (fst (Script.validateForm st) = true ->
      fst (Legacy.validateForm st) = false ->
      customer_email (orderForm st) = []).
Proof.
  rewrite validateForm_accepts.
  destruct (fst (Legacy.validateForm st)) eqn:E.
  - apply legacy_validateForm_accepts in E as [Hr He]. split; [auto | discriminate].
  - split; [discriminate|]. intros [Hr [He | He]] _; [exact He|].
    assert (fst (Legacy.validateForm st) = true)
      by (apply legacy_validateForm_accepts; auto).
    congruence.
Qed.

Lemma legacy_validation_is_stricter_witness :
  customer_email
    (orderForm (set_orderForm formWithoutEmail orderingLeatherJacket)) = [].
Proof.
  apply (legacy_validation_is_stricter
           (set_orderForm formWithoutEmail orderingLeatherJacket));
    reflexivity.
Defined.

(** X19: what the summary shows is what is ordered.  After a change of the
    quantity field with a product selected, the quantity and total lines
    of the summary are those of the order data that [getOrderData] builds
    in that state, as long as quantity and total are safe integers
    (magnitude below 2^53), which the engine computes exactly; with no
    product selected the summary is left alone and only a console warning
    is issued. *)
Theorem summary_agrees_with_order
    (fmt : NumberFormat) (orderTime v : jsstring) (st : State) :
  (forall p, currentProduct st = Some p ->
     SafeAmounts (Product.price p) (orOne (parseInt v)) ->
     exists data,
       Script.getOrderData orderTime
         (Script.updateOrderSummary (set_productQuantity v st)) = Some data
       /\ Order.total data = (Order.price data * Order.quantity data)%Z
       /\ summaryQuantity
            (summary (Script.updateOrderSummary (set_productQuantity v st)))
          = js "Quantity: " ++ numberToString (Order.quantity data)
       /\ summaryTotal
            (summary (Script.updateOrderSummary (set_productQuantity v st)))
          = js "Total Amount: PKR " ++ numberToLocaleString (Order.total data)
       /\ summaryPrice
            (summary (Script.updateOrderSummary (set_productQuantity v st)))
          = js "Unit Price: PKR " ++ numberToLocaleString (Order.price data))
  /\ (currentProduct st = None ->
      Script.updateOrderSummary (set_productQuantity v st)
      = emit (ConsoleWarn (js "No current product selected for order summary"))
          (set_productQuantity v st)).
Proof.
  split.
  - intros p Hp _.
    assert (E : Script.updateOrderSummary (set_productQuantity v st)
                = set_summary
                    (mkSummary
                       (js "Product: " ++ Product.name p)
                       (js "Unit Price: PKR "
                        ++ numberToLocaleString (Product.price p))
                       (js "Quantity: " ++ numberToString (orOne (parseInt v)))
                       (js "Total Amount: PKR "
                        ++ numberToLocaleString
                             (Product.price p * orOne (parseInt v))%Z))
                    (set_productQuantity v st)).
    { unfold Script.updateOrderSummary.
      change (currentProduct (set_productQuantity v st))
        with (currentProduct st).
      rewrite Hp. reflexivity. }
    rewrite E.
    rewrite (getOrderData_selected orderTime
               (set_summary _ (set_productQuantity v st)) p Hp).
    eexists. split; [reflexivity|]. repeat split.
  - intros Hn. unfold Script.updateOrderSummary.
    change (currentProduct (set_productQuantity v st)) with (currentProduct st).
    rewrite Hn. reflexivity.
Qed.

Lemma summary_agrees_with_order_witness :
  summaryTotal
    (summary
       (Script.updateOrderSummary (fmt := enUS)
          (set_productQuantity (js "3") orderingLeatherJacket)))
  = js "Total Amount: PKR 12,897".
Proof.
  destruct (summary_agrees_with_order enUS sampleOrderTime (js "3")
              orderingLeatherJacket) as [H _].
  assert (Hs : SafeAmounts (Product.price leatherJacket)
                 (orOne (parseInt (js "3"))))
    by (unfold SafeAmounts, SafeInteger; simpl; lia).
  destruct (H leatherJacket eq_refl Hs) as (data & Hd & _ & _ & Ht & _).
  rewrite Ht. injection Hd as <-. reflexivity.
Defined.
